(** * Session reconciliation and time accumulation of the productivity tracker

    A shallow embedding of [core/session_manager.py] (the session state
    machine, the local time accumulator, the suspend-gap detector, the
    break-open flag and the server totals merger), of the duration codec
    and the history summaries of [api/attendance_api.py], of the idle
    detector of [core/idle_detector.py] and of the input handlers of
    [core/activity_tracker.py], followed by the properties of the
    specification that were checked against it and by further properties
    of the code.

    Modelling conventions:
    - a [datetime] is an instant counted in microseconds (the resolution of
      Python's [datetime]); every instant the session manager handles is
      UTC, so one integer is enough;
    - a Python [float] holding seconds ([delta], [active_seconds], ...) is a
      fixed-point number, also counted in microseconds; [int(x)] truncates
      it to whole seconds; Python [int]s are [Z]. Python rounds every
      [float] addition, so a property below relates a bucket to another
      value through one addition at most, or through an inequality that
      rounding keeps;
    - the clock, the remote attendance API and the spreadsheet behind the
      local storage are outside the program: every clock reading and every
      answer of a collaborator is an explicit argument of the operation that
      consumes it, and every remote call issued is appended to a log. *)

From Stdlib Require Import ZArith QArith_base List Bool Lia String Ascii.
From Stdlib Require Import Permutation Sorted.
Import ListNotations.
Open Scope string_scope.
Open Scope Z_scope.

(** ** Python built-ins used by the code *)

Module Python.

(** [str.isspace] on the ASCII range: TAB..CR, FS..US and the space. *)
Definition is_space (c : ascii) : bool :=
  let n := Z.of_nat (nat_of_ascii c) in
  ((9 <=? n) && (n <=? 13)) || ((28 <=? n) && (n <=? 32)).

Definition is_digit (c : ascii) : bool :=
  let n := Z.of_nat (nat_of_ascii c) in
  (48 <=? n) && (n <=? 57).

Definition digit_val (c : ascii) : Z := Z.of_nat (nat_of_ascii c) - 48.

Definition digit_char (d : Z) : ascii := ascii_of_nat (Z.to_nat (48 + d)).

Fixpoint lstrip (s : string) : string :=
  match s with
  | String c r => if is_space c then lstrip r else s
  | EmptyString => EmptyString
  end.

Fixpoint rstrip (s : string) : string :=
  match s with
  | String c r =>
      match rstrip r with
      | EmptyString => if is_space c then EmptyString else String c EmptyString
      | r' => String c r'
      end
  | EmptyString => EmptyString
  end.

(** [s.strip()] *)
Definition strip (s : string) : string := rstrip (lstrip s).

(** [s.replace(old, new)] for a one-character [old]. *)
Fixpoint replace_char (old : ascii) (new : string) (s : string) : string :=
  match s with
  | String c r =>
      if Ascii.eqb c old then new ++ replace_char old new r
      else String c (replace_char old new r)
  | EmptyString => EmptyString
  end.

(** [s.split(sep, maxsplit)] for a one-character separator: at most
    [maxsplit] cuts, the last piece keeps the separators left in it. *)
Fixpoint split (sep : ascii) (maxsplit : nat) (s : string) : list string :=
  match s with
  | String c r =>
      match maxsplit with
      | O => [s]
      | S m =>
          if Ascii.eqb c sep then EmptyString :: split sep m r
          else match split sep maxsplit r with
               | piece :: pieces => String c piece :: pieces
               | [] => [String c EmptyString]
               end
      end
  | EmptyString => [EmptyString]
  end.

(** The digits of a non-negative integer, most significant first. *)
Fixpoint digits_aux (fuel : nat) (n : Z) (acc : list Z) : list Z :=
  match fuel with
  | O => acc
  | S f =>
      let acc' := (n mod 10) :: acc in
      if n / 10 =? 0 then acc' else digits_aux f (n / 10) acc'
  end.

Definition digits (n : Z) : list Z :=
  digits_aux (S (Z.to_nat (Z.log2 n))) n [].

Fixpoint string_of_digits (ds : list Z) : string :=
  match ds with
  | d :: r => String (digit_char d) (string_of_digits r)
  | [] => EmptyString
  end.

(** [str(n)] *)
Definition str (n : Z) : string :=
  if n <? 0 then String "-" (string_of_digits (digits (- n)))
  else string_of_digits (digits n).

(** [f"{n:02d}"]: sign-aware zero padding to a width of two, so a negative
    number, which already has a sign and a digit, is never padded. *)
Definition format_02d (n : Z) : string :=
  if n <? 0 then str n
  else if (length (str n) <? 2)%nat then String "0" (str n) else str n.

(** The digits of an [int(...)] literal: a non-empty run of decimal digits
    in which single underscores may separate digits. [prev] tells whether
    the previous character was a digit. *)
Fixpoint int_digits (acc : Z) (prev : bool) (s : string) : option Z :=
  match s with
  | String c r =>
      if is_digit c then int_digits (10 * acc + digit_val c) true r
      else if Ascii.eqb c "_" then
        if prev then int_digits acc false r else None
      else None
  | EmptyString => if prev then Some acc else None
  end.

(** [int(s)] for a string: surrounding white space is dropped, one sign is
    allowed; [None] stands for the [ValueError]. *)
Definition int (s : string) : option Z :=
  match strip s with
  | String "+" r => int_digits 0 false r
  | String "-" r => option_map Z.opp (int_digits 0 false r)
  | t => int_digits 0 false t
  end.

(** [[f(p) for p in l]] where [f] may raise: the first failure aborts. *)
Fixpoint map_raise {A B} (f : A -> option B) (l : list A) : option (list B) :=
  match l with
  | a :: r =>
      match f a with
      | Some b => option_map (cons b) (map_raise f r)
      | None => None
      end
  | [] => Some []
  end.

End Python.

(** ** Duration codec ([api/attendance_api.py]) *)

Module AttendanceAPI.

(** [while len(parts) < 3: parts.insert(0, 0)] *)
Definition pad_parts (parts : list Z) : list Z :=
  (repeat 0 (3 - List.length parts) ++ parts)%list.

(** [_parse_hms(hms)]; [hms] is [None] when the record has no such key. *)
Definition _parse_hms (hms : option string) : Z :=
  let text :=
    match hms with
    | None | Some EmptyString => "00:00:00"
    | Some s => s
    end in
  match Python.map_raise Python.int (Python.split ":" 2 text) with
  | Some parts =>
      let parts := pad_parts parts in
      nth 0 parts 0 * 3600 + nth 1 parts 0 * 60 + nth 2 parts 0
  | None => 0
  end.

(** [_format_hms(total_seconds)] on an integer number of seconds. *)
Definition _format_hms (total_seconds : Z) : string :=
  let hrs := total_seconds / 3600 in
  let mins := (total_seconds mod 3600) / 60 in
  let secs := total_seconds mod 60 in
  Python.format_02d hrs ++ ":" ++ Python.format_02d mins ++ ":"
    ++ Python.format_02d secs.

End AttendanceAPI.

(** ** Dates and times *)

Module Datetime.

(** An instant, in microseconds since the epoch. *)
Definition datetime : Type := Z.

(** A [float] number of seconds, as a fixed-point count of microseconds. *)
Definition seconds : Type := Z.

(** An [int] number of seconds used where a [float] is. *)
Definition of_int (n : Z) : seconds := n * 1000000.

(** [int(x)] for a [float]: truncation towards zero. *)
Definition int (x : seconds) : Z := Z.quot x 1000000.

(** [(a - b).total_seconds()] *)
Definition total_seconds (a b : datetime) : seconds := a - b.

(** [timedelta(seconds=n)] for an [int] [n]. *)
Definition timedelta (n : Z) : Z := n * 1000000.

(** [t.date()], as a day number. *)
Definition date (t : datetime) : Z := t / 86400000000.

(** [t.replace(microsecond=0)], also what [isoformat(timespec="seconds")]
    prints. *)
Definition whole_second (t : datetime) : datetime := t - t mod 1000000.

(** What [datetime.fromisoformat] returns: the wall-clock reading and, for
    an aware value, its offset from UTC (both in microseconds). *)
Definition parsed : Type := (Z * option Z)%type.

(** [dt.replace(tzinfo=utc)] when [dt] is naive, then
    [dt.astimezone(utc)]. *)
Definition to_utc (dt : parsed) : datetime :=
  match dt with
  | (wall, None) => wall
  | (wall, Some offset) => wall - offset
  end.

(** Days from the civil date, for the parser below. *)
Definition days_from_civil (y m d : Z) : Z :=
  let y' := if m <=? 2 then y - 1 else y in
  let era := y' / 400 in
  let yoe := y' - era * 400 in
  let doy := (153 * (if m >? 2 then m - 3 else m + 9) + 2) / 5 + d - 1 in
  let doe := yoe * 365 + yoe / 4 - yoe / 100 + doy in
  era * 146097 + doe - 719468.

(** A number written with exactly [n] digits, and the rest of the text. *)
Fixpoint fixed_digits (n : nat) (acc : Z) (s : string) : option (Z * string) :=
  match n with
  | O => Some (acc, s)
  | S k =>
      match s with
      | String c r =>
          if Python.is_digit c
          then fixed_digits k (10 * acc + Python.digit_val c) r
          else None
      | EmptyString => None
      end
  end.

Definition expect (c : ascii) (s : string) : option string :=
  match s with
  | String c' r => if Ascii.eqb c c' then Some r else None
  | EmptyString => None
  end.

Definition skip_one (s : string) : option string :=
  match s with
  | String _ r => Some r
  | EmptyString => None
  end.

Notation "'let?' x ':=' e 'in' k" :=
  (match e with Some x => k | None => None end)
  (at level 10, x pattern, e at level 100, k at level 200).

(** The form [YYYY-MM-DD?HH:MM:SS] with an optional [+HH:MM] or [-HH:MM]
    offset, which is what the server sends once ["Z"] is rewritten; the
    session manager itself is stated over any parser. *)
Definition fromisoformat_basic (s : string) : option parsed :=
  let? (y, s) := fixed_digits 4 0 s in
  let? s := expect "-" s in
  let? (m, s) := fixed_digits 2 0 s in
  let? s := expect "-" s in
  let? (d, s) := fixed_digits 2 0 s in
  let? s := skip_one s in
  let? (hh, s) := fixed_digits 2 0 s in
  let? s := expect ":" s in
  let? (mm, s) := fixed_digits 2 0 s in
  let? s := expect ":" s in
  let? (ss, s) := fixed_digits 2 0 s in
  let wall :=
    (days_from_civil y m d * 86400 + hh * 3600 + mm * 60 + ss) * 1000000 in
  match s with
  | EmptyString => Some (wall, None)
  | String sign s =>
      let? (oh, s) := fixed_digits 2 0 s in
      let? s := expect ":" s in
      let? (om, s) := fixed_digits 2 0 s in
      let offset := (oh * 3600 + om * 60) * 1000000 in
      match s with
      | EmptyString =>
          if Ascii.eqb sign "+" then Some (wall, Some offset)
          else if Ascii.eqb sign "-" then Some (wall, Some (- offset))
          else None
      | _ => None
      end
  end.

End Datetime.

(** ** Configuration ([config.py]) *)

Module Config.

Definition IDLE_TIMEOUT_SECONDS : Z := 5 * 60.
Definition ACTIVITY_SCORE_WINDOW_SECONDS : Z := 60.

End Config.

(** ** The session manager ([core/session_manager.py]) *)

Module Session.

Import Datetime.

Inductive SessionState : Type :=
  | LOGGED_OUT
  | CLOCKED_IN
  | ON_BREAK
  | IDLE.

Definition SessionState_eqb (a b : SessionState) : bool :=
  match a, b with
  | LOGGED_OUT, LOGGED_OUT | CLOCKED_IN, CLOCKED_IN
  | ON_BREAK, ON_BREAK | IDLE, IDLE => true
  | _, _ => false
  end.

(** The attributes of [SessionManager] that the session logic reads or
    writes. The attributes fed by the capture and window threads (recent
    windows, screenshots, application usage, work-log snapshots) are left
    out: no operation below branches on them. *)
Record SessionManager := mkSessionManager {
  state : SessionState;
  session_start : option datetime;
  break_start : option datetime;
  last_update : option datetime;
  is_idle : bool;
  current_idle_seconds : seconds;
  active_seconds : seconds;
  break_seconds : seconds;
  idle_seconds : seconds;
  _activity_samples : list Z;
  last_min_activity_percent : Q;
  _bg_running : bool;
  _last_tick : option datetime;
  _sleep_break_active : bool;
  _erp_in_time : option datetime;
  _erp_out_time : option datetime;
  _erp_break_seconds : option Z;
  _erp_active_seconds : option Z;
  _erp_state_hint : option SessionState;
  _erp_override_timestamp : seconds;
  _sleep_gap_prehandled : bool;
  _erp_break_open : bool
}.

(** Attribute assignment [self.f = v], one setter per attribute. *)
Definition set_state (v : SessionState) (s : SessionManager) : SessionManager :=
  mkSessionManager v (s.(session_start)) (s.(break_start)) (s.(last_update))
    (s.(is_idle)) (s.(current_idle_seconds)) (s.(active_seconds))
    (s.(break_seconds)) (s.(idle_seconds)) (s.(_activity_samples))
    (s.(last_min_activity_percent)) (s.(_bg_running)) (s.(_last_tick))
    (s.(_sleep_break_active)) (s.(_erp_in_time)) (s.(_erp_out_time))
    (s.(_erp_break_seconds)) (s.(_erp_active_seconds)) (s.(_erp_state_hint))
    (s.(_erp_override_timestamp)) (s.(_sleep_gap_prehandled))
    (s.(_erp_break_open)).

Definition set_session_start (v : option datetime) (s : SessionManager) : SessionManager :=
  mkSessionManager (s.(state)) v (s.(break_start)) (s.(last_update))
    (s.(is_idle)) (s.(current_idle_seconds)) (s.(active_seconds))
    (s.(break_seconds)) (s.(idle_seconds)) (s.(_activity_samples))
    (s.(last_min_activity_percent)) (s.(_bg_running)) (s.(_last_tick))
    (s.(_sleep_break_active)) (s.(_erp_in_time)) (s.(_erp_out_time))
    (s.(_erp_break_seconds)) (s.(_erp_active_seconds)) (s.(_erp_state_hint))
    (s.(_erp_override_timestamp)) (s.(_sleep_gap_prehandled))
    (s.(_erp_break_open)).

Definition set_break_start (v : option datetime) (s : SessionManager) : SessionManager :=
  mkSessionManager (s.(state)) (s.(session_start)) v (s.(last_update))
    (s.(is_idle)) (s.(current_idle_seconds)) (s.(active_seconds))
    (s.(break_seconds)) (s.(idle_seconds)) (s.(_activity_samples))
    (s.(last_min_activity_percent)) (s.(_bg_running)) (s.(_last_tick))
    (s.(_sleep_break_active)) (s.(_erp_in_time)) (s.(_erp_out_time))
    (s.(_erp_break_seconds)) (s.(_erp_active_seconds)) (s.(_erp_state_hint))
    (s.(_erp_override_timestamp)) (s.(_sleep_gap_prehandled))
    (s.(_erp_break_open)).

Definition set_last_update (v : option datetime) (s : SessionManager) : SessionManager :=
  mkSessionManager (s.(state)) (s.(session_start)) (s.(break_start)) v
    (s.(is_idle)) (s.(current_idle_seconds)) (s.(active_seconds))
    (s.(break_seconds)) (s.(idle_seconds)) (s.(_activity_samples))
    (s.(last_min_activity_percent)) (s.(_bg_running)) (s.(_last_tick))
    (s.(_sleep_break_active)) (s.(_erp_in_time)) (s.(_erp_out_time))
    (s.(_erp_break_seconds)) (s.(_erp_active_seconds)) (s.(_erp_state_hint))
    (s.(_erp_override_timestamp)) (s.(_sleep_gap_prehandled))
    (s.(_erp_break_open)).

Definition set_is_idle (v : bool) (s : SessionManager) : SessionManager :=
  mkSessionManager (s.(state)) (s.(session_start)) (s.(break_start))
    (s.(last_update)) v (s.(current_idle_seconds)) (s.(active_seconds))
    (s.(break_seconds)) (s.(idle_seconds)) (s.(_activity_samples))
    (s.(last_min_activity_percent)) (s.(_bg_running)) (s.(_last_tick))
    (s.(_sleep_break_active)) (s.(_erp_in_time)) (s.(_erp_out_time))
    (s.(_erp_break_seconds)) (s.(_erp_active_seconds)) (s.(_erp_state_hint))
    (s.(_erp_override_timestamp)) (s.(_sleep_gap_prehandled))
    (s.(_erp_break_open)).

Definition set_current_idle_seconds (v : seconds) (s : SessionManager) : SessionManager :=
  mkSessionManager (s.(state)) (s.(session_start)) (s.(break_start))
    (s.(last_update)) (s.(is_idle)) v (s.(active_seconds))
    (s.(break_seconds)) (s.(idle_seconds)) (s.(_activity_samples))
    (s.(last_min_activity_percent)) (s.(_bg_running)) (s.(_last_tick))
    (s.(_sleep_break_active)) (s.(_erp_in_time)) (s.(_erp_out_time))
    (s.(_erp_break_seconds)) (s.(_erp_active_seconds)) (s.(_erp_state_hint))
    (s.(_erp_override_timestamp)) (s.(_sleep_gap_prehandled))
    (s.(_erp_break_open)).

Definition set_active_seconds (v : seconds) (s : SessionManager) : SessionManager :=
  mkSessionManager (s.(state)) (s.(session_start)) (s.(break_start))
    (s.(last_update)) (s.(is_idle)) (s.(current_idle_seconds)) v
    (s.(break_seconds)) (s.(idle_seconds)) (s.(_activity_samples))
    (s.(last_min_activity_percent)) (s.(_bg_running)) (s.(_last_tick))
    (s.(_sleep_break_active)) (s.(_erp_in_time)) (s.(_erp_out_time))
    (s.(_erp_break_seconds)) (s.(_erp_active_seconds)) (s.(_erp_state_hint))
    (s.(_erp_override_timestamp)) (s.(_sleep_gap_prehandled))
    (s.(_erp_break_open)).

Definition set_break_seconds (v : seconds) (s : SessionManager) : SessionManager :=
  mkSessionManager (s.(state)) (s.(session_start)) (s.(break_start))
    (s.(last_update)) (s.(is_idle)) (s.(current_idle_seconds))
    (s.(active_seconds)) v (s.(idle_seconds)) (s.(_activity_samples))
    (s.(last_min_activity_percent)) (s.(_bg_running)) (s.(_last_tick))
    (s.(_sleep_break_active)) (s.(_erp_in_time)) (s.(_erp_out_time))
    (s.(_erp_break_seconds)) (s.(_erp_active_seconds)) (s.(_erp_state_hint))
    (s.(_erp_override_timestamp)) (s.(_sleep_gap_prehandled))
    (s.(_erp_break_open)).

Definition set_idle_seconds (v : seconds) (s : SessionManager) : SessionManager :=
  mkSessionManager (s.(state)) (s.(session_start)) (s.(break_start))
    (s.(last_update)) (s.(is_idle)) (s.(current_idle_seconds))
    (s.(active_seconds)) (s.(break_seconds)) v (s.(_activity_samples))
    (s.(last_min_activity_percent)) (s.(_bg_running)) (s.(_last_tick))
    (s.(_sleep_break_active)) (s.(_erp_in_time)) (s.(_erp_out_time))
    (s.(_erp_break_seconds)) (s.(_erp_active_seconds)) (s.(_erp_state_hint))
    (s.(_erp_override_timestamp)) (s.(_sleep_gap_prehandled))
    (s.(_erp_break_open)).

Definition set_activity_samples (v : list Z) (s : SessionManager) : SessionManager :=
  mkSessionManager (s.(state)) (s.(session_start)) (s.(break_start))
    (s.(last_update)) (s.(is_idle)) (s.(current_idle_seconds))
    (s.(active_seconds)) (s.(break_seconds)) (s.(idle_seconds)) v
    (s.(last_min_activity_percent)) (s.(_bg_running)) (s.(_last_tick))
    (s.(_sleep_break_active)) (s.(_erp_in_time)) (s.(_erp_out_time))
    (s.(_erp_break_seconds)) (s.(_erp_active_seconds)) (s.(_erp_state_hint))
    (s.(_erp_override_timestamp)) (s.(_sleep_gap_prehandled))
    (s.(_erp_break_open)).

Definition set_last_min_activity_percent (v : Q) (s : SessionManager) : SessionManager :=
  mkSessionManager (s.(state)) (s.(session_start)) (s.(break_start))
    (s.(last_update)) (s.(is_idle)) (s.(current_idle_seconds))
    (s.(active_seconds)) (s.(break_seconds)) (s.(idle_seconds))
    (s.(_activity_samples)) v (s.(_bg_running)) (s.(_last_tick))
    (s.(_sleep_break_active)) (s.(_erp_in_time)) (s.(_erp_out_time))
    (s.(_erp_break_seconds)) (s.(_erp_active_seconds)) (s.(_erp_state_hint))
    (s.(_erp_override_timestamp)) (s.(_sleep_gap_prehandled))
    (s.(_erp_break_open)).

Definition set_bg_running (v : bool) (s : SessionManager) : SessionManager :=
  mkSessionManager (s.(state)) (s.(session_start)) (s.(break_start))
    (s.(last_update)) (s.(is_idle)) (s.(current_idle_seconds))
    (s.(active_seconds)) (s.(break_seconds)) (s.(idle_seconds))
    (s.(_activity_samples)) (s.(last_min_activity_percent)) v
    (s.(_last_tick)) (s.(_sleep_break_active)) (s.(_erp_in_time))
    (s.(_erp_out_time)) (s.(_erp_break_seconds)) (s.(_erp_active_seconds))
    (s.(_erp_state_hint)) (s.(_erp_override_timestamp))
    (s.(_sleep_gap_prehandled)) (s.(_erp_break_open)).

Definition set_last_tick (v : option datetime) (s : SessionManager) : SessionManager :=
  mkSessionManager (s.(state)) (s.(session_start)) (s.(break_start))
    (s.(last_update)) (s.(is_idle)) (s.(current_idle_seconds))
    (s.(active_seconds)) (s.(break_seconds)) (s.(idle_seconds))
    (s.(_activity_samples)) (s.(last_min_activity_percent))
    (s.(_bg_running)) v (s.(_sleep_break_active)) (s.(_erp_in_time))
    (s.(_erp_out_time)) (s.(_erp_break_seconds)) (s.(_erp_active_seconds))
    (s.(_erp_state_hint)) (s.(_erp_override_timestamp))
    (s.(_sleep_gap_prehandled)) (s.(_erp_break_open)).

Definition set_sleep_break_active (v : bool) (s : SessionManager) : SessionManager :=
  mkSessionManager (s.(state)) (s.(session_start)) (s.(break_start))
    (s.(last_update)) (s.(is_idle)) (s.(current_idle_seconds))
    (s.(active_seconds)) (s.(break_seconds)) (s.(idle_seconds))
    (s.(_activity_samples)) (s.(last_min_activity_percent))
    (s.(_bg_running)) (s.(_last_tick)) v (s.(_erp_in_time))
    (s.(_erp_out_time)) (s.(_erp_break_seconds)) (s.(_erp_active_seconds))
    (s.(_erp_state_hint)) (s.(_erp_override_timestamp))
    (s.(_sleep_gap_prehandled)) (s.(_erp_break_open)).

Definition set_erp_in_time (v : option datetime) (s : SessionManager) : SessionManager :=
  mkSessionManager (s.(state)) (s.(session_start)) (s.(break_start))
    (s.(last_update)) (s.(is_idle)) (s.(current_idle_seconds))
    (s.(active_seconds)) (s.(break_seconds)) (s.(idle_seconds))
    (s.(_activity_samples)) (s.(last_min_activity_percent))
    (s.(_bg_running)) (s.(_last_tick)) (s.(_sleep_break_active)) v
    (s.(_erp_out_time)) (s.(_erp_break_seconds)) (s.(_erp_active_seconds))
    (s.(_erp_state_hint)) (s.(_erp_override_timestamp))
    (s.(_sleep_gap_prehandled)) (s.(_erp_break_open)).

Definition set_erp_out_time (v : option datetime) (s : SessionManager) : SessionManager :=
  mkSessionManager (s.(state)) (s.(session_start)) (s.(break_start))
    (s.(last_update)) (s.(is_idle)) (s.(current_idle_seconds))
    (s.(active_seconds)) (s.(break_seconds)) (s.(idle_seconds))
    (s.(_activity_samples)) (s.(last_min_activity_percent))
    (s.(_bg_running)) (s.(_last_tick)) (s.(_sleep_break_active))
    (s.(_erp_in_time)) v (s.(_erp_break_seconds)) (s.(_erp_active_seconds))
    (s.(_erp_state_hint)) (s.(_erp_override_timestamp))
    (s.(_sleep_gap_prehandled)) (s.(_erp_break_open)).

Definition set_erp_break_seconds (v : option Z) (s : SessionManager) : SessionManager :=
  mkSessionManager (s.(state)) (s.(session_start)) (s.(break_start))
    (s.(last_update)) (s.(is_idle)) (s.(current_idle_seconds))
    (s.(active_seconds)) (s.(break_seconds)) (s.(idle_seconds))
    (s.(_activity_samples)) (s.(last_min_activity_percent))
    (s.(_bg_running)) (s.(_last_tick)) (s.(_sleep_break_active))
    (s.(_erp_in_time)) (s.(_erp_out_time)) v (s.(_erp_active_seconds))
    (s.(_erp_state_hint)) (s.(_erp_override_timestamp))
    (s.(_sleep_gap_prehandled)) (s.(_erp_break_open)).

Definition set_erp_active_seconds (v : option Z) (s : SessionManager) : SessionManager :=
  mkSessionManager (s.(state)) (s.(session_start)) (s.(break_start))
    (s.(last_update)) (s.(is_idle)) (s.(current_idle_seconds))
    (s.(active_seconds)) (s.(break_seconds)) (s.(idle_seconds))
    (s.(_activity_samples)) (s.(last_min_activity_percent))
    (s.(_bg_running)) (s.(_last_tick)) (s.(_sleep_break_active))
    (s.(_erp_in_time)) (s.(_erp_out_time)) (s.(_erp_break_seconds)) v
    (s.(_erp_state_hint)) (s.(_erp_override_timestamp))
    (s.(_sleep_gap_prehandled)) (s.(_erp_break_open)).

Definition set_erp_state_hint (v : option SessionState) (s : SessionManager) : SessionManager :=
  mkSessionManager (s.(state)) (s.(session_start)) (s.(break_start))
    (s.(last_update)) (s.(is_idle)) (s.(current_idle_seconds))
    (s.(active_seconds)) (s.(break_seconds)) (s.(idle_seconds))
    (s.(_activity_samples)) (s.(last_min_activity_percent))
    (s.(_bg_running)) (s.(_last_tick)) (s.(_sleep_break_active))
    (s.(_erp_in_time)) (s.(_erp_out_time)) (s.(_erp_break_seconds))
    (s.(_erp_active_seconds)) v (s.(_erp_override_timestamp))
    (s.(_sleep_gap_prehandled)) (s.(_erp_break_open)).

Definition set_erp_override_timestamp (v : seconds) (s : SessionManager) : SessionManager :=
  mkSessionManager (s.(state)) (s.(session_start)) (s.(break_start))
    (s.(last_update)) (s.(is_idle)) (s.(current_idle_seconds))
    (s.(active_seconds)) (s.(break_seconds)) (s.(idle_seconds))
    (s.(_activity_samples)) (s.(last_min_activity_percent))
    (s.(_bg_running)) (s.(_last_tick)) (s.(_sleep_break_active))
    (s.(_erp_in_time)) (s.(_erp_out_time)) (s.(_erp_break_seconds))
    (s.(_erp_active_seconds)) (s.(_erp_state_hint)) v
    (s.(_sleep_gap_prehandled)) (s.(_erp_break_open)).

Definition set_sleep_gap_prehandled (v : bool) (s : SessionManager) : SessionManager :=
  mkSessionManager (s.(state)) (s.(session_start)) (s.(break_start))
    (s.(last_update)) (s.(is_idle)) (s.(current_idle_seconds))
    (s.(active_seconds)) (s.(break_seconds)) (s.(idle_seconds))
    (s.(_activity_samples)) (s.(last_min_activity_percent))
    (s.(_bg_running)) (s.(_last_tick)) (s.(_sleep_break_active))
    (s.(_erp_in_time)) (s.(_erp_out_time)) (s.(_erp_break_seconds))
    (s.(_erp_active_seconds)) (s.(_erp_state_hint))
    (s.(_erp_override_timestamp)) v (s.(_erp_break_open)).

Definition set_erp_break_open (v : bool) (s : SessionManager) : SessionManager :=
  mkSessionManager (s.(state)) (s.(session_start)) (s.(break_start))
    (s.(last_update)) (s.(is_idle)) (s.(current_idle_seconds))
    (s.(active_seconds)) (s.(break_seconds)) (s.(idle_seconds))
    (s.(_activity_samples)) (s.(last_min_activity_percent))
    (s.(_bg_running)) (s.(_last_tick)) (s.(_sleep_break_active))
    (s.(_erp_in_time)) (s.(_erp_out_time)) (s.(_erp_break_seconds))
    (s.(_erp_active_seconds)) (s.(_erp_state_hint))
    (s.(_erp_override_timestamp)) (s.(_sleep_gap_prehandled)) v.
(** *** The collaborators *)

(** A call sent to the remote attendance API. *)
Inductive ApiCall : Type :=
  | PunchIn (date : Z) (in_time : datetime)
  | PunchOut (date : Z) (out_time : datetime)
  | BreakStart (date : Z) (break_start : datetime)
  | BreakEnd (date : Z) (break_end : datetime)
  | LogEvent (wake_time : datetime) (slept_seconds : Z).

(** The answer to a call: the [ok] of the [(ok, data, status)] triple, or
    an exception (a time-out, a connection error). *)
Inductive ApiAnswer : Type :=
  | Answer (ok : bool)
  | ApiError.

(** The answer of the spreadsheet to a read or a write. *)
Inductive IoAnswer : Type :=
  | IoDone
  | IoError.

Record SleepEvent := mkSleepEvent {
  ev_date : Z;
  ev_sleep_start : datetime;
  ev_wake_time : datetime;
  ev_duration_seconds : Z
}.

(** A row of the daily history; the activity percentage and the window and
    screenshot lists of the source row are left out with the attributes
    that feed them. *)
Record HistoryRecord := mkHistoryRecord {
  h_date : Z;
  h_active : string;
  h_break : string;
  h_idle : string
}.

(** The dictionary kept by [read_local_storage] / [write_local_storage];
    a missing key reads as the empty list. *)
Record Storage := mkStorage {
  history : list HistoryRecord;
  sleep_events : list SleepEvent
}.

(** The manager, the remote calls issued so far (oldest first) and the
    local storage. *)
Record World := mkWorld {
  mgr : SessionManager;
  remote : list ApiCall;
  storage : Storage
}.

(** *** Statements: state passing with exceptions

    A statement runs in a world and either returns or raises; what it did
    to the world before raising stays done, as in Python. *)

Inductive Outcome (A : Type) : Type :=
  | Returned (a : A)
  | Raised.
Arguments Returned {A} a.
Arguments Raised {A}.

Definition Py (A : Type) : Type := World -> Outcome A * World.

Definition ret {A} (a : A) : Py A := fun w => (Returned a, w).

Definition raise {A} : Py A := fun w => (Raised, w).

Definition bind {A B} (m : Py A) (k : A -> Py B) : Py B :=
  fun w =>
    match m w with
    | (Returned a, w') => k a w'
    | (Raised, w') => (Raised, w')
    end.

(** [try: m except Exception: h] *)
Definition try_except {A} (m : Py A) (h : Py A) : Py A :=
  fun w =>
    match m w with
    | (Returned a, w') => (Returned a, w')
    | (Raised, w') => h w'
    end.

Definition self : Py SessionManager := fun w => (Returned (mgr w), w).

Definition assign (f : SessionManager -> SessionManager) : Py unit :=
  fun w => (Returned tt, mkWorld (f (mgr w)) (remote w) (storage w)).

Definition pass : Py unit := ret tt.

Notation "x <- m ;; k" := (bind m (fun x => k))
  (at level 61, m at next level, right associativity).
Notation "m ;; k" := (bind m (fun _ => k))
  (at level 61, right associativity).

(** A remote call: it is sent, then the collaborator answers. *)
Definition call (c : ApiCall) (a : ApiAnswer) : Py bool :=
  fun w =>
    let w' := mkWorld (mgr w) (remote w ++ [c])%list (storage w) in
    match a with
    | Answer ok => (Returned ok, w')
    | ApiError => (Raised, w')
    end.

Definition read_local_storage (io : IoAnswer) : Py Storage :=
  fun w =>
    match io with
    | IoDone => (Returned (storage w), w)
    | IoError => (Raised, w)
    end.

Definition write_local_storage (data : Storage) (io : IoAnswer) : Py unit :=
  fun w =>
    match io with
    | IoDone => (Returned tt, mkWorld (mgr w) (remote w) data)
    | IoError => (Raised, w)
    end.

(** *** The operations *)

(** [SessionManager.__init__] *)
Definition init : SessionManager :=
  mkSessionManager LOGGED_OUT None None None false 0 0 0 0 [] (0 # 1) false
    None false None None None None None 0 false false.

Definition init_world : World := mkWorld init [] (mkStorage [] []).

Definition _clear_erp_overrides : Py unit :=
  assign (set_erp_in_time None) ;;
  assign (set_erp_out_time None) ;;
  assign (set_erp_break_seconds None) ;;
  assign (set_erp_active_seconds None) ;;
  assign (set_erp_state_hint None) ;;
  assign (set_erp_override_timestamp 0) ;;
  assign (set_erp_break_open false).

(** [_accumulate_until_now]; [now] is its reading of the clock. *)
Definition _accumulate_until_now (now : datetime) : Py unit :=
  s <- self ;;
  match last_update s with
  | None => assign (set_last_update (Some now))
  | Some last =>
      let delta := total_seconds now last in
      if delta <=? 0 then ret tt
      else
        (match state s with
         | CLOCKED_IN =>
             if is_idle s then
               if current_idle_seconds s >=? of_int Config.IDLE_TIMEOUT_SECONDS
               then assign (set_break_seconds (break_seconds s + delta))
               else assign (set_idle_seconds (idle_seconds s + delta))
             else assign (set_active_seconds (active_seconds s + delta))
         | ON_BREAK => assign (set_break_seconds (break_seconds s + delta))
         | _ => pass
         end) ;;
        assign (set_last_update (Some now))
  end.

(** [_start_background_tasks]: the three threads are started unless they
    already run; of their state only the flag is kept. *)
Definition _start_background_tasks : Py unit :=
  s <- self ;;
  if _bg_running s then ret tt else assign (set_bg_running true).

Definition _stop_background_tasks : Py unit :=
  assign (set_bg_running false).

(** The readings and answers [clock_in] consumes: the UTC clock, the answer
    to the punch-in, then, for the block that seeds a sleep event, the read
    of the storage, the local clock and the write. *)
Record ClockInEnv := mkClockInEnv {
  ci_now : datetime;
  ci_punch : ApiAnswer;
  ci_read : IoAnswer;
  ci_local_now : datetime;
  ci_write : IoAnswer
}.

Definition clock_in (e : ClockInEnv) : Py unit :=
  assign (set_state CLOCKED_IN) ;;
  assign (set_session_start (Some (ci_now e))) ;;
  assign (set_last_update (Some (ci_now e))) ;;
  _clear_erp_overrides ;;
  assign (set_break_start None) ;;
  assign (set_is_idle false) ;;
  assign (set_current_idle_seconds 0) ;;
  assign (set_active_seconds 0) ;;
  assign (set_break_seconds 0) ;;
  assign (set_idle_seconds 0) ;;
  try_except
    (call (PunchIn (date (ci_now e)) (whole_second (ci_now e))) (ci_punch e) ;;
     pass)
    pass ;;
  _start_background_tasks ;;
  try_except
    (data <- read_local_storage (ci_read e) ;;
     match sleep_events data with
     | [] =>
         let now := ci_local_now e in
         let sleep_event :=
           mkSleepEvent (date now) (whole_second now - timedelta (5 * 60))
             (whole_second now) 300 in
         write_local_storage
           (mkStorage (history data) (sleep_events data ++ [sleep_event])%list)
           (ci_write e)
     | _ :: _ => pass
     end)
    pass.

(** [clock_in_local]: the same without the punch-in and the seeding. *)
Definition clock_in_local (now : datetime) : Py unit :=
  assign (set_state CLOCKED_IN) ;;
  assign (set_session_start (Some now)) ;;
  assign (set_last_update (Some now)) ;;
  _clear_erp_overrides ;;
  assign (set_break_start None) ;;
  assign (set_is_idle false) ;;
  assign (set_current_idle_seconds 0) ;;
  assign (set_active_seconds 0) ;;
  assign (set_break_seconds 0) ;;
  assign (set_idle_seconds 0) ;;
  _start_background_tasks.

(** [SessionManager._format_hms] *)
Definition _format_hms (total_seconds : Z) : string :=
  let seconds := total_seconds in
  let hrs := seconds / 3600 in
  let mins := (seconds mod 3600) / 60 in
  let secs := seconds mod 60 in
  Python.format_02d hrs ++ ":" ++ Python.format_02d mins ++ ":"
    ++ Python.format_02d secs.

Record Summary := mkSummary {
  total_active_time : string;
  total_break_time : string;
  total_idle_time : string
}.

(** [x or y] on two optional instants. *)
Definition or_else {A} (x y : option A) : option A :=
  match x with
  | Some _ => x
  | None => y
  end.

(** [get_daily_summary]; [now_flush] is the clock read by the flush, [now]
    the one read when the active time is derived from the shift span. *)
Definition get_daily_summary (now_flush now : datetime) : Py Summary :=
  _accumulate_until_now now_flush ;;
  s <- self ;;
  let break_total :=
    match _erp_break_seconds s with
    | Some b => Z.max 0 b
    | None => Z.max 0 (int (break_seconds s))
    end in
  let idle_total := Z.max 0 (int (idle_seconds s)) in
  let active_total :=
    match _erp_active_seconds s with
    | Some a => Z.max 0 a
    | None =>
        match or_else (_erp_in_time s) (session_start s) with
        | Some start_dt =>
            let effective_end :=
              match _erp_out_time s with
              | Some out => out
              | None =>
                  match state s, last_update s with
                  | LOGGED_OUT, Some last => last
                  | _, _ => now
                  end
              end in
            let effective_end :=
              if effective_end <? start_dt then now else effective_end in
            let total_elapsed :=
              Z.max 0 (int (total_seconds effective_end start_dt)) in
            Z.max 0 (total_elapsed - break_total)
        | None => int (active_seconds s)
        end
    end in
  ret (mkSummary (_format_hms active_total) (_format_hms break_total)
         (_format_hms idle_total)).

(** The readings and answers [clock_out] consumes, in order. *)
Record ClockOutEnv := mkClockOutEnv {
  co_now_flush : datetime;
  co_summary_flush : datetime;
  co_summary_now : datetime;
  co_local_now : datetime;
  co_read : IoAnswer;
  co_write : IoAnswer;
  co_now : datetime;
  co_punch : ApiAnswer
}.

(** [clock_out]; the result is the [ok] of the punch-out, [false] when the
    call raised. The application-usage bookkeeping and the closing of the
    last activity row of the spreadsheet are left out. *)
Definition clock_out (e : ClockOutEnv) : Py bool :=
  _accumulate_until_now (co_now_flush e) ;;
  try_except
    (summary <- get_daily_summary (co_summary_flush e) (co_summary_now e) ;;
     let record :=
       mkHistoryRecord (date (co_local_now e)) (total_active_time summary)
         (total_break_time summary) (total_idle_time summary) in
     data <- read_local_storage (co_read e) ;;
     write_local_storage
       (mkStorage (history data ++ [record])%list (sleep_events data))
       (co_write e))
    pass ;;
  _stop_background_tasks ;;
  assign (set_state LOGGED_OUT) ;;
  try_except
    (call (PunchOut (date (co_now e)) (whole_second (co_now e))) (co_punch e))
    (ret false).

Section ServerTotals.

(** [datetime.fromisoformat], a library function: [None] when it raises. *)
Variable fromisoformat : string -> option parsed.

(** [_parse_iso_datetime] *)
Definition _parse_iso_datetime (value : option string) : option datetime :=
  match value with
  | None | Some EmptyString => None
  | Some value =>
      match Python.strip value with
      | EmptyString => None
      | text =>
          let text := Python.replace_char "Z" "+00:00" text in
          match fromisoformat text with
          | Some dt => Some (to_utc dt)
          | None => None
          end
      end
  end.

(** [apply_server_totals]; [time_time] is the reading of [time.time()] and
    [now] the reading of the UTC clock, both taken only when something
    changed. *)
Definition apply_server_totals
    (in_time_iso out_time_iso : option string)
    (break_seconds_arg : option Z) (on_break : option bool)
    (active_seconds_arg : option Z)
    (time_time : seconds) (now : datetime) : Py unit :=
  let changed := false in
  s <- self ;;
  changed <-
    match _parse_iso_datetime in_time_iso with
    | Some in_dt =>
        assign (set_erp_in_time (Some in_dt)) ;;
        (match session_start s with
         | None => assign (set_session_start (Some in_dt))
         | Some start =>
             if in_dt <? start then assign (set_session_start (Some in_dt))
             else pass
         end) ;;
        ret true
    | None => ret changed
    end ;;
  changed <-
    match _parse_iso_datetime out_time_iso with
    | Some out_dt => assign (set_erp_out_time (Some out_dt)) ;; ret true
    | None => ret changed
    end ;;
  changed <-
    match break_seconds_arg with
    | Some b => assign (set_erp_break_seconds (Some (Z.max 0 b))) ;; ret true
    | None => ret changed
    end ;;
  changed <-
    match active_seconds_arg with
    | Some a => assign (set_erp_active_seconds (Some (Z.max 0 a))) ;; ret true
    | None => ret changed
    end ;;
  changed <-
    match on_break with
    | Some b =>
        assign (set_erp_state_hint (Some (if b then ON_BREAK else CLOCKED_IN))) ;;
        assign (set_erp_break_open b) ;;
        ret true
    | None => ret changed
    end ;;
  if changed : bool then
    assign (set_erp_override_timestamp time_time) ;;
    s <- self ;;
    (match _erp_state_hint s with
     | Some hint =>
         if negb (SessionState_eqb (state s) LOGGED_OUT)
         then assign (set_state hint)
         else pass
     | None => pass
     end) ;;
    assign (set_last_update (Some now))
  else pass.

End ServerTotals.

Definition is_some {A} (x : option A) : bool :=
  match x with
  | Some _ => true
  | None => false
  end.

(** [start_break]; [now_flush] is read by the flush, [now] when the break
    is stamped, [answer] is what the remote break-start call gets if it is
    sent. *)
Definition start_break (now_flush now : datetime) (answer : ApiAnswer)
  : Py bool :=
  s <- self ;;
  if negb (SessionState_eqb (state s) CLOCKED_IN) || is_some (break_start s)
  then ret false
  else
    _accumulate_until_now now_flush ;;
    assign (set_state ON_BREAK) ;;
    try_except
      (assign (set_break_start (Some now)) ;;
       s <- self ;;
       if negb (_erp_break_open s) then
         ok <- call (BreakStart (date now) (whole_second now)) answer ;;
         if ok : bool then assign (set_erp_break_open true) else pass
       else pass)
      pass ;;
    ret true.

(** [end_break] *)
Definition end_break (force : bool) (now_flush now : datetime)
    (answer : ApiAnswer) : Py bool :=
  s <- self ;;
  let on_break := SessionState_eqb (state s) ON_BREAK in
  if negb on_break && (negb force || negb (is_some (break_start s)))
  then ret false
  else
    (if negb on_break then assign (set_state ON_BREAK) else pass) ;;
    _accumulate_until_now now_flush ;;
    assign (set_state CLOCKED_IN) ;;
    try_except
      (ok <- call (BreakEnd (date now) (whole_second now)) answer ;;
       if ok : bool then assign (set_erp_break_open false) else pass)
      pass ;;
    assign (set_break_start None) ;;
    assign (set_sleep_break_active false) ;;
    ret true.

(** [deque(maxlen=n).append(x)] *)
Definition deque_append (maxlen : Z) (d : list Z) (x : Z) : list Z :=
  if Z.of_nat (List.length d) >=? maxlen then (tl d ++ [x])%list
  else (d ++ [x])%list.

(** [update_activity] *)
Definition update_activity (is_active : bool) (idle_seconds_arg : seconds)
    (now : datetime) : Py unit :=
  assign (set_is_idle (negb is_active)) ;;
  assign (set_current_idle_seconds idle_seconds_arg) ;;
  s <- self ;;
  let samples :=
    deque_append Config.ACTIVITY_SCORE_WINDOW_SECONDS (_activity_samples s)
      (if is_active then 1 else 0) in
  assign (set_activity_samples samples) ;;
  (match samples with
   | [] => pass
   | _ :: _ =>
       assign (set_last_min_activity_percent
                 (100 * fold_right Z.add 0 samples
                    # Pos.of_nat (List.length samples)))
   end) ;;
  _accumulate_until_now now.

(** [_record_sleep_event]: nothing it raises leaves it. *)
Definition _record_sleep_event (sleep_start wake_time : datetime)
    (duration_seconds : Z) (read write : IoAnswer) (log : ApiAnswer)
  : Py unit :=
  try_except
    (data <- read_local_storage read ;;
     let event :=
       mkSleepEvent (date wake_time) (whole_second sleep_start)
         (whole_second wake_time) duration_seconds in
     write_local_storage
       (mkStorage (history data) (sleep_events data ++ [event])%list) write ;;
     try_except (call (LogEvent wake_time duration_seconds) log ;; pass) pass)
    pass.

(** The readings and answers one turn of the power monitor consumes. *)
Record TickEnv := mkTickEnv {
  tk_now : datetime;
  tk_now_flush : datetime;
  tk_break : ApiAnswer;
  tk_read : IoAnswer;
  tk_write : IoAnswer;
  tk_log : ApiAnswer
}.

Definition monitor_interval_seconds : Z := 10.

(** [_power_monitor_loop], before the loop: the first tick is stamped. *)
Definition _power_monitor_start (now : datetime) : Py unit :=
  assign (set_last_tick (Some now)).

(** [_power_monitor_loop], one turn of the loop after its
    [time.sleep(monitor_interval_seconds)]. A turn that raises leaves the
    loop (the [except] around the loop swallows it). *)
Definition _power_monitor_tick (e : TickEnv) : Py unit :=
  let now := tk_now e in
  s <- self ;;
  match _last_tick s with
  | None => raise
  | Some last_tick =>
      let elapsed := total_seconds now last_tick in
      let gap := elapsed - of_int monitor_interval_seconds in
      (if gap >? of_int 60 then
         let sleep_duration_seconds :=
           int (Z.max 0 (elapsed - of_int monitor_interval_seconds)) in
         let sleep_start := now - timedelta sleep_duration_seconds in
         try_except
           (s <- self ;;
            (match state s with
             | CLOCKED_IN | ON_BREAK =>
                 (if negb (_sleep_gap_prehandled s)
                     && SessionState_eqb (state s) CLOCKED_IN
                     && negb (is_some (break_start s))
                  then
                    try_except
                      (_accumulate_until_now (tk_now_flush e) ;;
                       assign (set_state ON_BREAK) ;;
                       assign (set_break_start (Some sleep_start)) ;;
                       assign (set_sleep_break_active true) ;;
                       call (BreakStart (date sleep_start)
                               (whole_second sleep_start)) (tk_break e) ;;
                       pass)
                      pass
                  else pass) ;;
                 s <- self ;;
                 assign (set_break_seconds
                           (break_seconds s + of_int sleep_duration_seconds)) ;;
                 assign (set_sleep_gap_prehandled false)
             | _ => pass
             end) ;;
            assign (set_last_update (Some now)))
           pass ;;
         try_except
           (_record_sleep_event sleep_start now sleep_duration_seconds
              (tk_read e) (tk_write e) (tk_log e))
           pass
       else pass) ;;
      assign (set_last_tick (Some now))
  end.

End Session.

(** ** Vocabulary of the statements *)

Import Datetime Session.

(** A decimal digit, and the number a run of digits writes after [acc]. *)
Definition decimal (d : Z) : Prop := 0 <= d <= 9.

Definition value (ds : list Z) (acc : Z) : Z :=
  fold_left (fun a d => 10 * a + d) ds acc.

(** Running a statement: the world it leaves and what it returned. *)
Definition exec {A} (m : Py A) (w : World) : World := snd (m w).
Definition result {A} (m : Py A) (w : World) : Outcome A := fst (m w).

(** The manager after a flush of the accumulator at [now]. *)
Definition flushed (now : datetime) (s : SessionManager) : SessionManager :=
  mgr (exec (_accumulate_until_now now) (mkWorld s [] (mkStorage [] []))).

(** The public operations, each with the readings and answers it consumes.
    The threads of the program interleave whole operations. *)
Inductive Op : Type :=
  | ClockIn (e : ClockInEnv)
  | ClockInLocal (now : datetime)
  | ClockOut (e : ClockOutEnv)
  | GetDailySummary (now_flush now : datetime)
  | StartBreak (now_flush now : datetime) (answer : ApiAnswer)
  | EndBreak (force : bool) (now_flush now : datetime) (answer : ApiAnswer)
  | UpdateActivity (is_active : bool) (idle : seconds) (now : datetime)
  | ApplyServerTotals (in_time_iso out_time_iso : option string)
      (break_seconds_arg : option Z) (on_break : option bool)
      (active_seconds_arg : option Z) (time_time : seconds) (now : datetime)
  | Flush (now : datetime)
  | MonitorStart (now : datetime)
  | Tick (e : TickEnv).

Definition perform (parser : string -> option parsed) (op : Op) (w : World)
  : World :=
  match op with
  | ClockIn e => exec (clock_in e) w
  | ClockInLocal now => exec (clock_in_local now) w
  | ClockOut e => exec (clock_out e) w
  | GetDailySummary now_flush now => exec (get_daily_summary now_flush now) w
  | StartBreak now_flush now answer => exec (start_break now_flush now answer) w
  | EndBreak force now_flush now answer =>
      exec (end_break force now_flush now answer) w
  | UpdateActivity is_active idle now =>
      exec (update_activity is_active idle now) w
  | ApplyServerTotals i o b ob a t now =>
      exec (apply_server_totals parser i o b ob a t now) w
  | Flush now => exec (_accumulate_until_now now) w
  | MonitorStart now => exec (_power_monitor_start now) w
  | Tick e => exec (_power_monitor_tick e) w
  end.

Definition run_ops (parser : string -> option parsed) (ops : list Op)
    (w : World) : World :=
  fold_left (fun w op => perform parser op w) ops w.

(** A break is stamped exactly when the state is [ON_BREAK]. *)
Definition break_pairing (w : World) : Prop :=
  break_start (mgr w) <> None <-> state (mgr w) = ON_BREAK.

(** The calls that keep [break_pairing]: a clock-out made while no break
    is stamped, a merge of server totals that leaves [state] as it was, and
    every call of the other operations. *)
Definition keeps_pairing (parser : string -> option parsed) (w : World)
    (op : Op) : Prop :=
  match op with
  | ClockOut _ => break_start (mgr w) = None
  | ApplyServerTotals _ _ _ _ _ _ _ =>
      state (mgr (perform parser op w)) = state (mgr w)
  | _ => True
  end.

Fixpoint pairing_run (parser : string -> option parsed) (ops : list Op)
    (w : World) : Prop :=
  match ops with
  | [] => True
  | op :: rest =>
      keeps_pairing parser w op /\ pairing_run parser rest (perform parser op w)
  end.

(** ** Sample runs *)

(** A clock-in at [t0] whose punch-in is accepted. *)
Definition t0 : datetime := of_int 1700000000.

Definition sample_clock_in : ClockInEnv :=
  mkClockInEnv t0 (Answer true) IoDone t0 IoDone.

(** The world after that clock-in, the monitor thread started. *)
Definition clocked_in_world : World :=
  run_ops fromisoformat_basic [ClockIn sample_clock_in; MonitorStart t0]
    init_world.

(** A turn of the power monitor at [now] in which every collaborator
    answers. *)
Definition sample_tick (now : datetime) : TickEnv :=
  mkTickEnv now now (Answer true) IoDone IoDone (Answer true).

(** A clock-out at [now] in which every collaborator answers. *)
Definition sample_clock_out (now : datetime) : ClockOutEnv :=
  mkClockOutEnv now now now now IoDone IoDone now (Answer true).

(** Ten seconds of activity after the clock-in, then a server merge that
    reports one hour of active time. *)
Definition merged_world : World :=
  run_ops fromisoformat_basic
    [Flush (t0 + of_int 10);
     ApplyServerTotals None None None None (Some 3600)
       (t0 + of_int 11) (t0 + of_int 11)]
    clocked_in_world.

(** The session clocked out five seconds after the clock-in, the monitor
    thread still in its sleep. *)
Definition logged_out_world : World :=
  run_ops fromisoformat_basic [ClockOut (sample_clock_out (t0 + of_int 5))]
    clocked_in_world.

(** A break whose start the server accepted and whose end it did not: the
    session is clocked in again with no break stamped, and the flag still
    says the server has an open break. *)
Definition resumed_world : World :=
  run_ops fromisoformat_basic
    [StartBreak (t0 + of_int 5) (t0 + of_int 5) (Answer true);
     EndBreak false (t0 + of_int 9) (t0 + of_int 9) (Answer false)]
    clocked_in_world.

(** ** Summaries over the stored history ([api/attendance_api.py])

    The rows read are the ones [clock_out] writes: each has its date and
    its three durations. A date is a day number, so the order of the ISO
    texts of the source is the order of the integers. *)

Module LocalHistory.

(** [_load_history] *)
Definition _load_history (io : IoAnswer) : Py (list HistoryRecord) :=
  try_except
    (data <- read_local_storage io ;;
     ret (history data))
    (ret []).

(** [sum(f(r) for r in rows)] *)
Definition sum {A} (f : A -> Z) (rows : list A) : Z :=
  fold_left (fun acc r => acc + f r) rows 0.

(** [_aggregate] *)
Definition _aggregate (rows : list HistoryRecord) : Summary :=
  let active :=
    sum (fun r => AttendanceAPI._parse_hms (Some (h_active r))) rows in
  let brk :=
    sum (fun r => AttendanceAPI._parse_hms (Some (h_break r))) rows in
  let idle :=
    sum (fun r => AttendanceAPI._parse_hms (Some (h_idle r))) rows in
  mkSummary (AttendanceAPI._format_hms active) (AttendanceAPI._format_hms brk)
    (AttendanceAPI._format_hms idle).

(** [get_all_time_summary] *)
Definition get_all_time_summary (io : IoAnswer) : Py Summary :=
  try_except
    (history <- _load_history io ;;
     ret (_aggregate history))
    (ret (mkSummary "00:00:00" "00:00:00" "00:00:00")).

(** A row of [get_history]. *)
Record HistoryRow := mkHistoryRow {
  r_date : Z;
  r_active : string;
  r_break : string;
  r_idle : string;
  laptop_sleep : string
}.

(** A [dict] from dates to seconds, in insertion order. *)
Fixpoint dict_get (d : list (Z * Z)) (key : Z) (default : Z) : Z :=
  match d with
  | (k, v) :: rest => if k =? key then v else dict_get rest key default
  | [] => default
  end.

Fixpoint dict_set (d : list (Z * Z)) (key : Z) (v : Z) : list (Z * Z) :=
  match d with
  | (k, v') :: rest =>
      if k =? key then (k, v) :: rest else (k, v') :: dict_set rest key v
  | [] => [(key, v)]
  end.

(** [l.sort(key=..., reverse=True)] on the date: the sort is stable, so
    rows of one date stay in the order they had. *)
Fixpoint insert_row (x : HistoryRow) (l : list HistoryRow) : list HistoryRow :=
  match l with
  | y :: rest =>
      if r_date x <? r_date y then y :: insert_row x rest else x :: l
  | [] => [x]
  end.

Definition sort_latest_first (l : list HistoryRow) : list HistoryRow :=
  fold_right insert_row [] l.

(** [get_history]; a stored sleep event always has a date, so the test
    [if date] of the loop over the events holds. *)
Definition get_history (io : IoAnswer) : Py (list HistoryRow) :=
  try_except
    (data <- read_local_storage io ;;
     let sleep_by_date :=
       fold_left
         (fun d event =>
            dict_set d (ev_date event)
              (dict_get d (ev_date event) 0 + ev_duration_seconds event))
         (sleep_events data) [] in
     let normalized :=
       map (fun item =>
              let dt := h_date item in
              let sleep_sec := dict_get sleep_by_date dt 0 in
              let laptop_sleep :=
                if sleep_sec =? 0 then "00:00:00"
                else AttendanceAPI._format_hms sleep_sec in
              mkHistoryRow dt (h_active item) (h_break item) (h_idle item)
                laptop_sleep)
         (history data) in
     ret (sort_latest_first normalized))
    (ret []).

End LocalHistory.

(** ** The idle detector ([core/idle_detector.py]) *)

Module IdleDetector.

(** The detector; [on_idle] and [on_active] tell whether the callback was
    given ([None] is [false]), [idle_timeout] is a whole number of seconds. *)
Record IdleDetector := mkIdleDetector {
  on_idle : bool;
  on_active : bool;
  idle_timeout : Z;
  is_idle : bool
}.

(** [__init__]; the defaults of the source are no callback and 300 s. *)
Definition init (on_idle on_active : bool) (idle_timeout : Z)
  : IdleDetector :=
  mkIdleDetector on_idle on_active idle_timeout false.

(** A call of one of the two callbacks; a callback that is called
    returns. *)
Inductive Callback : Type :=
  | call_on_idle
  | call_on_active.

(** One turn of the loop of [_monitor]; [idle_time] is the answer of
    [get_idle_time], asked once a turn: by the first test when the detector
    is not idle, by the second when it is. The flag flips whether or not
    the callback is set; the callback is called only when it is. *)
Definition _monitor_turn (d : IdleDetector) (idle_time : seconds)
  : IdleDetector * list Callback :=
  if negb (is_idle d) && (idle_time >? of_int (idle_timeout d)) then
    (mkIdleDetector (on_idle d) (on_active d) (idle_timeout d) true,
     if on_idle d then [call_on_idle] else [])
  else if is_idle d && (2 * idle_time <? of_int (idle_timeout d)) then
    (mkIdleDetector (on_idle d) (on_active d) (idle_timeout d) false,
     if on_active d then [call_on_active] else [])
  else (d, []).

(** The turns of [_monitor] over the successive answers of
    [get_idle_time], with the callbacks called, oldest first. *)
Fixpoint _monitor (d : IdleDetector) (idle_times : list seconds)
  : IdleDetector * list Callback :=
  match idle_times with
  | t :: rest =>
      let '(d1, calls) := _monitor_turn d t in
      let '(d2, calls') := _monitor d1 rest in
      (d2, (calls ++ calls')%list)
  | [] => (d, [])
  end.

End IdleDetector.

(** ** The activity tracker ([core/activity_tracker.py]) *)

Module ActivityTracker.

Record ActivityTracker := mkActivityTracker {
  last_activity_time : seconds;
  _last_excel_log_time : seconds;
  _excel_log_interval : seconds;
  mouse_clicks_today : Z;
  keys_pressed_today : Z;
  _last_reset_date : Z
}.

(** The part of [__init__] that is kept; [now] is [time.time()] and
    [today] is [datetime.now().date()]. *)
Definition init (now : seconds) (today : Z) : ActivityTracker :=
  mkActivityTracker now 0 (of_int 60) 0 0 today.

(** The counters a row of the workbook carries. *)
Record ExcelRow := mkExcelRow {
  row_mouse_clicks : Z;
  row_keys_count : Z
}.

(** [_reset_daily_counts_if_needed] *)
Definition _reset_daily_counts_if_needed (current_date : Z)
    (t : ActivityTracker) : ActivityTracker :=
  if negb (current_date =? _last_reset_date t) then
    mkActivityTracker (last_activity_time t) (_last_excel_log_time t)
      (_excel_log_interval t) 0 0 current_date
  else t.

(** [_on_activity]; [t1] and [t2] are the two readings of [time.time()],
    [write] is the answer of the workbook when a row is appended. The
    result holds the row written, if any. The window title and the
    [on_activity] callback, whose failures are swallowed, are left out. *)
Definition _on_activity (t1 t2 : seconds) (write : IoAnswer)
    (t : ActivityTracker) : ActivityTracker * option ExcelRow :=
  let t :=
    mkActivityTracker t1 (_last_excel_log_time t) (_excel_log_interval t)
      (mouse_clicks_today t) (keys_pressed_today t) (_last_reset_date t) in
  let current_time := t2 in
  let should_log_to_excel :=
    current_time - _last_excel_log_time t >=? _excel_log_interval t in
  if should_log_to_excel then
    match write with
    | IoDone =>
        (mkActivityTracker (last_activity_time t) current_time
           (_excel_log_interval t) (mouse_clicks_today t)
           (keys_pressed_today t) (_last_reset_date t),
         Some (mkExcelRow (mouse_clicks_today t) (keys_pressed_today t)))
    | IoError => (t, None)
    end
  else (t, None).

(** [_on_mouse_click] *)
Definition _on_mouse_click (pressed : bool) (today : Z) (t1 t2 : seconds)
    (write : IoAnswer) (t : ActivityTracker)
  : ActivityTracker * option ExcelRow :=
  let t :=
    if pressed then
      let t := _reset_daily_counts_if_needed today t in
      mkActivityTracker (last_activity_time t) (_last_excel_log_time t)
        (_excel_log_interval t) (mouse_clicks_today t + 1)
        (keys_pressed_today t) (_last_reset_date t)
    else t in
  _on_activity t1 t2 write t.

(** [_on_key_press] *)
Definition _on_key_press (today : Z) (t1 t2 : seconds) (write : IoAnswer)
    (t : ActivityTracker) : ActivityTracker * option ExcelRow :=
  let t := _reset_daily_counts_if_needed today t in
  let t :=
    mkActivityTracker (last_activity_time t) (_last_excel_log_time t)
      (_excel_log_interval t) (mouse_clicks_today t)
      (keys_pressed_today t + 1) (_last_reset_date t) in
  _on_activity t1 t2 write t.

(** What the listeners of [start] deliver, each with the readings its
    handler takes: a move or a key release goes to [_on_activity], a click
    to [_on_mouse_click], a key press to [_on_key_press]. *)
Inductive Event : Type :=
  | Move (t1 t2 : seconds) (write : IoAnswer)
  | Click (pressed : bool) (today : Z) (t1 t2 : seconds) (write : IoAnswer)
  | KeyPress (today : Z) (t1 t2 : seconds) (write : IoAnswer)
  | KeyRelease (t1 t2 : seconds) (write : IoAnswer).

Definition handle (ev : Event) (t : ActivityTracker)
  : ActivityTracker * option ExcelRow :=
  match ev with
  | Move t1 t2 write => _on_activity t1 t2 write t
  | Click pressed today t1 t2 write =>
      _on_mouse_click pressed today t1 t2 write t
  | KeyPress today t1 t2 write => _on_key_press today t1 t2 write t
  | KeyRelease t1 t2 write => _on_activity t1 t2 write t
  end.

End ActivityTracker.

(** ** Vocabulary of the further properties *)

(** The states in which a flush credits time. *)
Definition counting (st : SessionState) : bool :=
  match st with
  | CLOCKED_IN | ON_BREAK => true
  | LOGGED_OUT | IDLE => false
  end.

(** A break started locally and reported closed by the server: the state
    is back to [CLOCKED_IN] while the break is still stamped. *)
Definition drifted_world : World :=
  run_ops fromisoformat_basic
    [StartBreak (t0 + of_int 5) (t0 + of_int 5) (Answer true);
     ApplyServerTotals None None None (Some false) None
       (t0 + of_int 6) (t0 + of_int 6)]
    clocked_in_world.

(** Whether a call of [apply_server_totals] carries anything to merge. *)
Definition carries (parser : string -> option parsed)
    (in_time_iso out_time_iso : option string)
    (break_seconds_arg : option Z) (on_break : option bool)
    (active_seconds_arg : option Z) : bool :=
  is_some (_parse_iso_datetime parser in_time_iso)
  || is_some (_parse_iso_datetime parser out_time_iso)
  || is_some break_seconds_arg || is_some active_seconds_arg
  || is_some on_break.

(** Nothing counted is negative: the three buckets, and the seconds the
    server reported. *)
Definition nonneg (s : SessionManager) : Prop :=
  0 <= active_seconds s /\ 0 <= break_seconds s /\ 0 <= idle_seconds s /\
  (forall b, _erp_break_seconds s = Some b -> 0 <= b) /\
  (forall a, _erp_active_seconds s = Some a -> 0 <= a).

(** The operations that do not clock in. *)
Definition stays_out (op : Op) : bool :=
  match op with
  | ClockIn _ | ClockInLocal _ => false
  | _ => true
  end.

(** A turn of the power monitor sees a sleep gap. *)
Definition sees_gap (e : TickEnv) (last_tick : datetime) : bool :=
  total_seconds (tk_now e) last_tick - of_int monitor_interval_seconds
  >? of_int 60.

(** The rolling window of activity samples is in order: at most sixty
    samples, each 0 or 1, and a percentage between 0 and 100. *)
Definition window_ok (s : SessionManager) : Prop :=
  (List.length (_activity_samples s) <= 60)%nat /\
  Forall (fun x => x = 0 \/ x = 1) (_activity_samples s) /\
  Qle (0 # 1) (last_min_activity_percent s) /\
  Qle (last_min_activity_percent s) (100 # 1).

(** A text holds no colon; the number of colons in a text. *)
Fixpoint colon_free (s : string) : Prop :=
  match s with
  | String c r => Ascii.eqb c ":" = false /\ colon_free r
  | EmptyString => True
  end.

Fixpoint colons (s : string) : nat :=
  match s with
  | String c r => ((if Ascii.eqb c ":" then 1 else 0) + colons r)%nat
  | EmptyString => 0%nat
  end.

(** A history row that holds three durations, as [clock_out] writes it. *)
Definition history_row (day : Z * (Z * Z * Z)) : HistoryRecord :=
  let '(d, (a, b, i)) := day in
  mkHistoryRecord d (Session._format_hms a) (Session._format_hms b)
    (Session._format_hms i).

Definition day_active (day : Z * (Z * Z * Z)) : Z := fst (fst (snd day)).
Definition day_break (day : Z * (Z * Z * Z)) : Z := snd (fst (snd day)).
Definition day_idle (day : Z * (Z * Z * Z)) : Z := snd (snd day).

(** The sum of [f] over a list. *)
Definition total {A} (f : A -> Z) (l : list A) : Z :=
  fold_right (fun x acc => f x + acc) 0 l.

(** The seconds slept on a date, by the stored sleep events. *)
Definition slept_on (d : Z) (events : list SleepEvent) : Z :=
  total ev_duration_seconds
    (filter (fun ev => ev_date ev =? d) events).

(** A row of [get_history] without its sleep column. *)
Definition stored (r : LocalHistory.HistoryRow) : HistoryRecord :=
  mkHistoryRecord (LocalHistory.r_date r) (LocalHistory.r_active r)
    (LocalHistory.r_break r) (LocalHistory.r_idle r).

(** Calls that alternate, the next one expected being [on_active] when
    [idle] holds and [on_idle] otherwise. *)
Fixpoint alternating (idle : bool) (calls : list IdleDetector.Callback)
  : Prop :=
  match calls with
  | c :: rest =>
      c = (if idle then IdleDetector.call_on_active
           else IdleDetector.call_on_idle) /\
      alternating (negb idle) rest
  | [] => True
  end.

(** Whether the callback a call goes to was given to the detector. *)
Definition given (d : IdleDetector.IdleDetector)
    (c : IdleDetector.Callback) : bool :=
  match c with
  | IdleDetector.call_on_idle => IdleDetector.on_idle d
  | IdleDetector.call_on_active => IdleDetector.on_active d
  end.

(** The number of times the idle flag flips over the answers
    [idle_times], from the value [idle]. *)
Fixpoint flips (timeout : Z) (idle : bool) (idle_times : list seconds)
  : nat :=
  match idle_times with
  | t :: rest =>
      if negb idle && (t >? of_int timeout) then S (flips timeout true rest)
      else if idle && (2 * t <? of_int timeout) then
        S (flips timeout false rest)
      else flips timeout idle rest
  | [] => O
  end.

(** The second reading of [time.time()] an event's handler takes. *)
Definition current_time (ev : ActivityTracker.Event) : seconds :=
  match ev with
  | ActivityTracker.Move _ t2 _ | ActivityTracker.Click _ _ _ t2 _
  | ActivityTracker.KeyPress _ _ t2 _ | ActivityTracker.KeyRelease _ t2 _ =>
      t2
  end.

(** The tracker after a run of events, with the rows written and the
    reading [current_time] of the call that wrote each, oldest first. *)
Fixpoint tracked (events : list ActivityTracker.Event)
    (t : ActivityTracker.ActivityTracker)
  : ActivityTracker.ActivityTracker
    * list (seconds * ActivityTracker.ExcelRow) :=
  match events with
  | ev :: rest =>
      let '(t1, row) := ActivityTracker.handle ev t in
      let '(t2, rows) := tracked rest t1 in
      (t2,
       match row with
       | Some r => (current_time ev, r) :: rows
       | None => rows
       end)
  | [] => (t, [])
  end.

(** Writes at least [gap] apart, the first at least [gap] after [last]. *)
Fixpoint spaced (gap last : seconds)
    (rows : list (seconds * ActivityTracker.ExcelRow)) : Prop :=
  match rows with
  | (at_time, _) :: rest => gap <= at_time - last /\ spaced gap at_time rest
  | [] => True
  end.

(** The date an event reads, if it reads one; whether it is a pressed
    click, a key press. *)
Definition reads_date (today : Z) (ev : ActivityTracker.Event) : Prop :=
  match ev with
  | ActivityTracker.Click true d _ _ _ | ActivityTracker.KeyPress d _ _ _ =>
      d = today
  | _ => True
  end.

Definition is_click (ev : ActivityTracker.Event) : bool :=
  match ev with
  | ActivityTracker.Click pressed _ _ _ _ => pressed
  | _ => false
  end.

Definition is_key_press (ev : ActivityTracker.Event) : bool :=
  match ev with
  | ActivityTracker.KeyPress _ _ _ _ => true
  | _ => false
  end.

(** * Properties *)

(** The clock arithmetic and the formatting stay folded while a statement
    is run. *)
Arguments date : simpl never.
Arguments whole_second : simpl never.
Arguments of_int : simpl never.
Arguments int : simpl never.
Arguments timedelta : simpl never.
Arguments total_seconds : simpl never.
Arguments Session._format_hms : simpl never.
Arguments flushed : simpl never.

Ltac run :=
  unfold exec, result, bind, self, assign, pass, ret;
  cbn [fst snd mgr remote storage].

(** The plumbing of a run: pairs, worlds and the guards on the state. *)
Ltac plumb_in H :=
  cbn [fst snd mgr remote storage SessionState_eqb negb andb orb is_some]
    in H.

(** Reading an attribute through a chain of assignments. *)
Ltac fields :=
  cbn [state session_start break_start last_update is_idle
       current_idle_seconds active_seconds break_seconds idle_seconds
       _activity_samples last_min_activity_percent _bg_running _last_tick
       _sleep_break_active _erp_in_time _erp_out_time _erp_break_seconds
       _erp_active_seconds _erp_state_hint _erp_override_timestamp
       _sleep_gap_prehandled _erp_break_open set_state set_session_start
       set_break_start set_last_update set_is_idle set_current_idle_seconds
       set_active_seconds set_break_seconds set_idle_seconds
       set_activity_samples set_last_min_activity_percent set_bg_running
       set_last_tick set_sleep_break_active set_erp_in_time
       set_erp_out_time set_erp_break_seconds set_erp_active_seconds
       set_erp_state_hint set_erp_override_timestamp
       set_sleep_gap_prehandled set_erp_break_open].

(** The manager taken apart, attribute by attribute. *)
Ltac open_mgr s :=
  destruct s as [st ss bs lu idle cur act brk idl sam pct bg lt sba
                   ein eout ebrk eact hint ets pre eopen].

(** Running a statement by need, so that a chain of assignments is walked
    once; arithmetic, text and the flush stay folded. *)
Ltac walk_in H :=
  lazy beta iota zeta delta
    -[date whole_second of_int int timedelta total_seconds
      Z.add Z.sub Z.mul Z.opp Z.leb Z.ltb Z.geb Z.gtb Z.eqb Z.max Z.min
      Z.quot Z.div Z.modulo Z.le Z.lt Session._format_hms flushed
      _accumulate_until_now app List.length fold_right Pos.of_nat
      deque_append _parse_iso_datetime not] in H.

(** ** The duration codec *)

Section Codec.

Import Python.

Lemma decimal_cases d :
  decimal d ->
  d = 0 \/ d = 1 \/ d = 2 \/ d = 3 \/ d = 4 \/
  d = 5 \/ d = 6 \/ d = 7 \/ d = 8 \/ d = 9.
Proof. unfold decimal. lia. Qed.

Ltac by_digit d H :=
  destruct (decimal_cases d H) as [->|[->|[->|[->|[->|[->|[->|[->|[->| ->]]]]]]]]].

Lemma digit_char_is_digit d : decimal d -> is_digit (digit_char d) = true.
Proof. intros H. by_digit d H; reflexivity. Qed.

Lemma digit_char_val d : decimal d -> digit_val (digit_char d) = d.
Proof. intros H. by_digit d H; reflexivity. Qed.

Lemma digit_char_not_space d : decimal d -> is_space (digit_char d) = false.
Proof. intros H. by_digit d H; reflexivity. Qed.

Lemma digit_char_not_colon d :
  decimal d -> Ascii.eqb (digit_char d) ":" = false.
Proof. intros H. by_digit d H; reflexivity. Qed.

Lemma digits_aux_app fuel : forall n acc,
  digits_aux fuel n acc = (digits_aux fuel n [] ++ acc)%list.
Proof.
  induction fuel as [|f IH]; intros n acc; simpl; [reflexivity|].
  destruct (n / 10 =? 0); [reflexivity|].
  rewrite (IH _ (n mod 10 :: acc)), (IH _ [n mod 10]), <- app_assoc.
  reflexivity.
Qed.

Lemma value_app l1 l2 acc : value (l1 ++ l2) acc = value l2 (value l1 acc).
Proof. apply fold_left_app. Qed.

Lemma digits_aux_S fuel n acc :
  digits_aux (S fuel) n acc
  = if n / 10 =? 0 then n mod 10 :: acc
    else digits_aux fuel (n / 10) (n mod 10 :: acc).
Proof. reflexivity. Qed.

Lemma digits_aux_spec fuel : forall n,
  0 <= n < 2 ^ Z.of_nat (S fuel) ->
  let ds := digits_aux (S fuel) n [] in
  ds <> [] /\ Forall decimal ds /\ value ds 0 = n.
Proof.
  assert (Hlast : forall n, 0 <= n -> n / 10 = 0 ->
            [n mod 10] <> [] /\ Forall decimal [n mod 10]
            /\ value [n mod 10] 0 = n).
  { intros n Hn Hq. repeat split; [discriminate| |].
    - constructor; [|constructor]. unfold decimal.
      pose proof (Z.mod_pos_bound n 10). lia.
    - unfold value. cbn [fold_left]. pose proof (Z.div_mod n 10). lia. }
  induction fuel as [|f IH]; intros n Hn.
  - change (2 ^ Z.of_nat 1) with 2 in Hn. rewrite digits_aux_S.
    assert (Hq : n / 10 = 0) by (apply Z.div_small; lia).
    rewrite Hq. cbn [Z.eqb]. apply Hlast; lia.
  - rewrite digits_aux_S. destruct (Z.eqb_spec (n / 10) 0) as [Hq|Hq].
    + apply Hlast; lia.
    + rewrite digits_aux_app.
      assert (Hlt : 0 <= n / 10 < 2 ^ Z.of_nat (S f)).
      { rewrite (Nat2Z.inj_succ (S f)), Z.pow_succ_r in Hn by lia.
        split; [apply Z.div_pos; lia|].
        apply Z.div_lt_upper_bound; lia. }
      destruct (IH _ Hlt) as (Hne & Hall & Hval).
      repeat split.
      * intros Happ. apply app_eq_nil in Happ. tauto.
      * apply Forall_app. split; [exact Hall|].
        constructor; [|constructor]. unfold decimal.
        pose proof (Z.mod_pos_bound n 10). lia.
      * rewrite value_app, Hval. unfold value. cbn [fold_left].
        pose proof (Z.div_mod n 10). lia.
Qed.

Lemma digits_spec n :
  0 <= n ->
  digits n <> [] /\ Forall decimal (digits n) /\ value (digits n) 0 = n.
Proof.
  intros Hn. unfold digits. apply digits_aux_spec.
  rewrite Nat2Z.inj_succ, Z2Nat.id by apply Z.log2_nonneg.
  destruct (Z.eq_dec n 0) as [->|Hnz]; [cbn; lia|].
  split; [lia|]. apply Z.log2_spec. lia.
Qed.

Lemma int_digits_string ds : forall acc prev,
  Forall decimal ds -> ds <> [] \/ prev = true ->
  int_digits acc prev (string_of_digits ds) = Some (value ds acc).
Proof.
  induction ds as [|d ds IH]; intros acc prev Hall Hne.
  - destruct Hne as [Hne| ->]; [congruence|reflexivity].
  - inversion Hall as [|? ? Hd Hds]; subst. cbn [string_of_digits int_digits].
    rewrite digit_char_is_digit, digit_char_val by assumption.
    rewrite IH by auto. reflexivity.
Qed.

Lemma rstrip_digits ds :
  Forall decimal ds -> rstrip (string_of_digits ds) = string_of_digits ds.
Proof.
  induction 1 as [|d ds Hd Hds IH]; [reflexivity|].
  cbn [string_of_digits rstrip]. rewrite IH, digit_char_not_space by assumption.
  destruct (string_of_digits ds); reflexivity.
Qed.

Lemma strip_digits ds :
  Forall decimal ds -> strip (string_of_digits ds) = string_of_digits ds.
Proof.
  intros Hall. unfold strip.
  replace (lstrip (string_of_digits ds)) with (string_of_digits ds).
  - apply rstrip_digits, Hall.
  - destruct Hall as [|d ds Hd Hds]; [reflexivity|].
    cbn [string_of_digits lstrip]. rewrite digit_char_not_space by assumption.
    reflexivity.
Qed.

Lemma int_string_of_digits ds :
  Forall decimal ds -> ds <> [] ->
  int (string_of_digits ds) = Some (value ds 0).
Proof.
  intros Hall Hne. unfold int. rewrite strip_digits by assumption.
  rewrite <- (int_digits_string ds 0 false) by auto.
  destruct ds as [|d ds]; [congruence|].
  inversion Hall as [|? ? Hd Hds]; subst.
  by_digit d Hd; reflexivity.
Qed.

(** What [f"{n:02d}"] prints for [n >= 0]: a non-empty run of digits
    whose value is [n]. *)
Lemma format_02d_digits n :
  0 <= n ->
  exists ds, format_02d n = string_of_digits ds /\
             ds <> [] /\ Forall decimal ds /\ value ds 0 = n.
Proof.
  intros Hn. destruct (digits_spec n Hn) as (Hne & Hall & Hval).
  unfold format_02d, str. destruct (Z.ltb_spec n 0) as [?|_]; [lia|].
  destruct (_ <? _)%nat.
  - exists (0 :: digits n). repeat split.
    + discriminate.
    + constructor; [unfold decimal; lia|exact Hall].
    + exact Hval.
  - exists (digits n). auto.
Qed.

Lemma split_piece ds : forall m rest,
  Forall decimal ds ->
  split ":" (S m) (string_of_digits ds ++ String ":" rest)
  = string_of_digits ds :: split ":" m rest.
Proof.
  induction ds as [|d ds IH]; intros m rest Hall.
  - reflexivity.
  - inversion Hall as [|? ? Hd Hds]; subst.
    cbn [string_of_digits append split].
    rewrite digit_char_not_colon, IH by assumption. reflexivity.
Qed.

Lemma split_last ds : forall m,
  Forall decimal ds ->
  split ":" m (string_of_digits ds) = [string_of_digits ds].
Proof.
  induction ds as [|d ds IH]; intros m Hall.
  - destruct m; reflexivity.
  - inversion Hall as [|? ? Hd Hds]; subst.
    cbn [string_of_digits split]. destruct m; [reflexivity|].
    rewrite digit_char_not_colon, IH by assumption. reflexivity.
Qed.

Lemma hms_recompose s :
  s / 3600 * 3600 + s mod 3600 / 60 * 60 + s mod 60 = s.
Proof. Z.to_euclidean_division_equations. lia. Qed.

Lemma parse_format_nonneg s :
  0 <= s ->
  AttendanceAPI._parse_hms (Some (AttendanceAPI._format_hms s)) = s.
Proof.
  intros Hs.
  assert (Hh : 0 <= s / 3600) by (apply Z.div_pos; lia).
  assert (Hm : 0 <= s mod 3600 / 60).
  { apply Z.div_pos; [|lia]. pose proof (Z.mod_pos_bound s 3600). lia. }
  assert (Hc : 0 <= s mod 60) by (pose proof (Z.mod_pos_bound s 60); lia).
  destruct (format_02d_digits _ Hh) as (hs & Eh & Hhne & Hhall & Hhval).
  destruct (format_02d_digits _ Hm) as (ms & Em & Hmne & Hmall & Hmval).
  destruct (format_02d_digits _ Hc) as (cs & Ec & Hcne & Hcall & Hcval).
  unfold AttendanceAPI._parse_hms, AttendanceAPI._format_hms.
  rewrite Eh, Em, Ec.
  replace (match string_of_digits hs ++ ":" ++ string_of_digits ms ++ ":"
                   ++ string_of_digits cs with
           | EmptyString => "00:00:00"
           | String _ _ =>
               string_of_digits hs ++ ":" ++ string_of_digits ms ++ ":"
                 ++ string_of_digits cs
           end)
    with (string_of_digits hs ++ ":" ++ string_of_digits ms ++ ":"
            ++ string_of_digits cs)
    by (destruct hs; [congruence|reflexivity]).
  change (string_of_digits hs ++ ":" ++ string_of_digits ms ++ ":"
            ++ string_of_digits cs)
    with (string_of_digits hs
            ++ String ":" (string_of_digits ms
                             ++ String ":" (string_of_digits cs))).
  rewrite !split_piece, split_last by assumption.
  cbn [map_raise]. rewrite !int_string_of_digits by assumption.
  cbn. rewrite Hhval, Hmval, Hcval. apply hms_recompose.
Qed.

End Codec.

(** C8. Duration codec round trip: for every integer [s] from 0 to 999999,
    parsing the text that [_format_hms] prints for [s] gives [s] back. The
    text is zero-padded and colon-delimited, its hours field growing past
    two digits from 360000 on, and [_parse_hms] reads a text with fewer
    than three fields as if the missing leading fields were zero. *)
Theorem codec_round_trip (s : Z) :
  0 <= s <= 999999 ->
  AttendanceAPI._parse_hms (Some (AttendanceAPI._format_hms s)) = s /\
  AttendanceAPI._format_hms 360000 = "100:00:00" /\
  AttendanceAPI._parse_hms (Some "5:30") = 5 * 60 + 30 /\
  AttendanceAPI._parse_hms (Some "42") = 42.
Proof.
  intros Hs. split; [apply parse_format_nonneg; lia|].
  repeat split; reflexivity.
Qed.

Lemma codec_round_trip_at_3661 :
  0 <= 3661 <= 999999 /\
  (AttendanceAPI._parse_hms (Some (AttendanceAPI._format_hms 3661)) = 3661 /\
   AttendanceAPI._format_hms 360000 = "100:00:00" /\
   AttendanceAPI._parse_hms (Some "5:30") = 5 * 60 + 30 /\
   AttendanceAPI._parse_hms (Some "42") = 42).
Proof. split; [lia|apply (codec_round_trip 3661); lia]. Defined.

(** ** The session manager *)



(** ** The local time accumulator *)

(** A flush always returns, and touches nothing but the manager. *)
Lemma accumulate_run now w :
  _accumulate_until_now now w
  = (Returned tt, mkWorld (flushed now (mgr w)) (remote w) (storage w)).
Proof.
  destruct w as [s r st]. unfold flushed, _accumulate_until_now. run.
  destruct (last_update s) as [last|]; [|reflexivity].
  destruct (total_seconds now last <=? 0); [reflexivity|].
  destruct (state s); try reflexivity.
  destruct (is_idle s); [|reflexivity].
  destruct (_ >=? _); reflexivity.
Qed.

Lemma exec_accumulate now w :
  exec (_accumulate_until_now now) w
  = mkWorld (flushed now (mgr w)) (remote w) (storage w).
Proof. unfold exec. rewrite accumulate_run. reflexivity. Qed.

(** What a flush leaves alone: everything but the three buckets and
    [last_update]. *)
Lemma flushed_frame now s :
  let s' := flushed now s in
  state s' = state s /\ session_start s' = session_start s /\
  break_start s' = break_start s /\ is_idle s' = is_idle s /\
  current_idle_seconds s' = current_idle_seconds s /\
  _bg_running s' = _bg_running s /\ _last_tick s' = _last_tick s /\
  _sleep_break_active s' = _sleep_break_active s /\
  _sleep_gap_prehandled s' = _sleep_gap_prehandled s /\
  _erp_in_time s' = _erp_in_time s /\ _erp_out_time s' = _erp_out_time s /\
  _erp_break_seconds s' = _erp_break_seconds s /\
  _erp_active_seconds s' = _erp_active_seconds s /\
  _erp_state_hint s' = _erp_state_hint s /\
  _erp_break_open s' = _erp_break_open s.
Proof.
  unfold flushed, _accumulate_until_now. run.
  destruct s as [st ss bs [last|] idle cur act brk idl sam pct bg lt sba
                   ein eout ebrk eact hint ets pre eopen];
    cbn [last_update state is_idle current_idle_seconds];
    [|cbn; repeat split].
  destruct (total_seconds now last <=? 0); [cbn; repeat split|].
  destruct st; try (cbn; repeat split; fail).
  destruct idle; [|cbn; repeat split].
  destruct (_ >=? _); cbn; repeat split.
Qed.

Lemma flushed_state now s : state (flushed now s) = state s.
Proof. apply (flushed_frame now s). Qed.

Lemma flushed_break_start now s : break_start (flushed now s) = break_start s.
Proof. apply (flushed_frame now s). Qed.

Lemma flushed_erp_break_open now s :
  _erp_break_open (flushed now s) = _erp_break_open s.
Proof. apply (flushed_frame now s). Qed.

Lemma flushed_erp_active_seconds now s :
  _erp_active_seconds (flushed now s) = _erp_active_seconds s.
Proof. apply (flushed_frame now s). Qed.

Lemma flushed_last_tick now s : _last_tick (flushed now s) = _last_tick s.
Proof. apply (flushed_frame now s). Qed.

Lemma flushed_sleep_gap_prehandled now s :
  _sleep_gap_prehandled (flushed now s) = _sleep_gap_prehandled s.
Proof. apply (flushed_frame now s). Qed.

(** C2. With [last_update] set and a positive [delta], a flush routes
    [delta] to one bucket chosen by the state: clocked in and not idle to
    [active_seconds]; clocked in and idle for at least the idle time-out
    (300 s) to [break_seconds]; clocked in and idle for less to
    [idle_seconds]; on break to [break_seconds]; logged out to none. The
    other buckets keep their value. *)
Theorem accumulate_routes_delta (w : World) (now last : datetime) :
  last_update (mgr w) = Some last ->
  0 < total_seconds now last ->
  let delta := total_seconds now last in
  let s := mgr w in
  let s' := mgr (exec (_accumulate_until_now now) w) in
  result (_accumulate_until_now now) w = Returned tt /\
  (state s = CLOCKED_IN -> is_idle s = false ->
     active_seconds s' = active_seconds s + delta /\
     break_seconds s' = break_seconds s /\ idle_seconds s' = idle_seconds s) /\
  (state s = CLOCKED_IN -> is_idle s = true ->
   of_int 300 <= current_idle_seconds s ->
     break_seconds s' = break_seconds s + delta /\
     active_seconds s' = active_seconds s /\ idle_seconds s' = idle_seconds s) /\
  (state s = CLOCKED_IN -> is_idle s = true ->
   current_idle_seconds s < of_int 300 ->
     idle_seconds s' = idle_seconds s + delta /\
     active_seconds s' = active_seconds s /\
     break_seconds s' = break_seconds s) /\
  (state s = ON_BREAK ->
     break_seconds s' = break_seconds s + delta /\
     active_seconds s' = active_seconds s /\ idle_seconds s' = idle_seconds s) /\
  (state s = LOGGED_OUT ->
     active_seconds s' = active_seconds s /\
     break_seconds s' = break_seconds s /\ idle_seconds s' = idle_seconds s).
Proof.
  intros Hlast Hpos delta s s'. subst s s'.
  split; [unfold result; rewrite accumulate_run; reflexivity|].
  rewrite exec_accumulate. cbn [mgr].
  unfold flushed, _accumulate_until_now. run. rewrite Hlast.
  destruct (Z.leb_spec (total_seconds now last) 0) as [Hle|_]; [lia|].
  fold delta. change (of_int Config.IDLE_TIMEOUT_SECONDS) with (of_int 300).
  split; [intros -> ->; cbn; auto|].
  split; [intros -> -> Hcmp|].
  { destruct (Z.geb_spec (current_idle_seconds (mgr w)) (of_int 300));
      [cbn; auto|lia]. }
  split; [intros -> -> Hcmp|].
  { destruct (Z.geb_spec (current_idle_seconds (mgr w)) (of_int 300));
      [lia|cbn; auto]. }
  split; intros ->; cbn; auto.
Qed.

Lemma accumulate_routes_delta_at_clock_in :
  last_update (mgr clocked_in_world) = Some t0 /\
  0 < total_seconds (t0 + of_int 5) t0 /\
  active_seconds (mgr (exec (_accumulate_until_now (t0 + of_int 5))
                         clocked_in_world))
  = of_int 5.
Proof.
  split; [reflexivity|]. split; [reflexivity|].
  destruct (accumulate_routes_delta clocked_in_world (t0 + of_int 5) t0
              eq_refl eq_refl) as (_ & Hactive & _).
  destruct (Hactive eq_refl eq_refl) as (H & _). exact H.
Defined.

(** C3, as the code has it. A flush stamps [last_update = now] when
    [last_update] was unset or not later than [now]; when [now] is earlier
    than [last_update] the flush returns at once and the world, [last_update]
    included, is as it was. *)
Theorem accumulate_stamps_last_update (w : World) (now : datetime) :
  result (_accumulate_until_now now) w = Returned tt /\
  (last_update (mgr w) = None ->
     last_update (mgr (exec (_accumulate_until_now now) w)) = Some now) /\
  (forall last, last_update (mgr w) = Some last -> last <= now ->
     last_update (mgr (exec (_accumulate_until_now now) w)) = Some now) /\
  (forall last, last_update (mgr w) = Some last -> now < last ->
     exec (_accumulate_until_now now) w = w).
Proof.
  split; [unfold result; rewrite accumulate_run; reflexivity|].
  destruct w as [s r st]. unfold exec, _accumulate_until_now. run.
  split; [intros ->; reflexivity|].
  split; intros last Hlast Hcmp; rewrite Hlast; unfold total_seconds.
  - destruct (Z.leb_spec (now - last) 0) as [Hle|Hgt].
    + cbn. rewrite Hlast. f_equal. lia.
    + destruct (state s); [| |reflexivity|]; try reflexivity.
      destruct (is_idle s); [|reflexivity].
      destruct (_ >=? _); reflexivity.
  - destruct (Z.leb_spec (now - last) 0) as [Hle|Hgt]; [reflexivity|lia].
Qed.

Lemma accumulate_stamps_last_update_at_clock_in :
  last_update
    (mgr (exec (_accumulate_until_now (t0 + of_int 5)) clocked_in_world))
  = Some (t0 + of_int 5) /\
  exec (_accumulate_until_now (t0 - of_int 5)) clocked_in_world
  = clocked_in_world.
Proof.
  destruct (accumulate_stamps_last_update clocked_in_world (t0 + of_int 5))
    as (_ & _ & Hlater & _).
  destruct (accumulate_stamps_last_update clocked_in_world (t0 - of_int 5))
    as (_ & _ & _ & Hearlier).
  split.
  - apply (Hlater t0); [reflexivity|discriminate].
  - apply (Hearlier t0); reflexivity.
Defined.

(** C3 as stated fails: a flush whose clock reading is earlier than
    [last_update] does not stamp it. *)
Lemma accumulate_keeps_later_last_update :
  last_update
    (mgr (exec (_accumulate_until_now (t0 - of_int 5)) clocked_in_world))
  <> Some (t0 - of_int 5).
Proof. vm_compute. discriminate. Qed.

(** ** Starting and ending a break *)

Lemma SessionState_eqb_eq a b : SessionState_eqb a b = true <-> a = b.
Proof. destruct a, b; cbn; split; congruence. Qed.

Lemma SessionState_eqb_neq a b : SessionState_eqb a b = false <-> a <> b.
Proof. destruct a, b; cbn; split; congruence. Qed.

(** C4. [start_break] returns [False] and changes nothing unless the state
    is [CLOCKED_IN] and no break is stamped; otherwise it flushes the
    accumulator, moves to [ON_BREAK], stamps [break_start = now], and sends
    the remote break-start call exactly when [_erp_break_open] is false,
    raising the flag when that call succeeds. *)
Theorem start_break_spec (w : World) (now_flush now : datetime)
    (answer : ApiAnswer) :
  let s := mgr w in
  let w' := exec (start_break now_flush now answer) w in
  let s' := mgr w' in
  (state s <> CLOCKED_IN \/ break_start s <> None ->
     start_break now_flush now answer w = (Returned false, w)) /\
  (state s = CLOCKED_IN -> break_start s = None ->
     result (start_break now_flush now answer) w = Returned true /\
     state s' = ON_BREAK /\ break_start s' = Some now /\
     active_seconds s' = active_seconds (flushed now_flush s) /\
     break_seconds s' = break_seconds (flushed now_flush s) /\
     idle_seconds s' = idle_seconds (flushed now_flush s) /\
     last_update s' = last_update (flushed now_flush s) /\
     (_erp_break_open s = true ->
        remote w' = remote w /\ _erp_break_open s' = true) /\
     (_erp_break_open s = false ->
        remote w' = (remote w ++ [BreakStart (date now) (whole_second now)])%list
        /\ _erp_break_open s' = match answer with
                                | Answer ok => ok
                                | ApiError => false
                                end)).
Proof.
  destruct w as [s r st]. cbn [mgr remote]. unfold exec, result.
  remember (start_break now_flush now answer _) as res eqn:Hres.
  unfold start_break, bind, self, try_except in Hres.
  cbn [fst snd mgr remote storage] in Hres. split.
  - intros Hguard. subst res.
    replace (negb (SessionState_eqb (state s) CLOCKED_IN)
             || is_some (break_start s)) with true; [reflexivity|].
    symmetry. apply orb_true_iff. destruct Hguard as [Hst|Hbs].
    + left. apply negb_true_iff, SessionState_eqb_neq, Hst.
    + right. destruct (break_start s); [reflexivity|congruence].
  - intros Hst Hbs. rewrite Hst, Hbs in Hres.
    cbn [SessionState_eqb negb orb is_some] in Hres.
    rewrite accumulate_run in Hres. unfold assign, pass, ret, call in Hres.
    cbn [fst snd mgr remote storage] in Hres.
    cbn [_erp_break_open set_break_start set_state] in Hres.
    rewrite flushed_erp_break_open in Hres.
    destruct (_erp_break_open s) eqn:Hopen; cbn [negb] in Hres.
    + subst res. cbn. rewrite flushed_erp_break_open.
      repeat split; congruence.
    + destruct answer as [[|]|]; subst res; cbn;
        rewrite ?flushed_erp_break_open; repeat split; congruence.
Qed.

Lemma start_break_spec_at_clock_in :
  state (mgr clocked_in_world) = CLOCKED_IN /\
  break_start (mgr clocked_in_world) = None /\
  _erp_break_open (mgr clocked_in_world) = false /\
  remote (exec (start_break (t0 + of_int 5) (t0 + of_int 5) (Answer true))
            clocked_in_world)
  = (remote clocked_in_world
       ++ [BreakStart (date (t0 + of_int 5)) (whole_second (t0 + of_int 5))])%list.
Proof.
  split; [reflexivity|]. split; [reflexivity|]. split; [reflexivity|].
  destruct (start_break_spec clocked_in_world (t0 + of_int 5) (t0 + of_int 5)
              (Answer true)) as (_ & Hgo).
  destruct (Hgo eq_refl eq_refl) as (_ & _ & _ & _ & _ & _ & _ & _ & Hsend).
  destruct (Hsend eq_refl) as (H & _). exact H.
Defined.

Lemma clock_in_state e w :
  state (mgr (exec (clock_in e) w)) = CLOCKED_IN /\
  break_start (mgr (exec (clock_in e) w)) = None.
Proof.
  destruct w as [s r [hist evs]]. destruct e as [cnow punch rd lnow wr].
  open_mgr s. unfold exec. remember (clock_in _ _) as res eqn:Hres.
  destruct punch as [ok|], bg, rd, evs, wr;
    walk_in Hres; subst res; split; reflexivity.
Qed.

Lemma clock_in_local_state now w :
  state (mgr (exec (clock_in_local now) w)) = CLOCKED_IN /\
  break_start (mgr (exec (clock_in_local now) w)) = None.
Proof.
  destruct w as [s r sto]. open_mgr s. unfold exec.
  remember (clock_in_local _ _) as res eqn:Hres.
  destruct bg; walk_in Hres; subst res; split; reflexivity.
Qed.

(** C9. After a clock-in, [end_break(force=True)] with no break stamped
    returns [False] without raising and leaves the world, hence
    [state = CLOCKED_IN], as it was; outside [ON_BREAK], [force] gets past
    the guard exactly when a [break_start] is stamped. *)
Theorem end_break_force_needs_break_start (w0 : World) (e : ClockInEnv)
    (force : bool) (now_flush now : datetime) (answer : ApiAnswer) :
  let w := exec (clock_in e) w0 in
  (state (mgr w) = CLOCKED_IN /\ break_start (mgr w) = None /\
   end_break true now_flush now answer w = (Returned false, w)) /\
  (forall w : World, state (mgr w) = CLOCKED_IN -> break_start (mgr w) = None ->
     end_break true now_flush now answer w = (Returned false, w)) /\
  (forall w : World, state (mgr w) <> ON_BREAK ->
     result (end_break force now_flush now answer) w
     = Returned (force && is_some (break_start (mgr w))) /\
     (force && is_some (break_start (mgr w)) = false ->
      exec (end_break force now_flush now answer) w = w)).
Proof.
  assert (Hgen : forall w : World,
             state (mgr w) = CLOCKED_IN -> break_start (mgr w) = None ->
             end_break true now_flush now answer w = (Returned false, w)).
  { intros [s r st]. cbn [mgr]. intros Hst Hbs.
    unfold end_break. run. rewrite Hst, Hbs. reflexivity. }
  intros w. split; [|split; [exact Hgen|]].
  - destruct (clock_in_state e w0) as [Hst Hbs]. fold w in Hst, Hbs.
    auto.
  - clear w. intros [s r st]. cbn [mgr]. intros Hst.
    unfold exec, result.
    remember (end_break force now_flush now answer _) as res eqn:Hres.
    unfold end_break, bind, self, assign, pass, ret in Hres.
    cbn [fst snd mgr remote storage] in Hres.
    apply SessionState_eqb_neq in Hst. rewrite Hst in Hres.
    cbn [negb andb] in Hres.
    destruct force; cbn [negb orb andb] in *; [|subst res; auto].
    destruct (break_start s); cbn [is_some negb] in *; [|subst res; auto].
    rewrite accumulate_run in Hres. unfold try_except, call in Hres.
    cbn [fst snd mgr remote storage] in Hres.
    destruct answer as [[|]|]; subst res; cbn; split;
      solve [reflexivity|discriminate].
Qed.

(** ** The daily summary *)

(** C7. When [_erp_active_seconds] is set, the summary formats it as the
    active total, whatever the local [active_seconds]; with
    [_erp_active_seconds = 3600] the active total reads "01:00:00". *)
Theorem summary_prefers_erp_active_seconds (w : World)
    (now_flush now : datetime) (a : Z) :
  _erp_active_seconds (mgr w) = Some a ->
  exists sm : Summary,
    result (get_daily_summary now_flush now) w = Returned sm /\
    total_active_time sm = Session._format_hms (Z.max 0 a) /\
    (0 <= a -> total_active_time sm = Session._format_hms a) /\
    (a = 3600 -> total_active_time sm = "01:00:00").
Proof.
  intros Ha. destruct w as [s r sto]. cbn [mgr] in Ha. unfold result.
  remember (get_daily_summary now_flush now _) as res eqn:Hres.
  unfold get_daily_summary, bind in Hres. rewrite accumulate_run in Hres.
  unfold self, ret in Hres. cbn [fst snd mgr remote storage] in Hres.
  rewrite flushed_erp_active_seconds, Ha in Hres. subst res.
  eexists. split; [reflexivity|]. cbn [total_active_time].
  split; [reflexivity|].
  split; [intros Hpos; rewrite Z.max_r by exact Hpos; reflexivity|].
  intros ->. reflexivity.
Qed.

Lemma summary_of_merged_world :
  _erp_active_seconds (mgr merged_world) = Some 3600 /\
  active_seconds (mgr merged_world) = of_int 10 /\
  exists sm : Summary,
    result (get_daily_summary (t0 + of_int 12) (t0 + of_int 12)) merged_world
    = Returned sm /\
    total_active_time sm = "01:00:00".
Proof.
  split; [reflexivity|]. split; [reflexivity|].
  destruct (summary_prefers_erp_active_seconds merged_world (t0 + of_int 12)
              (t0 + of_int 12) 3600 eq_refl) as (sm & Hsm & _ & _ & Hhour).
  exists sm. split; [exact Hsm|exact (Hhour eq_refl)].
Defined.

(** ** The server totals merger *)

(** C10. [apply_server_totals] never moves [session_start] forward: with a
    server [in_time] that is not strictly earlier than a set
    [session_start], [session_start] stays while [_erp_in_time] takes the
    server value; [session_start] is assigned only when it was unset or the
    server [in_time] is strictly earlier. *)
Theorem apply_server_totals_session_start
    (parser : string -> option parsed) (w : World)
    (in_time_iso out_time_iso : option string)
    (break_seconds_arg : option Z) (on_break : option bool)
    (active_seconds_arg : option Z) (time_time : seconds) (now : datetime) :
  let call :=
    apply_server_totals parser in_time_iso out_time_iso break_seconds_arg
      on_break active_seconds_arg time_time now in
  let s := mgr w in
  let s' := mgr (exec call w) in
  result call w = Returned tt /\
  (forall start, session_start s = Some start ->
     exists start', session_start s' = Some start' /\ start' <= start) /\
  (forall in_dt start,
     _parse_iso_datetime parser in_time_iso = Some in_dt ->
     session_start s = Some start -> start <= in_dt ->
     session_start s' = Some start /\ _erp_in_time s' = Some in_dt) /\
  (session_start s' <> session_start s ->
     exists in_dt,
       _parse_iso_datetime parser in_time_iso = Some in_dt /\
       session_start s' = Some in_dt /\
       (session_start s = None \/
        exists start, session_start s = Some start /\ in_dt < start)).
Proof.
  intros call s s'. subst call s s'. destruct w as [s r sto]. open_mgr s.
  unfold exec, result. cbn [mgr session_start].
  remember (apply_server_totals _ _ _ _ _ _ _ _ _) as res eqn:Hres.
  unfold apply_server_totals in Hres.
  destruct ss as [start|];
    destruct (_parse_iso_datetime parser in_time_iso) as [in_dt|];
    walk_in Hres; try destruct (Z.ltb_spec in_dt start) as [Hlt|Hge];
    destruct (_parse_iso_datetime parser out_time_iso) as [out_dt|];
    destruct break_seconds_arg as [b|]; destruct active_seconds_arg as [a|];
    destruct on_break as [[|]|]; walk_in Hres;
    try (destruct hint as [h|]); try (destruct st); walk_in Hres;
    subst res; cbn [fst snd mgr session_start _erp_in_time].
  all: split; [reflexivity|].
  all: split;
    [intros start0 Hs0;
     first [discriminate Hs0
           |injection Hs0 as <-; eexists; split; [reflexivity|lia]]|].
  all: split;
    [intros in_dt0 start0 Hp Hs0 Hcmp;
     first [discriminate Hp|discriminate Hs0
           |injection Hp as <-; injection Hs0 as <-; split; [|reflexivity];
            first [reflexivity|lia]]|].
  all: intros Hneq; try (exfalso; apply Hneq; reflexivity).
  all: eexists; split; [reflexivity|]; split; [reflexivity|].
  all: first [left; reflexivity|right; eexists; split; [reflexivity|lia]].
Qed.

Lemma apply_server_totals_later_in_time :
  _parse_iso_datetime fromisoformat_basic (Some "2023-11-14T22:13:25Z")
  = Some (t0 + of_int 5) /\
  session_start (mgr clocked_in_world) = Some t0 /\
  t0 <= t0 + of_int 5 /\
  session_start
    (mgr (exec (apply_server_totals fromisoformat_basic
                  (Some "2023-11-14T22:13:25Z") None None None None
                  (t0 + of_int 30) (t0 + of_int 30)) clocked_in_world))
  = Some t0 /\
  _erp_in_time
    (mgr (exec (apply_server_totals fromisoformat_basic
                  (Some "2023-11-14T22:13:25Z") None None None None
                  (t0 + of_int 30) (t0 + of_int 30)) clocked_in_world))
  = Some (t0 + of_int 5).
Proof.
  split; [reflexivity|]. split; [reflexivity|]. split; [discriminate|].
  destruct (apply_server_totals_session_start fromisoformat_basic
              clocked_in_world (Some "2023-11-14T22:13:25Z") None None None
              None (t0 + of_int 30) (t0 + of_int 30)) as (_ & _ & Hkeep & _).
  apply (Hkeep (t0 + of_int 5) t0); [reflexivity|reflexivity|discriminate].
Defined.

(** ** The suspend-gap detector *)

(** Recording a sleep event never raises and leaves the manager alone;
    when the storage answers, the event is appended. *)
Lemma record_sleep_event_run sleep_start wake duration rd wr lg w :
  exists calls sto,
    _record_sleep_event sleep_start wake duration rd wr lg w
    = (Returned tt, mkWorld (mgr w) calls sto) /\
    (rd = IoDone -> wr = IoDone ->
     sleep_events sto
     = (sleep_events (storage w)
          ++ [mkSleepEvent (date wake) (whole_second sleep_start)
                (whole_second wake) duration])%list).
Proof.
  destruct w as [s r sto].
  unfold _record_sleep_event, try_except, bind, read_local_storage,
    write_local_storage, call, pass, ret.
  destruct rd, wr, lg as [ok|]; cbn [fst snd mgr remote storage];
    eexists; eexists; (split; [reflexivity|]); intros Hrd Hwr;
    try discriminate Hrd; try discriminate Hwr; reflexivity.
Qed.

(** The manager a flush leaves, written out. *)
Lemma flushed_eq now s :
  flushed now s
  = match last_update s with
    | None => set_last_update (Some now) s
    | Some last =>
        let delta := total_seconds now last in
        if delta <=? 0 then s
        else
          set_last_update (Some now)
            match state s with
            | CLOCKED_IN =>
                if is_idle s then
                  if current_idle_seconds s
                     >=? of_int Config.IDLE_TIMEOUT_SECONDS
                  then set_break_seconds (break_seconds s + delta) s
                  else set_idle_seconds (idle_seconds s + delta) s
                else set_active_seconds (active_seconds s + delta) s
            | ON_BREAK => set_break_seconds (break_seconds s + delta) s
            | _ => s
            end
    end.
Proof.
  unfold flushed, exec, _accumulate_until_now, bind, self, assign, pass, ret.
  cbn [fst snd mgr]. destruct (last_update s) as [last|]; [|reflexivity].
  cbn zeta. destruct (total_seconds now last <=? 0); [reflexivity|].
  destruct (state s); try reflexivity.
  destruct (is_idle s); [|reflexivity].
  destruct (_ >=? _); reflexivity.
Qed.

Lemma flushed_erp_break_seconds now s :
  _erp_break_seconds (flushed now s) = _erp_break_seconds s.
Proof. apply (flushed_frame now s). Qed.

(** What a turn of the power monitor does to the manager. *)
Lemma power_monitor_tick_run e s r sto last_tick :
  _last_tick s = Some last_tick ->
  let now := tk_now e in
  let duration := int (Z.max 0 (total_seconds now last_tick - of_int 10)) in
  let starts :=
    negb (_sleep_gap_prehandled s) && SessionState_eqb (state s) CLOCKED_IN
    && negb (is_some (break_start s)) in
  let base := if starts then flushed (tk_now_flush e) s else s in
  exists s' r' sto',
    _power_monitor_tick e (mkWorld s r sto)
    = (Returned tt, mkWorld s' r' sto') /\
    (sees_gap e last_tick = false ->
     s' = set_last_tick (Some now) s /\ r' = r /\ sto' = sto) /\
    (sees_gap e last_tick = true ->
     active_seconds s' = active_seconds base /\
     idle_seconds s' = idle_seconds base /\
     break_seconds s'
     = break_seconds base + (if counting (state s) then of_int duration else 0)
     /\
     (state s = LOGGED_OUT ->
      state s' = LOGGED_OUT /\ break_start s' = break_start s)) /\
    _erp_break_seconds s' = _erp_break_seconds s /\
    _erp_active_seconds s' = _erp_active_seconds s.
Proof.
  intros Htick now duration starts base.
  remember (_power_monitor_tick e _) as res eqn:Hres.
  unfold _power_monitor_tick, bind, self, try_except, assign, pass, ret,
    call in Hres.
  plumb_in Hres. rewrite Htick in Hres.
  fold now in Hres. change monitor_interval_seconds with 10 in Hres.
  unfold sees_gap. fold now. change monitor_interval_seconds with 10.
  fold duration in Hres.
  destruct (total_seconds now last_tick - of_int 10 >? of_int 60);
    plumb_in Hres.
  2: { subst res. eexists; eexists; eexists. split; [reflexivity|].
       split; [auto|]. split; [discriminate|]. fields. auto. }
  subst starts base.
  destruct (state s) eqn:Hst; plumb_in Hres.
  2, 3: destruct (_sleep_gap_prehandled s) eqn:Hpre; plumb_in Hres.
  3: destruct (break_start s) as [b|] eqn:Hbs; plumb_in Hres.
  4: rewrite accumulate_run in Hres; plumb_in Hres;
    destruct (tk_break e) as [[|]|]; plumb_in Hres.
  all: match type of Hres with
       | context [_record_sleep_event ?a ?b ?c ?d ?f ?g ?w1] =>
           destruct (record_sleep_event_run a b c d f g w1)
             as (calls & sto' & Hrec & Hev);
           cbn [mgr remote storage] in Hrec;
           rewrite Hrec in Hres; plumb_in Hres
       end.
  all: subst res; eexists; eexists; eexists; (split; [reflexivity|]).
  all: cbn [negb andb is_some SessionState_eqb counting]; fields.
  all: rewrite ?andb_false_r; cbn [andb].
  all: split; [discriminate|].
  all: rewrite ?Z.add_0_r.
  all: split;
    [intros _;
     (split; [reflexivity|split; [reflexivity|split; [reflexivity|]]]);
     intros H; first [discriminate H|auto]|].
  all: rewrite ?flushed_erp_active_seconds, ?flushed_erp_break_seconds.
  all: split; reflexivity.
Qed.

(** What a turn that sees a gap does, case by case, with the flush it
    runs when it starts the sleep break itself. *)
Lemma power_monitor_tick_gap_run (w : World) (e : TickEnv)
    (last_tick : datetime) :
  _last_tick (mgr w) = Some last_tick ->
  of_int 60
  < total_seconds (tk_now e) last_tick - of_int monitor_interval_seconds ->
  let now := tk_now e in
  let duration := int (total_seconds now last_tick - of_int 10) in
  let sleep_start := now - timedelta duration in
  let s := mgr w in
  let w' := exec (_power_monitor_tick e) w in
  let s' := mgr w' in
  result (_power_monitor_tick e) w = Returned tt /\
  last_update s' = Some now /\ _last_tick s' = Some now /\
  (state s = ON_BREAK ->
     state s' = ON_BREAK /\
     break_seconds s' = break_seconds s + of_int duration) /\
  (state s = CLOCKED_IN ->
   break_start s <> None \/ _sleep_gap_prehandled s = true ->
     state s' = CLOCKED_IN /\
     break_seconds s' = break_seconds s + of_int duration) /\
  (state s = CLOCKED_IN -> break_start s = None ->
   _sleep_gap_prehandled s = false ->
     state s' = ON_BREAK /\ break_start s' = Some sleep_start /\
     break_seconds s'
     = break_seconds (flushed (tk_now_flush e) s) + of_int duration) /\
  (state s = LOGGED_OUT ->
     state s' = LOGGED_OUT /\ active_seconds s' = active_seconds s /\
     break_seconds s' = break_seconds s /\ idle_seconds s' = idle_seconds s) /\
  (tk_read e = IoDone -> tk_write e = IoDone ->
     sleep_events (storage w')
     = (sleep_events (storage w)
          ++ [mkSleepEvent (date now) (whole_second sleep_start)
                (whole_second now) duration])%list).
Proof.
  intros Htick Hgap now duration sleep_start s w' s'.
  subst s s' w'. destruct w as [s r sto]. cbn [mgr storage] in *.
  unfold exec, result.
  remember (_power_monitor_tick e _) as res eqn:Hres.
  unfold _power_monitor_tick, bind, self, try_except, assign, pass, ret,
    call in Hres.
  cbn [fst snd mgr remote storage] in Hres. rewrite Htick in Hres.
  fold now in Hres, Hgap.
  change monitor_interval_seconds with 10 in Hres, Hgap.
  destruct (Z.gtb_spec (total_seconds now last_tick - of_int 10) (of_int 60))
    as [_|Hno]; [|lia].
  rewrite Z.max_r in Hres by (unfold of_int in *; lia).
  fold duration in Hres. fold sleep_start in Hres. plumb_in Hres.
  destruct (state s) eqn:Hst; plumb_in Hres.
  2, 3: destruct (_sleep_gap_prehandled s) eqn:Hpre; plumb_in Hres.
  3: destruct (break_start s) as [b|] eqn:Hbs; plumb_in Hres.
  4: rewrite accumulate_run in Hres; plumb_in Hres;
    destruct (tk_break e) as [[|]|]; plumb_in Hres.
  all: match type of Hres with
       | context [_record_sleep_event ?a ?b ?c ?d ?f ?g ?w1] =>
           destruct (record_sleep_event_run a b c d f g w1)
             as (calls & sto' & Hrec & Hev);
           rewrite Hrec in Hres; cbn [fst snd mgr remote storage] in *
       end.
  all: subst res; cbn [fst snd mgr remote storage].
  all: split; [reflexivity|].
  all: split; [reflexivity|].
  all: split; [reflexivity|].
  all: split;
    [intros Hs; try discriminate Hs; split; fields;
     first [exact Hst|reflexivity]|].
  all: split;
    [intros Hs Hor; try discriminate Hs;
     try (destruct Hor as [Hor|Hor]; [congruence|congruence]);
     split; fields; first [exact Hst|reflexivity]|].
  all: split;
    [intros Hs Hb Hp; try discriminate Hs; try congruence;
     repeat split; reflexivity|].
  all: split;
    [intros Hs; try discriminate Hs; repeat split; fields;
     first [exact Hst|reflexivity]
    |exact Hev].
Qed.

(** A flush after [last_update] was set to [now] counts the time after
    [now] and nothing before it: each bucket is left alone or grows by
    [later - now]. *)
Lemma flush_counts_from s now later :
  last_update s = Some now ->
  let s' := flushed later s in
  (active_seconds s' = active_seconds s \/
   now < later /\
   active_seconds s' = active_seconds s + total_seconds later now) /\
  (break_seconds s' = break_seconds s \/
   now < later /\
   break_seconds s' = break_seconds s + total_seconds later now) /\
  (idle_seconds s' = idle_seconds s \/
   now < later /\
   idle_seconds s' = idle_seconds s + total_seconds later now).
Proof.
  intros Hlast. cbv zeta. rewrite flushed_eq, Hlast. cbv zeta.
  destruct (Z.leb_spec (total_seconds later now) 0) as [Hle|Hgt];
    [auto|].
  assert (Hlater : now < later) by (unfold total_seconds in Hgt; lia).
  destruct (state s); [|destruct (is_idle s);
                         [destruct (_ >=? _)|]| |];
    fields; auto.
Qed.

Lemma flushed_break_grows now s :
  break_seconds s <= break_seconds (flushed now s) /\
  (state s = CLOCKED_IN -> is_idle s = false ->
   break_seconds (flushed now s) = break_seconds s).
Proof.
  rewrite flushed_eq. destruct (last_update s) as [last|];
    [|fields; split; [lia|reflexivity]].
  cbv zeta.
  destruct (Z.leb_spec (total_seconds now last) 0) as [Hle|Hgt];
    [split; [lia|reflexivity]|].
  destruct (state s); [|destruct (is_idle s);
                         [destruct (_ >=? _)|]| |];
    fields; split; try lia; try reflexivity; try discriminate;
    intros _ H; discriminate H.
Qed.

(** C6, as the code has it. On a turn of the power monitor whose elapsed
    time exceeds the 10 s interval by more than 60 s: [last_update] and
    [_last_tick] become [now] in every state, so that a later flush of the
    accumulator counts only the time after [now]; while clocked in or on
    break the whole seconds of [elapsed - 10 s] are added to
    [break_seconds] (exactly these, with no other bucket moving, when the
    break was already open or the gap was handled beforehand; at least
    these when the turn itself starts the sleep break), while logged out no
    bucket changes; and when the local storage answers, the sleep event
    with its date, start, wake time and duration is appended to it. *)
Theorem power_monitor_tick_gap (w : World) (e : TickEnv)
    (last_tick : datetime) :
  _last_tick (mgr w) = Some last_tick ->
  of_int 60
  < total_seconds (tk_now e) last_tick - of_int monitor_interval_seconds ->
  let now := tk_now e in
  let duration := int (total_seconds now last_tick - of_int 10) in
  let sleep_start := now - timedelta duration in
  let s := mgr w in
  let w' := exec (_power_monitor_tick e) w in
  let s' := mgr w' in
  result (_power_monitor_tick e) w = Returned tt /\
  last_update s' = Some now /\ _last_tick s' = Some now /\
  (forall later,
     let s'' := flushed later s' in
     (active_seconds s'' = active_seconds s' \/
      now < later /\
      active_seconds s'' = active_seconds s' + total_seconds later now) /\
     (break_seconds s'' = break_seconds s' \/
      now < later /\
      break_seconds s'' = break_seconds s' + total_seconds later now) /\
     (idle_seconds s'' = idle_seconds s' \/
      now < later /\
      idle_seconds s'' = idle_seconds s' + total_seconds later now)) /\
  (state s = ON_BREAK ->
     state s' = ON_BREAK /\
     break_seconds s' = break_seconds s + of_int duration /\
     active_seconds s' = active_seconds s /\
     idle_seconds s' = idle_seconds s) /\
  (state s = CLOCKED_IN ->
   break_start s <> None \/ _sleep_gap_prehandled s = true ->
     state s' = CLOCKED_IN /\
     break_seconds s' = break_seconds s + of_int duration /\
     active_seconds s' = active_seconds s /\
     idle_seconds s' = idle_seconds s) /\
  (state s = CLOCKED_IN -> break_start s = None ->
   _sleep_gap_prehandled s = false ->
     state s' = ON_BREAK /\ break_start s' = Some sleep_start /\
     break_seconds s + of_int duration <= break_seconds s' /\
     (is_idle s = false ->
      break_seconds s' = break_seconds s + of_int duration)) /\
  (state s = LOGGED_OUT ->
     state s' = LOGGED_OUT /\ active_seconds s' = active_seconds s /\
     break_seconds s' = break_seconds s /\ idle_seconds s' = idle_seconds s) /\
  (tk_read e = IoDone -> tk_write e = IoDone ->
     sleep_events (storage w')
     = (sleep_events (storage w)
          ++ [mkSleepEvent (date now) (whole_second sleep_start)
                (whole_second now) duration])%list).
Proof.
  intros Htick Hgap now duration sleep_start s w' s'.
  destruct (power_monitor_tick_gap_run w e last_tick Htick Hgap)
    as (Hres & Hupd & Hlt & Hbrk & Hpre & Hstart & Hout & Hsto).
  fold now duration sleep_start s w' s' in Hres, Hupd, Hlt, Hbrk, Hpre,
    Hstart, Hout, Hsto.
  assert (Hsees : sees_gap e last_tick = true)
    by (unfold sees_gap; apply Z.gtb_lt; exact Hgap).
  assert (Hbuckets :
    let starts :=
      negb (_sleep_gap_prehandled s) && SessionState_eqb (state s) CLOCKED_IN
      && negb (is_some (break_start s)) in
    starts = false ->
    active_seconds s' = active_seconds s /\
    idle_seconds s' = idle_seconds s).
  { intros starts Hno. subst s s' w'. destruct w as [s r sto].
    cbn [mgr] in *.
    destruct (power_monitor_tick_run e s r sto last_tick Htick)
      as (s1 & r1 & sto1 & Hrun & _ & Hg & _).
    unfold exec. rewrite Hrun. cbn [snd mgr].
    destruct (Hg Hsees) as (Ha & Hi & _).
    fold starts in Ha, Hi. rewrite Hno in Ha, Hi. auto. }
  cbv zeta in Hbuckets.
  split; [exact Hres|]. split; [exact Hupd|]. split; [exact Hlt|].
  split; [intros later; exact (flush_counts_from s' now later Hupd)|].
  split.
  { intros Hs. destruct (Hbrk Hs) as (Hst & Hb).
    destruct Hbuckets as (Ha & Hi);
      [rewrite Hs; cbn [SessionState_eqb]; rewrite andb_false_r;
       reflexivity|].
    auto. }
  split.
  { intros Hs Hor. destruct (Hpre Hs Hor) as (Hst & Hb).
    destruct Hbuckets as (Ha & Hi).
    { destruct Hor as [Hbs|Hp].
      - destruct (break_start s); [|congruence].
        cbn [is_some negb]. apply andb_false_r.
      - rewrite Hp. reflexivity. }
    auto. }
  split.
  { intros Hs Hb Hp. destruct (Hstart Hs Hb Hp) as (Hst & Hbs & Hbk).
    destruct (flushed_break_grows (tk_now_flush e) s) as (Hge & Heq).
    split; [exact Hst|]. split; [exact Hbs|]. split; [lia|].
    intros Hidle. rewrite Hbk, (Heq Hs Hidle). reflexivity. }
  split; [exact Hout|exact Hsto].
Qed.

Lemma power_monitor_tick_gap_after_400s :
  _last_tick (mgr clocked_in_world) = Some t0 /\
  of_int 60
  < total_seconds (t0 + of_int 400) t0 - of_int monitor_interval_seconds /\
  state (mgr clocked_in_world) = CLOCKED_IN /\
  let w' :=
    exec (_power_monitor_tick (sample_tick (t0 + of_int 400)))
      clocked_in_world in
  state (mgr w') = ON_BREAK /\
  break_start (mgr w') = Some (t0 + of_int 10) /\
  break_seconds (mgr w') = of_int 390 /\
  last_update (mgr w') = Some (t0 + of_int 400).
Proof.
  split; [reflexivity|]. split; [reflexivity|]. split; [reflexivity|].
  destruct (power_monitor_tick_gap clocked_in_world
              (sample_tick (t0 + of_int 400)) t0 eq_refl eq_refl)
    as (_ & Hupd & _ & _ & _ & _ & Hstart & _).
  destruct (Hstart eq_refl eq_refl eq_refl) as (Hst & Hbs & _ & Hbrk).
  split; [exact Hst|]. split; [exact Hbs|].
  split; [exact (Hbrk eq_refl)|exact Hupd].
Defined.

(** C6 as stated fails: a turn of the monitor that finds the session
    logged out sees the same gap and adds nothing to [break_seconds]. *)
Lemma tick_while_logged_out_adds_no_break :
  state (mgr logged_out_world) = LOGGED_OUT /\
  _last_tick (mgr logged_out_world) = Some t0 /\
  of_int 60
  < total_seconds (t0 + of_int 400) t0 - of_int monitor_interval_seconds /\
  break_seconds
    (mgr (exec (_power_monitor_tick (sample_tick (t0 + of_int 400)))
            logged_out_world))
  <> break_seconds (mgr logged_out_world)
     + (total_seconds (t0 + of_int 400) t0 - of_int monitor_interval_seconds).
Proof.
  split; [reflexivity|]. split; [reflexivity|]. split; [reflexivity|].
  vm_compute. discriminate.
Qed.

(** The turn that starts the sleep break flushes at the wake reading
    before it adds the sleep duration: 400 s after the clock-in, the whole
    400 s are credited as active and 390 s of them again as break, where
    the comment of the source speaks of avoiding double counting. *)
Example tick_after_400s_counts_the_gap_twice :
  let w' :=
    exec (_power_monitor_tick (sample_tick (t0 + of_int 400)))
      clocked_in_world in
  active_seconds (mgr clocked_in_world) = 0 /\
  break_seconds (mgr clocked_in_world) = 0 /\
  active_seconds (mgr w') = of_int 400 /\
  break_seconds (mgr w') = of_int 390.
Proof. vm_compute. repeat split. Qed.

(** ** The pairing of [break_start] and [ON_BREAK] *)

Lemma get_daily_summary_run now_flush now w :
  exists sm,
    get_daily_summary now_flush now w
    = (Returned sm, mkWorld (flushed now_flush (mgr w)) (remote w) (storage w)).
Proof.
  unfold get_daily_summary, bind. rewrite accumulate_run.
  unfold self, ret. cbn [fst snd mgr remote storage].
  eexists. reflexivity.
Qed.

Lemma clock_out_state e w :
  state (mgr (exec (clock_out e) w)) = LOGGED_OUT /\
  break_start (mgr (exec (clock_out e) w)) = break_start (mgr w).
Proof.
  destruct w as [s r sto]. unfold exec.
  remember (clock_out e _) as res eqn:Hres.
  unfold clock_out, bind in Hres. rewrite accumulate_run in Hres.
  unfold try_except, _stop_background_tasks, read_local_storage,
    write_local_storage, call, assign, pass, ret in Hres.
  destruct (get_daily_summary_run (co_summary_flush e) (co_summary_now e)
              (mkWorld (flushed (co_now_flush e) (mgr (mkWorld s r sto)))
                 (remote (mkWorld s r sto)) (storage (mkWorld s r sto))))
    as (sm & Hsm).
  rewrite Hsm in Hres. plumb_in Hres.
  destruct (co_read e), (co_write e), (co_punch e) as [ok|];
    plumb_in Hres; subst res; cbn [fst snd mgr]; fields;
    rewrite !flushed_break_start; split; reflexivity.
Qed.

Lemma start_break_pairing now_flush now answer w :
  break_pairing w ->
  break_pairing (exec (start_break now_flush now answer) w).
Proof.
  unfold break_pairing. destruct w as [s r sto]. cbn [mgr]. intros Hinv.
  unfold exec. remember (start_break _ _ _ _) as res eqn:Hres.
  unfold start_break, bind, self, try_except, assign, call, pass, ret
    in Hres.
  plumb_in Hres.
  destruct (negb (SessionState_eqb (state s) CLOCKED_IN)
            || is_some (break_start s)).
  - subst res. exact Hinv.
  - rewrite accumulate_run in Hres. plumb_in Hres.
    destruct (_erp_break_open _); plumb_in Hres;
      [|destruct answer as [[|]|]; plumb_in Hres];
      subst res; cbn [fst snd mgr]; fields; split; congruence.
Qed.

Lemma end_break_pairing force now_flush now answer w :
  break_pairing w ->
  break_pairing (exec (end_break force now_flush now answer) w).
Proof.
  unfold break_pairing. destruct w as [s r sto]. cbn [mgr]. intros Hinv.
  unfold exec. remember (end_break _ _ _ _ _) as res eqn:Hres.
  unfold end_break, bind, self, try_except, assign, call, pass, ret in Hres.
  plumb_in Hres.
  destruct (negb (SessionState_eqb (state s) ON_BREAK)
            && (negb force || negb (is_some (break_start s)))).
  - subst res. exact Hinv.
  - destruct (negb (SessionState_eqb (state s) ON_BREAK));
      plumb_in Hres; rewrite accumulate_run in Hres; plumb_in Hres;
      destruct answer as [[|]|]; plumb_in Hres;
      subst res; cbn [fst snd mgr]; fields; split; congruence.
Qed.

Lemma update_activity_state is_active idle now w :
  state (mgr (exec (update_activity is_active idle now) w)) = state (mgr w) /\
  break_start (mgr (exec (update_activity is_active idle now) w))
  = break_start (mgr w).
Proof.
  destruct w as [s r sto]. unfold exec.
  remember (update_activity _ _ _ _) as res eqn:Hres.
  unfold update_activity, bind, self, assign, pass, ret in Hres.
  plumb_in Hres.
  destruct (deque_append _ _ _); plumb_in Hres;
    rewrite accumulate_run in Hres; plumb_in Hres; subst res;
    cbn [fst snd mgr]; rewrite flushed_state, flushed_break_start; fields;
    split; reflexivity.
Qed.

Lemma apply_server_totals_break_start parser i o b ob a t now w :
  break_start (mgr (exec (apply_server_totals parser i o b ob a t now) w))
  = break_start (mgr w).
Proof.
  destruct w as [s r sto]. open_mgr s. unfold exec. cbn [mgr break_start].
  remember (apply_server_totals _ _ _ _ _ _ _ _ _) as res eqn:Hres.
  unfold apply_server_totals in Hres.
  destruct ss as [start|];
    destruct (_parse_iso_datetime parser i) as [in_dt|];
    walk_in Hres; try destruct (in_dt <? start);
    destruct (_parse_iso_datetime parser o) as [out_dt|];
    destruct b as [b|]; destruct a as [a|];
    destruct ob as [[|]|]; walk_in Hres;
    try (destruct hint as [h|]); try (destruct st); walk_in Hres;
    subst res; reflexivity.
Qed.

Lemma power_monitor_tick_pairing e w :
  break_pairing w -> break_pairing (exec (_power_monitor_tick e) w).
Proof.
  unfold break_pairing. destruct w as [s r sto]. cbn [mgr]. intros Hinv.
  unfold exec. remember (_power_monitor_tick e _) as res eqn:Hres.
  unfold _power_monitor_tick, bind, self, try_except, assign, pass, ret,
    call, raise in Hres.
  plumb_in Hres.
  destruct (_last_tick s) as [last_tick|]; [|subst res; exact Hinv].
  destruct (_ >? _); plumb_in Hres;
    [|subst res; cbn [fst snd mgr]; fields; exact Hinv].
  destruct (state s) eqn:Hst; plumb_in Hres.
  2, 3: destruct (_sleep_gap_prehandled s) eqn:Hpre; plumb_in Hres.
  3: destruct (break_start s) as [b|] eqn:Hbs; plumb_in Hres.
  4: rewrite accumulate_run in Hres; plumb_in Hres;
    destruct (tk_break e) as [[|]|]; plumb_in Hres.
  all: match type of Hres with
       | context [_record_sleep_event ?a ?b ?c ?d ?f ?g ?w1] =>
           destruct (record_sleep_event_run a b c d f g w1)
             as (calls & sto' & Hrec & Hev);
           rewrite Hrec in Hres; plumb_in Hres
       end.
  all: subst res; cbn [fst snd mgr]; fields; rewrite ?Hst, ?Hbs.
  all: first [exact Hinv|split; congruence].
Qed.

Lemma perform_keeps_pairing parser op w :
  break_pairing w -> keeps_pairing parser w op ->
  break_pairing (perform parser op w).
Proof.
  intros Hinv Hkeep. destruct op; cbn [perform keeps_pairing] in *.
  - unfold break_pairing. destruct (clock_in_state e w) as [-> ->].
    split; congruence.
  - unfold break_pairing. destruct (clock_in_local_state now w) as [-> ->].
    split; congruence.
  - unfold break_pairing. destruct (clock_out_state e w) as [-> ->].
    rewrite Hkeep. split; congruence.
  - unfold break_pairing in *. unfold exec.
    destruct (get_daily_summary_run now_flush now w) as (sm & ->).
    cbn [snd mgr]. rewrite flushed_state, flushed_break_start. exact Hinv.
  - apply start_break_pairing, Hinv.
  - apply end_break_pairing, Hinv.
  - unfold break_pairing in *.
    destruct (update_activity_state is_active idle now w) as [-> ->].
    exact Hinv.
  - unfold break_pairing in *.
    rewrite apply_server_totals_break_start, Hkeep. exact Hinv.
  - unfold break_pairing in *. rewrite exec_accumulate. cbn [mgr].
    rewrite flushed_state, flushed_break_start. exact Hinv.
  - exact Hinv.
  - apply power_monitor_tick_pairing, Hinv.
Qed.

(** C1, as the code has it. From the initial logged-out session, any
    sequence of clock-ins, break starts and ends, activity updates, flushes
    and monitor turns, together with clock-outs made while no break is
    stamped and server merges that leave [state] as it was, ends in a
    world where [break_start] is set exactly when the state is
    [ON_BREAK]. *)
Theorem break_pairing_kept (parser : string -> option parsed)
    (ops : list Op) :
  pairing_run parser ops init_world ->
  break_pairing (run_ops parser ops init_world).
Proof.
  assert (Hstep : forall ops w, break_pairing w -> pairing_run parser ops w ->
                    break_pairing (run_ops parser ops w)).
  { clear ops. induction ops as [|op ops IH]; intros w Hinv Hrun.
    - exact Hinv.
    - destruct Hrun as [Hkeep Hrest]. cbn [run_ops fold_left].
      apply IH; [apply perform_keeps_pairing; assumption|exact Hrest]. }
  apply Hstep. unfold break_pairing. cbn. split; congruence.
Qed.

Lemma break_pairing_kept_over_a_break :
  let ops :=
    [ClockIn sample_clock_in; MonitorStart t0;
     StartBreak (t0 + of_int 5) (t0 + of_int 5) (Answer true);
     ApplyServerTotals None None (Some 5) None None
       (t0 + of_int 6) (t0 + of_int 6);
     EndBreak false (t0 + of_int 9) (t0 + of_int 9) (Answer true);
     Tick (sample_tick (t0 + of_int 400));
     EndBreak true (t0 + of_int 401) (t0 + of_int 401) (Answer true);
     ClockOut (sample_clock_out (t0 + of_int 500))] in
  pairing_run fromisoformat_basic ops init_world /\
  break_pairing (run_ops fromisoformat_basic ops init_world).
Proof.
  assert (Hrun : pairing_run fromisoformat_basic
            [ClockIn sample_clock_in; MonitorStart t0;
             StartBreak (t0 + of_int 5) (t0 + of_int 5) (Answer true);
             ApplyServerTotals None None (Some 5) None None
               (t0 + of_int 6) (t0 + of_int 6);
             EndBreak false (t0 + of_int 9) (t0 + of_int 9) (Answer true);
             Tick (sample_tick (t0 + of_int 400));
             EndBreak true (t0 + of_int 401) (t0 + of_int 401) (Answer true);
             ClockOut (sample_clock_out (t0 + of_int 500))] init_world).
  { vm_compute. repeat split. }
  split; [exact Hrun|].
  exact (break_pairing_kept fromisoformat_basic _ Hrun).
Defined.

(** C1 as stated fails: a server merge that reports an open break moves a
    clocked-in session to [ON_BREAK] and stamps no [break_start]. *)
Lemma server_hint_breaks_pairing :
  let w :=
    run_ops fromisoformat_basic
      [ClockIn sample_clock_in;
       ApplyServerTotals None None None (Some true) None
         (t0 + of_int 5) (t0 + of_int 5)]
      init_world in
  state (mgr w) = ON_BREAK /\ break_start (mgr w) = None /\
  ~ break_pairing w.
Proof.
  split; [reflexivity|]. split; [reflexivity|].
  unfold break_pairing. intros [_ H]. apply H; reflexivity.
Qed.

(** ** The break-open flag and the sleep break *)

(** C5 on the code: in a session that is clocked in with no break stamped
    while [_erp_break_open] is still set (the server accepted a break
    start and then failed the break end), the turn of the power monitor
    that sees a gap sends a remote break-start call and leaves the flag as
    it found it, where [start_break] in the same world sends none; and a
    sleep break that the server accepts from a fresh session does not
    raise the flag. *)
Theorem sleep_break_ignores_open_flag :
  let w := resumed_world in
  let tick := _power_monitor_tick (sample_tick (t0 + of_int 400)) in
  (state (mgr w) = CLOCKED_IN /\ break_start (mgr w) = None /\
   _erp_break_open (mgr w) = true) /\
  remote (exec tick w)
  = (remote w
       ++ [BreakStart (date (t0 + of_int 10)) (t0 + of_int 10);
           LogEvent (t0 + of_int 400) 390])%list /\
  _erp_break_open (mgr (exec tick w)) = true /\
  remote (exec (start_break (t0 + of_int 400) (t0 + of_int 400) (Answer true))
            w)
  = remote w /\
  (_erp_break_open (mgr clocked_in_world) = false /\
   remote (exec tick clocked_in_world)
   = (remote clocked_in_world
        ++ [BreakStart (date (t0 + of_int 10)) (t0 + of_int 10);
            LogEvent (t0 + of_int 400) 390])%list /\
   _erp_break_open (mgr (exec tick clocked_in_world)) = false).
Proof. vm_compute. repeat split. Qed.
Example format_3661 : AttendanceAPI._format_hms 3661 = "01:01:01".
Proof. reflexivity. Qed.

Example parse_530 : AttendanceAPI._parse_hms (Some "5:30") = 330.
Proof. reflexivity. Qed.

Example parse_bad : AttendanceAPI._parse_hms (Some "1:2:3:4") = 0.
Proof. reflexivity. Qed.

Example roundtrip_999999 :
  AttendanceAPI._parse_hms (Some (AttendanceAPI._format_hms 999999)) = 999999.
Proof. reflexivity. Qed.

(** ** Further properties *)

(** [fields], in a hypothesis. *)
Ltac fields_in H :=
  cbn [state session_start break_start last_update is_idle
       current_idle_seconds active_seconds break_seconds idle_seconds
       _activity_samples last_min_activity_percent _bg_running _last_tick
       _sleep_break_active _erp_in_time _erp_out_time _erp_break_seconds
       _erp_active_seconds _erp_state_hint _erp_override_timestamp
       _sleep_gap_prehandled _erp_break_open set_state set_session_start
       set_break_start set_last_update set_is_idle set_current_idle_seconds
       set_active_seconds set_break_seconds set_idle_seconds
       set_activity_samples set_last_min_activity_percent set_bg_running
       set_last_tick set_sleep_break_active set_erp_in_time
       set_erp_out_time set_erp_break_seconds set_erp_active_seconds
       set_erp_state_hint set_erp_override_timestamp
       set_sleep_gap_prehandled set_erp_break_open] in H.

(** ** More on the local time accumulator *)

(** X1. Flushing twice with the same clock reading changes nothing the
    second time. *)
Theorem flush_twice_is_flush_once (now : datetime) (w : World) :
  exec (_accumulate_until_now now) (exec (_accumulate_until_now now) w)
  = exec (_accumulate_until_now now) w.
Proof.
  rewrite !exec_accumulate. cbn [mgr remote storage]. f_equal.
  destruct w as [s r sto]. cbn [mgr]. open_mgr s.
  unfold flushed, exec, _accumulate_until_now, bind, self, assign, pass, ret,
    total_seconds.
  cbn [fst snd mgr last_update state is_idle current_idle_seconds].
  destruct lu as [last|].
  - destruct (Z.leb_spec (now - last) 0) as [Hle|Hgt].
    + cbn [fst snd mgr last_update].
      destruct (Z.leb_spec (now - last) 0); [reflexivity|lia].
    + destruct st; [|destruct idle; [destruct (_ >=? _)|]| |];
        cbn; rewrite Z.sub_diag; reflexivity.
  - cbn. rewrite Z.sub_diag. reflexivity.
Qed.

(** Two managers with the same attributes are the same manager. *)
Lemma mgr_ext (a b : SessionManager) :
  state a = state b -> session_start a = session_start b ->
  break_start a = break_start b -> last_update a = last_update b ->
  is_idle a = is_idle b ->
  current_idle_seconds a = current_idle_seconds b ->
  active_seconds a = active_seconds b ->
  break_seconds a = break_seconds b -> idle_seconds a = idle_seconds b ->
  _activity_samples a = _activity_samples b ->
  last_min_activity_percent a = last_min_activity_percent b ->
  _bg_running a = _bg_running b -> _last_tick a = _last_tick b ->
  _sleep_break_active a = _sleep_break_active b ->
  _erp_in_time a = _erp_in_time b -> _erp_out_time a = _erp_out_time b ->
  _erp_break_seconds a = _erp_break_seconds b ->
  _erp_active_seconds a = _erp_active_seconds b ->
  _erp_state_hint a = _erp_state_hint b ->
  _erp_override_timestamp a = _erp_override_timestamp b ->
  _sleep_gap_prehandled a = _sleep_gap_prehandled b ->
  _erp_break_open a = _erp_break_open b ->
  a = b.
Proof.
  destruct a, b. cbn. intros. subst. reflexivity.
Qed.

(** ** Clocking in and out *)

(** X4. Whatever the session was and whatever the server and the storage
    answer, [clock_in] returns, leaves the session [CLOCKED_IN] and not idle
    with [session_start = last_update = now], no break stamped, the three
    buckets at zero and every server override cleared, and has sent exactly
    one punch-in. *)
Theorem clock_in_resets (e : ClockInEnv) (w : World) :
  let w' := exec (clock_in e) w in
  let s' := mgr w' in
  result (clock_in e) w = Returned tt /\
  state s' = CLOCKED_IN /\
  session_start s' = Some (ci_now e) /\ last_update s' = Some (ci_now e) /\
  break_start s' = None /\ is_idle s' = false /\
  current_idle_seconds s' = 0 /\
  active_seconds s' = 0 /\ break_seconds s' = 0 /\ idle_seconds s' = 0 /\
  _erp_in_time s' = None /\ _erp_out_time s' = None /\
  _erp_break_seconds s' = None /\ _erp_active_seconds s' = None /\
  _erp_state_hint s' = None /\ _erp_break_open s' = false /\
  _bg_running s' = true /\
  remote w'
  = (remote w ++ [PunchIn (date (ci_now e)) (whole_second (ci_now e))])%list.
Proof.
  destruct w as [s r [hist evs]]. destruct e as [cnow punch rd lnow wr].
  open_mgr s. unfold exec, result. remember (clock_in _ _) as res eqn:Hres.
  cbn [mgr remote ci_now].
  destruct punch as [ok|], bg, rd, evs, wr;
    walk_in Hres; subst res; cbn [fst snd mgr remote];
    repeat (split; [reflexivity|]); reflexivity.
Qed.



(** ** Breaks *)

(** X7. Whenever [end_break] goes ahead (the state is [ON_BREAK], or
    [force] is set and a break is stamped, whatever the state) it returns
    [True], flushes the accumulator as a break, leaves the session
    [CLOCKED_IN] with no break stamped and the sleep-break flag down, and
    sends the remote break-end call whether or not [_erp_break_open] was
    set; the flag is lowered when that call succeeds and kept otherwise. *)
Theorem end_break_effect (force : bool) (now_flush now : datetime)
    (answer : ApiAnswer) (w : World) :
  state (mgr w) = ON_BREAK \/ (force = true /\ break_start (mgr w) <> None) ->
  let s := mgr w in
  let w' := exec (end_break force now_flush now answer) w in
  let s' := mgr w' in
  let flushed_s := flushed now_flush (set_state ON_BREAK s) in
  result (end_break force now_flush now answer) w = Returned true /\
  state s' = CLOCKED_IN /\ break_start s' = None /\
  _sleep_break_active s' = false /\
  active_seconds s' = active_seconds flushed_s /\
  break_seconds s' = break_seconds flushed_s /\
  idle_seconds s' = idle_seconds flushed_s /\
  last_update s' = last_update flushed_s /\
  remote w' = (remote w ++ [BreakEnd (date now) (whole_second now)])%list /\
  _erp_break_open s'
  = match answer with
    | Answer true => false
    | _ => _erp_break_open s
    end.
Proof.
  destruct w as [s r sto]. cbn [mgr remote]. intros Hgo.
  unfold exec, result. remember (end_break _ _ _ _ _) as res eqn:Hres.
  unfold end_break, bind, self, try_except, assign, call, pass, ret in Hres.
  plumb_in Hres.
  assert (Hguard : negb (SessionState_eqb (state s) ON_BREAK)
                   && (negb force || negb (is_some (break_start s))) = false).
  { destruct Hgo as [Hst|[-> Hbs]].
    - rewrite Hst. reflexivity.
    - destruct (break_start s); [|congruence]. cbn.
      apply andb_false_r. }
  rewrite Hguard in Hres.
  assert (Hsame : state s = ON_BREAK -> set_state ON_BREAK s = s).
  { intros Hst. destruct s. cbn in *. subst. reflexivity. }
  destruct (SessionState_eqb (state s) ON_BREAK) eqn:Hst; plumb_in Hres;
    rewrite accumulate_run in Hres; plumb_in Hres.
  1: apply SessionState_eqb_eq in Hst; rewrite (Hsame Hst).
  all: destruct answer as [[|]|]; plumb_in Hres; subst res;
    cbn [fst snd mgr remote]; fields; rewrite ?flushed_erp_break_open;
    fields; repeat (split; [reflexivity|]); reflexivity.
Qed.

Lemma end_break_effect_forced_after_server_hint :
  state (mgr drifted_world) = CLOCKED_IN /\
  break_start (mgr drifted_world) = Some (t0 + of_int 5) /\
  _erp_break_open (mgr drifted_world) = false /\
  let w' :=
    exec (end_break true (t0 + of_int 9) (t0 + of_int 9) (Answer true))
      drifted_world in
  state (mgr w') = CLOCKED_IN /\ break_start (mgr w') = None /\
  remote w'
  = (remote drifted_world
       ++ [BreakEnd (date (t0 + of_int 9)) (whole_second (t0 + of_int 9))])%list.
Proof.
  split; [vm_compute; reflexivity|]. split; [vm_compute; reflexivity|].
  split; [vm_compute; reflexivity|].
  assert (Hgo : state (mgr drifted_world) = ON_BREAK \/
                (true = true /\ break_start (mgr drifted_world) <> None)).
  { right. split; [reflexivity|vm_compute; discriminate]. }
  destruct (end_break_effect true (t0 + of_int 9) (t0 + of_int 9)
              (Answer true) drifted_world Hgo)
    as (_ & Hst & Hbs & _ & _ & _ & _ & _ & Hrem & _).
  split; [exact Hst|]. split; [exact Hbs|exact Hrem].
Defined.

(** X8. A break that was just started cannot be started again: right
    after a [start_break] that went ahead, a second [start_break] returns
    [False] and leaves the world, the log of remote calls included, as it
    was. *)
Theorem start_break_twice (n1 m1 n2 m2 : datetime) (a1 a2 : ApiAnswer)
    (w : World) :
  result (start_break n1 m1 a1) w = Returned true ->
  let w' := exec (start_break n1 m1 a1) w in
  start_break n2 m2 a2 w' = (Returned false, w').
Proof.
  destruct w as [s r sto]. unfold exec, result.
  remember (start_break n1 m1 a1 _) as res eqn:Hres.
  unfold start_break at 1 in Hres.
  unfold bind, self, try_except, assign, call, pass, ret in Hres.
  plumb_in Hres.
  destruct (negb (SessionState_eqb (state s) CLOCKED_IN)
            || is_some (break_start s)).
  - subst res. discriminate.
  - rewrite accumulate_run in Hres. plumb_in Hres. intros _.
    destruct (_erp_break_open _); plumb_in Hres;
      [|destruct a1 as [[|]|]; plumb_in Hres];
      subst res; cbn [snd]; unfold start_break, bind, self, ret;
      cbn [fst snd mgr]; fields; reflexivity.
Qed.

Lemma start_break_twice_after_clock_in :
  result (start_break (t0 + of_int 5) (t0 + of_int 5) (Answer true))
    clocked_in_world
  = Returned true /\
  let w' :=
    exec (start_break (t0 + of_int 5) (t0 + of_int 5) (Answer true))
      clocked_in_world in
  start_break (t0 + of_int 6) (t0 + of_int 6) (Answer true) w'
  = (Returned false, w').
Proof.
  split; [vm_compute; reflexivity|].
  apply (start_break_twice (t0 + of_int 5) (t0 + of_int 5) (t0 + of_int 6)
           (t0 + of_int 6) (Answer true) (Answer true) clocked_in_world).
  vm_compute. reflexivity.
Defined.

(** X9. A break from [t1] to [t2] is credited [t2 - t1]: when
    [start_break] goes ahead with clock reading [t1] and [end_break]
    follows with clock reading [t2 >= t1], [break_seconds] grows by
    exactly [t2 - t1] over its value after the first flush, the other
    two buckets keep that value, and the session is [CLOCKED_IN] again
    with no break stamped. *)
Theorem break_is_credited (t1 t2 : datetime) (a1 a2 : ApiAnswer)
    (force : bool) (w : World) (last : datetime) :
  state (mgr w) = CLOCKED_IN -> break_start (mgr w) = None ->
  last_update (mgr w) = Some last -> last <= t1 -> t1 <= t2 ->
  let s1 := flushed t1 (mgr w) in
  let s2 :=
    mgr (exec (end_break force t2 t2 a2) (exec (start_break t1 t1 a1) w)) in
  state s2 = CLOCKED_IN /\ break_start s2 = None /\
  last_update s2 = Some t2 /\
  break_seconds s2 = break_seconds s1 + (t2 - t1) /\
  active_seconds s2 = active_seconds s1 /\
  idle_seconds s2 = idle_seconds s1.
Proof.
  destruct w as [s r sto]. cbn [mgr]. intros Hst Hbs Hlast Hl1 H12.
  unfold exec. remember (start_break t1 t1 a1 _) as res1 eqn:Hres1.
  unfold start_break, bind, self, try_except, assign, call, pass, ret
    in Hres1.
  plumb_in Hres1. rewrite Hst, Hbs in Hres1. plumb_in Hres1.
  rewrite accumulate_run in Hres1. plumb_in Hres1.
  assert (Hlu1 : last_update (flushed t1 s) = Some t1).
  { rewrite flushed_eq, Hlast. unfold total_seconds. cbn zeta.
    destruct (Z.leb_spec (t1 - last) 0).
    - rewrite Hlast. f_equal. lia.
    - reflexivity. }
  assert (Hend : forall s1 r1,
            state s1 = ON_BREAK -> last_update s1 = Some t1 ->
            let s2 := mgr (snd (end_break force t2 t2 a2
                                  (mkWorld s1 r1 sto))) in
            state s2 = CLOCKED_IN /\ break_start s2 = None /\
            last_update s2 = Some t2 /\
            break_seconds s2 = break_seconds s1 + (t2 - t1) /\
            active_seconds s2 = active_seconds s1 /\
            idle_seconds s2 = idle_seconds s1).
  { intros s1 r1 Hs1 Hl. cbn zeta.
    remember (end_break _ _ _ _ _) as res2 eqn:Hres2.
    unfold end_break, bind, self, try_except, assign, call, pass, ret
      in Hres2.
    plumb_in Hres2. rewrite Hs1 in Hres2. plumb_in Hres2.
    rewrite accumulate_run in Hres2. plumb_in Hres2.
    assert (Hf : flushed t2 s1
                 = if t2 - t1 <=? 0 then s1
                   else set_last_update (Some t2)
                          (set_break_seconds (break_seconds s1 + (t2 - t1))
                             s1)).
    { rewrite flushed_eq, Hl, Hs1. reflexivity. }
    destruct a2 as [[|]|]; plumb_in Hres2; subst res2; cbn [fst snd mgr];
      fields; rewrite Hf;
      (destruct (Z.leb_spec (t2 - t1) 0);
       [assert (t2 = t1) by lia; subst t2; rewrite Hl, Z.sub_diag, Z.add_0_r
       |fields]); repeat (split; [reflexivity|]); reflexivity. }
  destruct (_erp_break_open _); plumb_in Hres1;
    [|destruct a1 as [[|]|]; plumb_in Hres1];
    subst res1; cbn [snd];
    match goal with
    | |- context [end_break _ _ _ _ (mkWorld ?s1 ?r1 _)] =>
        specialize (Hend s1 r1 eq_refl Hlu1); cbn zeta in Hend;
        fields_in Hend
    end; exact Hend.
Qed.

(** ** More on the server totals merger *)

(** What a merge leaves alone, and what it does to the state. *)
Lemma apply_server_totals_run parser i o b ob a t now s r sto :
  exists s',
    apply_server_totals parser i o b ob a t now (mkWorld s r sto)
    = (Returned tt, mkWorld s' r sto) /\
    (carries parser i o b ob a = false -> s' = s) /\
    (carries parser i o b ob a = true -> last_update s' = Some now) /\
    active_seconds s' = active_seconds s /\
    break_seconds s' = break_seconds s /\
    idle_seconds s' = idle_seconds s /\
    _activity_samples s' = _activity_samples s /\
    last_min_activity_percent s' = last_min_activity_percent s /\
    _erp_break_seconds s'
    = match b with Some b => Some (Z.max 0 b) | None => _erp_break_seconds s end
    /\
    _erp_active_seconds s'
    = match a with Some a => Some (Z.max 0 a) | None => _erp_active_seconds s end
    /\
    _erp_break_open s'
    = match ob with Some v => v | None => _erp_break_open s end /\
    _erp_state_hint s'
    = match ob with
      | Some v => Some (if v then ON_BREAK else CLOCKED_IN)
      | None => _erp_state_hint s
      end /\
    state s'
    = match _erp_state_hint s' with
      | Some h =>
          if carries parser i o b ob a
             && negb (SessionState_eqb (state s) LOGGED_OUT)
          then h else state s
      | None => state s
      end.
Proof.
  open_mgr s. unfold carries.
  remember (apply_server_totals _ _ _ _ _ _ _ _ _) as res eqn:Hres.
  unfold apply_server_totals in Hres.
  destruct ss as [start|];
    destruct (_parse_iso_datetime parser i) as [in_dt|];
    walk_in Hres; try destruct (in_dt <? start);
    destruct (_parse_iso_datetime parser o) as [out_dt|];
    destruct b as [b|]; destruct a as [a|];
    destruct ob as [[|]|]; walk_in Hres;
    try (destruct hint as [h|]); try (destruct st); walk_in Hres;
    subst res; eexists; (split; [reflexivity|]);
    cbn [is_some orb andb negb SessionState_eqb]; fields;
    (split; [intros H; first [discriminate H|reflexivity]|]);
    (split; [intros H; first [discriminate H|reflexivity]|]);
    repeat (split; [reflexivity|]); reflexivity.
Qed.

(** X10. A call of [apply_server_totals] that carries nothing (no break
    or active seconds, no break flag, and times that are absent or do not
    parse) returns and leaves the world exactly as it was: no time stamp
    moves. *)
Theorem merge_of_nothing_is_nothing (parser : string -> option parsed)
    (in_time_iso out_time_iso : option string) (time_time : seconds)
    (now : datetime) (w : World) :
  _parse_iso_datetime parser in_time_iso = None ->
  _parse_iso_datetime parser out_time_iso = None ->
  apply_server_totals parser in_time_iso out_time_iso None None None
    time_time now w
  = (Returned tt, w).
Proof.
  intros Hin Hout. destruct w as [s r sto].
  destruct (apply_server_totals_run parser in_time_iso out_time_iso None None
              None time_time now s r sto) as (s' & -> & Hsame & _).
  rewrite Hsame; [reflexivity|]. unfold carries. rewrite Hin, Hout.
  reflexivity.
Qed.

Lemma merge_of_nothing_after_clock_in :
  _parse_iso_datetime fromisoformat_basic (Some "yesterday") = None /\
  _parse_iso_datetime fromisoformat_basic None = None /\
  apply_server_totals fromisoformat_basic (Some "yesterday") None None None
    None (t0 + of_int 5) (t0 + of_int 5) clocked_in_world
  = (Returned tt, clocked_in_world).
Proof.
  split; [reflexivity|]. split; [reflexivity|].
  apply (merge_of_nothing_is_nothing fromisoformat_basic (Some "yesterday")
           None (t0 + of_int 5) (t0 + of_int 5) clocked_in_world);
    reflexivity.
Defined.

(** X11. The server's view of the break wins, short of logging in or out:
    a merge that carries [on_break] sets [_erp_break_open] to it and, unless
    the session is logged out, moves the state to [ON_BREAK] or
    [CLOCKED_IN] accordingly; a merge that carries something else applies
    the hint stored by an earlier merge again; a logged-out session stays
    logged out, and a session that is not stays so as long as the stored
    hint is not [LOGGED_OUT]. All of this without touching the buckets. *)
Theorem merge_adopts_server_state (parser : string -> option parsed)
    (in_time_iso out_time_iso : option string)
    (break_seconds_arg : option Z) (on_break : option bool)
    (active_seconds_arg : option Z) (time_time : seconds) (now : datetime)
    (w : World) :
  let s := mgr w in
  let s' :=
    mgr (exec (apply_server_totals parser in_time_iso out_time_iso
                 break_seconds_arg on_break active_seconds_arg time_time now)
           w) in
  (forall v, on_break = Some v ->
     _erp_break_open s' = v /\
     (state s <> LOGGED_OUT ->
      state s' = if v then ON_BREAK else CLOCKED_IN)) /\
  (forall h, on_break = None -> _erp_state_hint s = Some h ->
     carries parser in_time_iso out_time_iso break_seconds_arg on_break
       active_seconds_arg = true ->
     state s <> LOGGED_OUT -> state s' = h) /\
  (state s = LOGGED_OUT -> state s' = LOGGED_OUT) /\
  (state s <> LOGGED_OUT -> _erp_state_hint s <> Some LOGGED_OUT ->
   state s' <> LOGGED_OUT) /\
  active_seconds s' = active_seconds s /\
  break_seconds s' = break_seconds s /\ idle_seconds s' = idle_seconds s.
Proof.
  destruct w as [s r sto]. unfold exec. cbn [mgr].
  destruct (apply_server_totals_run parser in_time_iso out_time_iso
              break_seconds_arg on_break active_seconds_arg time_time now
              s r sto)
    as (s' & -> & _ & _ & Ha & Hb & Hi & _ & _ & _ & _ & Hopen & Hhint & Hst).
  cbn [snd mgr]. rewrite Hhint in Hst.
  assert (Hout : forall x, x <> LOGGED_OUT ->
                   negb (SessionState_eqb x LOGGED_OUT) = true).
  { intros x Hx. apply negb_true_iff, SessionState_eqb_neq, Hx. }
  split; [|split; [|split; [|split]]]; auto.
  - intros v ->. split; [exact Hopen|]. intros Hs. rewrite Hst.
    unfold carries. rewrite (Hout _ Hs), !orb_true_r. reflexivity.
  - intros h -> Hh Hc Hs. rewrite Hst, Hh, Hc, (Hout _ Hs). reflexivity.
  - intros Hs. rewrite Hst, Hs. cbn. rewrite andb_false_r.
    destruct on_break as [[|]|]; try reflexivity.
    destruct (_erp_state_hint s); reflexivity.
  - intros Hs Hh. rewrite Hst.
    destruct on_break as [[|]|].
    + destruct (_ && _); [discriminate|exact Hs].
    + destruct (_ && _); [discriminate|exact Hs].
    + destruct (_erp_state_hint s) as [h|]; [|exact Hs].
      destruct (_ && _); [congruence|exact Hs].
Qed.

(** ** More on the power monitor *)

(** X12. A turn of the power monitor that sees no sleep gap (the turn came
    at most 60 s late) returns having moved [_last_tick] to [now] and
    nothing else: no break is started, no bucket moves, no remote call is
    sent and the storage is not written. *)
Theorem tick_without_gap (e : TickEnv) (w : World) (last_tick : datetime) :
  _last_tick (mgr w) = Some last_tick ->
  total_seconds (tk_now e) last_tick - of_int monitor_interval_seconds
  <= of_int 60 ->
  _power_monitor_tick e w
  = (Returned tt,
     mkWorld (set_last_tick (Some (tk_now e)) (mgr w)) (remote w) (storage w)).
Proof.
  destruct w as [s r sto]. cbn [mgr remote storage]. intros Htick Hgap.
  destruct (power_monitor_tick_run e s r sto last_tick Htick)
    as (s' & r' & sto' & -> & Hno & _).
  destruct Hno as (-> & -> & ->); [|reflexivity].
  unfold sees_gap. destruct (Z.gtb_spec (total_seconds (tk_now e) last_tick
                                          - of_int monitor_interval_seconds)
                               (of_int 60)); [lia|reflexivity].
Qed.

Lemma tick_without_gap_after_70s :
  _last_tick (mgr clocked_in_world) = Some t0 /\
  total_seconds (t0 + of_int 70) t0 - of_int monitor_interval_seconds
  <= of_int 60 /\
  _power_monitor_tick (sample_tick (t0 + of_int 70)) clocked_in_world
  = (Returned tt,
     mkWorld (set_last_tick (Some (t0 + of_int 70)) (mgr clocked_in_world))
       (remote clocked_in_world) (storage clocked_in_world)).
Proof.
  split; [reflexivity|]. split; [discriminate|].
  apply (tick_without_gap (sample_tick (t0 + of_int 70)) clocked_in_world t0);
    [reflexivity|discriminate].
Defined.

(** ** Invariants of the buckets *)

Lemma nonneg_ext s s' :
  active_seconds s' = active_seconds s ->
  break_seconds s' = break_seconds s -> idle_seconds s' = idle_seconds s ->
  _erp_break_seconds s' = _erp_break_seconds s ->
  _erp_active_seconds s' = _erp_active_seconds s ->
  nonneg s -> nonneg s'.
Proof. unfold nonneg. intros -> -> -> -> ->. exact id. Qed.

Lemma flushed_nonneg now s : nonneg s -> nonneg (flushed now s).
Proof.
  unfold nonneg. rewrite flushed_erp_break_seconds, flushed_erp_active_seconds.
  intros (Ha & Hb & Hi & Herp). rewrite flushed_eq.
  destruct (last_update s) as [last|]; [|fields; auto].
  unfold total_seconds. cbn zeta.
  destruct (Z.leb_spec (now - last) 0); [auto|].
  destruct (state s); [|destruct (is_idle s); [destruct (_ >=? _)|]| |];
    fields; (split; [lia|split; [lia|split; [lia|exact Herp]]]).
Qed.

Lemma clock_in_nonneg e w : nonneg (mgr (exec (clock_in e) w)).
Proof.
  destruct w as [s r [hist evs]]. destruct e as [cnow punch rd lnow wr].
  open_mgr s. unfold exec. remember (clock_in _ _) as res eqn:Hres.
  destruct punch as [ok|], bg, rd, evs, wr;
    walk_in Hres; subst res; unfold nonneg; cbn;
    (split; [apply Z.le_refl|split; [apply Z.le_refl|split;
      [apply Z.le_refl|split; intros ? H; discriminate H]]]).
Qed.

Lemma clock_in_local_nonneg now w :
  nonneg (mgr (exec (clock_in_local now) w)).
Proof.
  destruct w as [s r sto]. open_mgr s. unfold exec.
  remember (clock_in_local _ _) as res eqn:Hres.
  destruct bg; walk_in Hres; subst res; unfold nonneg; cbn;
    (split; [apply Z.le_refl|split; [apply Z.le_refl|split;
      [apply Z.le_refl|split; intros ? H; discriminate H]]]).
Qed.

Lemma clock_out_mgr e w :
  mgr (exec (clock_out e) w)
  = set_state LOGGED_OUT
      (set_bg_running false
         (flushed (co_summary_flush e) (flushed (co_now_flush e) (mgr w)))).
Proof.
  destruct w as [s r sto]. unfold exec. cbn [mgr].
  remember (clock_out e _) as res eqn:Hres.
  unfold clock_out, bind in Hres. rewrite accumulate_run in Hres.
  unfold try_except, _stop_background_tasks, read_local_storage,
    write_local_storage, call, assign, pass, ret in Hres.
  destruct (get_daily_summary_run (co_summary_flush e) (co_summary_now e)
              (mkWorld (flushed (co_now_flush e) (mgr (mkWorld s r sto)))
                 (remote (mkWorld s r sto)) (storage (mkWorld s r sto))))
    as (sm & Hsm).
  cbn [mgr remote storage] in Hsm. plumb_in Hres.
  rewrite Hsm in Hres. plumb_in Hres.
  destruct (co_read e), (co_write e), (co_punch e) as [ok|];
    plumb_in Hres; subst res; reflexivity.
Qed.

Lemma start_break_mgr now_flush now answer w :
  exists open,
    mgr (exec (start_break now_flush now answer) w) = mgr w \/
    mgr (exec (start_break now_flush now answer) w)
    = set_erp_break_open open
        (set_break_start (Some now)
           (set_state ON_BREAK (flushed now_flush (mgr w)))).
Proof.
  destruct w as [s r sto]. unfold exec. cbn [mgr].
  remember (start_break _ _ _ _) as res eqn:Hres.
  unfold start_break, bind, self, try_except, assign, call, pass, ret
    in Hres.
  plumb_in Hres.
  destruct (negb (SessionState_eqb (state s) CLOCKED_IN)
            || is_some (break_start s)).
  - subst res. exists true. left. reflexivity.
  - rewrite accumulate_run in Hres. plumb_in Hres.
    destruct (_erp_break_open _) eqn:Hopen; plumb_in Hres;
      [|destruct answer as [[|]|]; plumb_in Hres];
      subst res; cbn [fst snd mgr];
      [exists true|exists true|exists false|exists false]; right;
      apply mgr_ext; fields; try reflexivity; fields_in Hopen;
      first [exact Hopen|symmetry; exact Hopen].
Qed.

Lemma end_break_mgr force now_flush now answer w :
  exists open,
    mgr (exec (end_break force now_flush now answer) w) = mgr w \/
    mgr (exec (end_break force now_flush now answer) w)
    = set_sleep_break_active false
        (set_break_start None
           (set_erp_break_open open
              (set_state CLOCKED_IN
                 (flushed now_flush (set_state ON_BREAK (mgr w)))))).
Proof.
  destruct w as [s r sto]. unfold exec. cbn [mgr].
  remember (end_break _ _ _ _ _) as res eqn:Hres.
  unfold end_break, bind, self, try_except, assign, call, pass, ret in Hres.
  plumb_in Hres.
  destruct (negb (SessionState_eqb (state s) ON_BREAK)
            && (negb force || negb (is_some (break_start s)))).
  - subst res. exists true. left. reflexivity.
  - assert (Hsame : state s = ON_BREAK -> set_state ON_BREAK s = s).
    { intros Hst. apply mgr_ext; fields; auto. }
    exists (match answer with
            | Answer true => false
            | _ => _erp_break_open s
            end).
    right.
    destruct (SessionState_eqb (state s) ON_BREAK) eqn:Hst; plumb_in Hres;
      rewrite accumulate_run in Hres; plumb_in Hres.
    1: apply SessionState_eqb_eq in Hst; rewrite (Hsame Hst).
    all: destruct answer as [[|]|]; plumb_in Hres; subst res;
      cbn [fst snd mgr]; apply mgr_ext; fields;
      rewrite ?flushed_erp_break_open; fields; reflexivity.
Qed.

Lemma update_activity_mgr is_active idle now w :
  exists samples pct,
    mgr (exec (update_activity is_active idle now) w)
    = flushed now
        (set_last_min_activity_percent pct
           (set_activity_samples samples
              (set_current_idle_seconds idle
                 (set_is_idle (negb is_active) (mgr w))))).
Proof.
  destruct w as [s r sto]. unfold exec. cbn [mgr].
  remember (update_activity _ _ _ _) as res eqn:Hres.
  unfold update_activity, bind, self, assign, pass, ret in Hres.
  plumb_in Hres. fields_in Hres.
  destruct (deque_append _ _ _) as [|x l] eqn:Hd; plumb_in Hres;
    rewrite accumulate_run in Hres; plumb_in Hres; subst res;
    cbn [fst snd mgr].
  - exists [], (last_min_activity_percent s). f_equal.
  - eexists; eexists. reflexivity.
Qed.

Lemma perform_nonneg parser op w :
  nonneg (mgr w) -> nonneg (mgr (perform parser op w)).
Proof.
  intros Hinv. destruct op; cbn [perform].
  - apply clock_in_nonneg.
  - apply clock_in_local_nonneg.
  - rewrite clock_out_mgr.
    refine (nonneg_ext _ _ _ _ _ _ _
              (flushed_nonneg _ _ (flushed_nonneg (co_now_flush e) _ Hinv)));
      reflexivity.
  - unfold exec.
    destruct (get_daily_summary_run now_flush now w) as (sm & ->).
    cbn [snd mgr]. apply flushed_nonneg, Hinv.
  - destruct (start_break_mgr now_flush now answer w) as (open & [->| ->]);
      [exact Hinv|].
    refine (nonneg_ext _ _ _ _ _ _ _ (flushed_nonneg now_flush _ Hinv));
      reflexivity.
  - destruct (end_break_mgr force now_flush now answer w)
      as (open & [->| ->]); [exact Hinv|].
    refine (nonneg_ext _ _ _ _ _ _ _
              (flushed_nonneg now_flush (set_state ON_BREAK (mgr w)) _));
      try reflexivity.
    refine (nonneg_ext _ _ _ _ _ _ _ Hinv); reflexivity.
  - destruct (update_activity_mgr is_active idle now w) as (sam & pct & ->).
    apply flushed_nonneg. refine (nonneg_ext _ _ _ _ _ _ _ Hinv); reflexivity.
  - destruct w as [s r sto]. unfold exec. cbn [mgr] in *.
    destruct (apply_server_totals_run parser in_time_iso out_time_iso
                break_seconds_arg on_break active_seconds_arg time_time now
                s r sto)
      as (s' & -> & _ & _ & Ha & Hb & Hi & _ & _ & Heb & Hea & _).
    cbn [snd mgr]. destruct Hinv as (H1 & H2 & H3 & H4 & H5).
    unfold nonneg. rewrite Ha, Hb, Hi, Heb, Hea.
    split; [exact H1|split; [exact H2|split; [exact H3|split]]].
    + destruct break_seconds_arg; [|exact H4].
      intros b [= <-]. apply Z.le_max_l.
    + destruct active_seconds_arg; [|exact H5].
      intros b [= <-]. apply Z.le_max_l.
  - rewrite exec_accumulate. cbn [mgr]. apply flushed_nonneg, Hinv.
  - refine (nonneg_ext _ _ _ _ _ _ _ Hinv); reflexivity.
  - destruct w as [s r sto]. cbn [mgr] in *. unfold exec.
    destruct (_last_tick s) as [last_tick|] eqn:Htick.
    + destruct (power_monitor_tick_run e s r sto last_tick Htick)
        as (s' & r' & sto' & -> & Hno & Hgap & Heb & Hea).
      cbn [snd mgr]. destruct (sees_gap e last_tick).
      * destruct (Hgap eq_refl) as (Ha & Hi & Hb & _).
        remember (if negb (_sleep_gap_prehandled s)
                        && SessionState_eqb (state s) CLOCKED_IN
                        && negb (is_some (break_start s))
                  then flushed (tk_now_flush e) s else s) as base eqn:Hbase0.
        assert (Hbase : nonneg base).
        { subst base. destruct (_ && _); [apply flushed_nonneg|]; exact Hinv. }
        destruct Hbase as (H1 & H2 & H3 & _).
        destruct Hinv as (_ & _ & _ & H4 & H5).
        unfold nonneg. rewrite Ha, Hi, Hb, Heb, Hea.
        split; [exact H1|split; [|split; [exact H3|split; assumption]]].
        assert (0 <= int (Z.max 0 (total_seconds (tk_now e) last_tick
                                     - of_int 10))).
        { unfold int. apply Z.quot_pos; [apply Z.le_max_l|lia]. }
        destruct (counting (state s)); unfold of_int in *; lia.
      * destruct (Hno eq_refl) as (-> & _ & _).
        refine (nonneg_ext _ _ _ _ _ _ _ Hinv); reflexivity.
    + unfold _power_monitor_tick, bind, self, raise.
      cbn [fst snd mgr]. rewrite Htick. exact Hinv.
Qed.

(** X13. Nothing counted is ever negative. In every world reached from the
    initial session by any sequence of operations, with any clock readings
    (also readings that go backwards) and any answers of the server and the
    storage, the three buckets are non-negative, and so are the break and
    active seconds taken over from the server. *)
Theorem buckets_never_negative (parser : string -> option parsed)
    (ops : list Op) :
  let s := mgr (run_ops parser ops init_world) in
  0 <= active_seconds s /\ 0 <= break_seconds s /\ 0 <= idle_seconds s /\
  (forall b, _erp_break_seconds s = Some b -> 0 <= b) /\
  (forall a, _erp_active_seconds s = Some a -> 0 <= a).
Proof.
  assert (Hgen : forall ops w, nonneg (mgr w) ->
            nonneg (mgr (run_ops parser ops w))).
  { clear ops. induction ops as [|op ops IH]; intros w Hw; [exact Hw|].
    cbn [run_ops fold_left]. apply IH, perform_nonneg, Hw. }
  apply Hgen. unfold nonneg. cbn.
  split; [apply Z.le_refl|split; [apply Z.le_refl|split;
    [apply Z.le_refl|split; intros ? H; discriminate H]]].
Qed.

Lemma flushed_logged_out now s :
  state s = LOGGED_OUT ->
  active_seconds (flushed now s) = active_seconds s /\
  break_seconds (flushed now s) = break_seconds s /\
  idle_seconds (flushed now s) = idle_seconds s.
Proof.
  intros Hst. rewrite flushed_eq, Hst.
  destruct (last_update s) as [last|]; [|fields; auto].
  cbn zeta. destruct (_ <=? _); fields; auto.
Qed.

Lemma start_break_refused now_flush now answer w :
  state (mgr w) <> CLOCKED_IN ->
  start_break now_flush now answer w = (Returned false, w).
Proof.
  destruct w as [s r sto]. cbn [mgr]. intros Hst.
  apply SessionState_eqb_neq in Hst.
  unfold start_break, bind, self, ret. cbn [fst snd mgr]. rewrite Hst.
  reflexivity.
Qed.

Lemma end_break_refused force now_flush now answer w :
  state (mgr w) <> ON_BREAK -> break_start (mgr w) = None ->
  end_break force now_flush now answer w = (Returned false, w).
Proof.
  destruct w as [s r sto]. cbn [mgr]. intros Hst Hbs.
  apply SessionState_eqb_neq in Hst.
  unfold end_break, bind, self, ret. cbn [fst snd mgr]. rewrite Hst, Hbs.
  cbn. rewrite orb_true_r. reflexivity.
Qed.

Lemma perform_stays_out parser op w :
  stays_out op = true ->
  state (mgr w) = LOGGED_OUT -> break_start (mgr w) = None ->
  let s' := mgr (perform parser op w) in
  state s' = LOGGED_OUT /\ break_start s' = None /\
  active_seconds s' = active_seconds (mgr w) /\
  break_seconds s' = break_seconds (mgr w) /\
  idle_seconds s' = idle_seconds (mgr w).
Proof.
  intros Hop Hst Hbs. cbn zeta.
  destruct op; try discriminate Hop; cbn [perform].
  - rewrite clock_out_mgr. fields.
    rewrite !flushed_break_start.
    destruct (flushed_logged_out (co_now_flush e) _ Hst) as (Ha & Hb & Hi).
    assert (Hst' : state (flushed (co_now_flush e) (mgr w)) = LOGGED_OUT)
      by (rewrite flushed_state; exact Hst).
    destruct (flushed_logged_out (co_summary_flush e) _ Hst')
      as (Ha' & Hb' & Hi').
    rewrite Ha', Hb', Hi', Ha, Hb, Hi. auto.
  - unfold exec.
    destruct (get_daily_summary_run now_flush now w) as (sm & ->).
    cbn [snd mgr]. rewrite flushed_state, flushed_break_start.
    destruct (flushed_logged_out now_flush _ Hst) as (Ha & Hb & Hi). auto.
  - unfold exec. rewrite start_break_refused by (rewrite Hst; discriminate).
    cbn [snd]. auto.
  - unfold exec.
    rewrite end_break_refused by (first [rewrite Hst; discriminate|exact Hbs]).
    cbn [snd]. auto.
  - destruct (update_activity_mgr is_active idle now w) as (sam & pct & ->).
    rewrite flushed_state, flushed_break_start. fields.
    match goal with
    | |- context [flushed now ?x] =>
        destruct (flushed_logged_out now x Hst) as (Ha & Hb & Hi)
    end.
    rewrite Ha, Hb, Hi. fields. auto.
  - rewrite apply_server_totals_break_start.
    destruct w as [s r sto]. unfold exec. cbn [mgr] in *.
    destruct (apply_server_totals_run parser in_time_iso out_time_iso
                break_seconds_arg on_break active_seconds_arg time_time now
                s r sto)
      as (s' & -> & _ & _ & Ha & Hb & Hi & _ & _ & _ & _ & _ & _ & Hs').
    cbn [snd mgr]. rewrite Hst in Hs'. cbn in Hs'.
    rewrite andb_false_r in Hs'.
    repeat (split; [first [assumption|destruct (_erp_state_hint s'); exact Hs']|]).
    assumption.
  - rewrite exec_accumulate. cbn [mgr].
    rewrite flushed_state, flushed_break_start.
    destruct (flushed_logged_out now _ Hst) as (Ha & Hb & Hi). auto.
  - cbn. auto.
  - destruct w as [s r sto]. cbn [mgr] in *. unfold exec.
    destruct (_last_tick s) as [last_tick|] eqn:Htick.
    + destruct (power_monitor_tick_run e s r sto last_tick Htick)
        as (s' & r' & sto' & -> & Hno & Hgap & _).
      cbn [snd mgr]. destruct (sees_gap e last_tick).
      * destruct (Hgap eq_refl) as (Ha & Hi & Hb & Hout).
        destruct (Hout Hst) as [Hs' Hbs'].
        rewrite Hst in Ha, Hi, Hb. cbn in Ha, Hi, Hb.
        rewrite andb_false_r in Ha, Hi, Hb. cbn in Ha, Hi, Hb.
        rewrite Z.add_0_r in Hb. rewrite Hbs' . auto.
      * destruct (Hno eq_refl) as (-> & _ & _). fields. auto.
    + unfold _power_monitor_tick, bind, self, raise.
      cbn [fst snd mgr]. rewrite Htick. auto.
Qed.

(** X14. No time is counted while logged out. From a logged-out session
    with no break stamped, any sequence of operations other than a clock-in
    (flushes, activity updates, summaries, break calls, forced or not,
    server merges, monitor turns with or without a sleep gap, clock-outs)
    leaves the session logged out and the three buckets exactly as they
    were, however much time passes. *)
Theorem logged_out_counts_nothing (parser : string -> option parsed)
    (ops : list Op) (w : World) :
  state (mgr w) = LOGGED_OUT -> break_start (mgr w) = None ->
  forallb stays_out ops = true ->
  let s' := mgr (run_ops parser ops w) in
  state s' = LOGGED_OUT /\
  active_seconds s' = active_seconds (mgr w) /\
  break_seconds s' = break_seconds (mgr w) /\
  idle_seconds s' = idle_seconds (mgr w).
Proof.
  revert w. induction ops as [|op ops IH]; intros w Hst Hbs Hall; cbn zeta.
  - cbn. auto.
  - cbn [forallb] in Hall. apply andb_true_iff in Hall as [Hop Hall].
    cbn [run_ops fold_left].
    destruct (perform_stays_out parser op w Hop Hst Hbs)
      as (Hst' & Hbs' & Ha & Hb & Hi).
    destruct (IH (perform parser op w) Hst' Hbs' Hall) as (H1 & H2 & H3 & H4).
    unfold run_ops in *. rewrite H2, H3, H4. auto.
Qed.

Lemma logged_out_counts_nothing_after_clock_out :
  let ops :=
    [Flush (t0 + of_int 50); UpdateActivity true 0 (t0 + of_int 60);
     StartBreak (t0 + of_int 70) (t0 + of_int 70) (Answer true);
     EndBreak true (t0 + of_int 80) (t0 + of_int 80) (Answer true);
     ApplyServerTotals None None (Some 30) (Some true) None
       (t0 + of_int 90) (t0 + of_int 90);
     Tick (sample_tick (t0 + of_int 400));
     GetDailySummary (t0 + of_int 500) (t0 + of_int 500)] in
  state (mgr logged_out_world) = LOGGED_OUT /\
  break_start (mgr logged_out_world) = None /\
  forallb stays_out ops = true /\
  let s' := mgr (run_ops fromisoformat_basic ops logged_out_world) in
  state s' = LOGGED_OUT /\
  active_seconds s' = of_int 5 /\ break_seconds s' = 0 /\
  idle_seconds s' = 0.
Proof.
  split; [reflexivity|]. split; [reflexivity|]. split; [reflexivity|].
  exact (logged_out_counts_nothing fromisoformat_basic
           [Flush (t0 + of_int 50); UpdateActivity true 0 (t0 + of_int 60);
            StartBreak (t0 + of_int 70) (t0 + of_int 70) (Answer true);
            EndBreak true (t0 + of_int 80) (t0 + of_int 80) (Answer true);
            ApplyServerTotals None None (Some 30) (Some true) None
              (t0 + of_int 90) (t0 + of_int 90);
            Tick (sample_tick (t0 + of_int 400));
            GetDailySummary (t0 + of_int 500) (t0 + of_int 500)]
           logged_out_world eq_refl eq_refl eq_refl).
Defined.

(** ** The activity window *)

Lemma flushed_window now s :
  _activity_samples (flushed now s) = _activity_samples s /\
  last_min_activity_percent (flushed now s) = last_min_activity_percent s.
Proof.
  rewrite flushed_eq. destruct (last_update s) as [last|]; [|fields; auto].
  cbn zeta. destruct (_ <=? _); [auto|].
  destruct (state s); [|destruct (is_idle s); [destruct (_ >=? _)|]| |];
    fields; auto.
Qed.

Lemma window_ok_ext s s' :
  _activity_samples s' = _activity_samples s ->
  last_min_activity_percent s' = last_min_activity_percent s ->
  window_ok s -> window_ok s'.
Proof. unfold window_ok. intros -> ->. exact id. Qed.

Lemma flushed_window_ok now s : window_ok s -> window_ok (flushed now s).
Proof.
  destruct (flushed_window now s) as [H1 H2]. apply window_ok_ext; assumption.
Qed.

Lemma bits_sum l :
  Forall (fun x => x = 0 \/ x = 1) l ->
  0 <= fold_right Z.add 0 l <= Z.of_nat (List.length l).
Proof.
  induction 1 as [|x l Hx Hl IH]; [cbn; lia|].
  cbn [fold_right List.length]. rewrite Nat2Z.inj_succ.
  destruct Hx; subst; lia.
Qed.

Lemma deque_append_ok d x :
  (List.length d <= 60)%nat -> Forall (fun x => x = 0 \/ x = 1) d ->
  x = 0 \/ x = 1 ->
  let d' := deque_append Config.ACTIVITY_SCORE_WINDOW_SECONDS d x in
  (List.length d' <= 60)%nat /\ Forall (fun x => x = 0 \/ x = 1) d' /\
  d' <> [] /\ last d' 0 = x.
Proof.
  intros Hlen Hbits Hx. unfold deque_append.
  change Config.ACTIVITY_SCORE_WINDOW_SECONDS with 60.
  destruct (Z.geb_spec (Z.of_nat (List.length d)) 60) as [Hfull|Hroom];
    cbn zeta.
  - destruct d as [|y d]; [cbn in Hfull; lia|]. cbn [tl].
    inversion Hbits; subst. rewrite length_app. cbn [List.length] in *.
    repeat split.
    + lia.
    + apply Forall_app. split; [assumption|]. constructor; [exact Hx|constructor].
    + intros H. apply app_eq_nil in H. destruct H as [_ H]. discriminate H.
    + apply last_last.
  - rewrite length_app. cbn [List.length]. repeat split.
    + lia.
    + apply Forall_app. split; [assumption|]. constructor; [exact Hx|constructor].
    + intros H. apply app_eq_nil in H. destruct H as [_ H]. discriminate H.
    + apply last_last.
Qed.

Lemma percent_ok l :
  l <> [] -> Forall (fun x => x = 0 \/ x = 1) l ->
  Qle (0 # 1) (100 * fold_right Z.add 0 l # Pos.of_nat (List.length l)) /\
  Qle (100 * fold_right Z.add 0 l # Pos.of_nat (List.length l)) (100 # 1).
Proof.
  intros Hne Hbits. pose proof (bits_sum l Hbits) as Hsum.
  destruct l as [|x l]; [congruence|].
  assert (Hpos : Z.pos (Pos.of_nat (List.length (x :: l)))
                 = Z.of_nat (List.length (x :: l))).
  { cbn [List.length]. rewrite <- Pos.of_nat_succ, Zpos_P_of_succ_nat.
    symmetry. apply Nat2Z.inj_succ. }
  unfold Qle. cbn [Qnum Qden]. rewrite Hpos. lia.
Qed.

Lemma update_activity_window_ok is_active idle now w :
  window_ok (mgr w) ->
  window_ok (mgr (exec (update_activity is_active idle now) w)).
Proof.
  destruct w as [s r sto]. cbn [mgr]. intros (Hlen & Hbits & Hlo & Hhi).
  unfold exec. remember (update_activity _ _ _ _) as res eqn:Hres.
  unfold update_activity, bind, self, assign, pass, ret in Hres.
  plumb_in Hres. fields_in Hres.
  assert (Hx : (if is_active then 1 else 0) = 0
               \/ (if is_active then 1 else 0) = 1)
    by (destruct is_active; auto).
  destruct (deque_append_ok (_activity_samples s)
              (if is_active then 1 else 0) Hlen Hbits Hx)
    as (Hlen' & Hbits' & Hne & _).
  destruct (deque_append _ _ _) as [|x l] eqn:Hd; [congruence|].
  plumb_in Hres. rewrite accumulate_run in Hres. plumb_in Hres. subst res.
  cbn [fst snd mgr]. apply flushed_window_ok. unfold window_ok. fields.
  destruct (percent_ok (x :: l) Hne Hbits') as [H1 H2]. auto.
Qed.

Lemma clock_in_window e w :
  _activity_samples (mgr (exec (clock_in e) w)) = _activity_samples (mgr w) /\
  last_min_activity_percent (mgr (exec (clock_in e) w))
  = last_min_activity_percent (mgr w).
Proof.
  destruct w as [s r [hist evs]]. destruct e as [cnow punch rd lnow wr].
  open_mgr s. unfold exec. remember (clock_in _ _) as res eqn:Hres.
  destruct punch as [ok|], bg, rd, evs, wr;
    walk_in Hres; subst res; split; reflexivity.
Qed.

Lemma clock_in_local_window now w :
  _activity_samples (mgr (exec (clock_in_local now) w))
  = _activity_samples (mgr w) /\
  last_min_activity_percent (mgr (exec (clock_in_local now) w))
  = last_min_activity_percent (mgr w).
Proof.
  destruct w as [s r sto]. open_mgr s. unfold exec.
  remember (clock_in_local _ _) as res eqn:Hres.
  destruct bg; walk_in Hres; subst res; split; reflexivity.
Qed.

Lemma power_monitor_tick_window e w :
  _activity_samples (mgr (exec (_power_monitor_tick e) w))
  = _activity_samples (mgr w) /\
  last_min_activity_percent (mgr (exec (_power_monitor_tick e) w))
  = last_min_activity_percent (mgr w).
Proof.
  destruct w as [s r sto]. cbn [mgr]. unfold exec.
  remember (_power_monitor_tick e _) as res eqn:Hres.
  unfold _power_monitor_tick, bind, self, try_except, assign, pass, ret,
    call, raise in Hres.
  plumb_in Hres.
  destruct (_last_tick s) as [last_tick|]; [|subst res; auto].
  destruct (_ >? _); plumb_in Hres;
    [|subst res; cbn [fst snd mgr]; fields; auto].
  destruct (state s) eqn:Hst; plumb_in Hres.
  2, 3: destruct (_sleep_gap_prehandled s) eqn:Hpre; plumb_in Hres.
  3: destruct (break_start s) as [b|] eqn:Hbs; plumb_in Hres.
  4: rewrite accumulate_run in Hres; plumb_in Hres;
    destruct (tk_break e) as [[|]|]; plumb_in Hres.
  all: match type of Hres with
       | context [_record_sleep_event ?a ?b ?c ?d ?f ?g ?w1] =>
           destruct (record_sleep_event_run a b c d f g w1)
             as (calls & sto' & Hrec & Hev);
           cbn [mgr remote storage] in Hrec;
           rewrite Hrec in Hres; plumb_in Hres
       end.
  all: subst res; cbn [fst snd mgr]; fields.
  all: try (destruct (flushed_window (tk_now_flush e) s) as [-> ->]).
  all: auto.
Qed.

Lemma perform_window_ok parser op w :
  window_ok (mgr w) -> window_ok (mgr (perform parser op w)).
Proof.
  intros Hinv. destruct op; cbn [perform].
  - destruct (clock_in_window e w) as [H1 H2].
    apply (window_ok_ext (mgr w)); assumption.
  - destruct (clock_in_local_window now w) as [H1 H2].
    apply (window_ok_ext (mgr w)); assumption.
  - rewrite clock_out_mgr.
    refine (window_ok_ext _ _ _ _
              (flushed_window_ok _ _
                 (flushed_window_ok (co_now_flush e) _ Hinv))); reflexivity.
  - unfold exec.
    destruct (get_daily_summary_run now_flush now w) as (sm & ->).
    cbn [snd mgr]. apply flushed_window_ok, Hinv.
  - destruct (start_break_mgr now_flush now answer w) as (open & [->| ->]);
      [exact Hinv|].
    refine (window_ok_ext _ _ _ _ (flushed_window_ok now_flush _ Hinv));
      reflexivity.
  - destruct (end_break_mgr force now_flush now answer w)
      as (open & [->| ->]); [exact Hinv|].
    refine (window_ok_ext _ _ _ _
              (flushed_window_ok now_flush (set_state ON_BREAK (mgr w)) _));
      try reflexivity.
    refine (window_ok_ext _ _ _ _ Hinv); reflexivity.
  - apply update_activity_window_ok, Hinv.
  - destruct w as [s r sto]. unfold exec. cbn [mgr] in *.
    destruct (apply_server_totals_run parser in_time_iso out_time_iso
                break_seconds_arg on_break active_seconds_arg time_time now
                s r sto)
      as (s' & -> & _ & _ & _ & _ & _ & Hsam & Hpct & _).
    cbn [snd mgr]. apply (window_ok_ext s); assumption.
  - rewrite exec_accumulate. cbn [mgr]. apply flushed_window_ok, Hinv.
  - refine (window_ok_ext _ _ _ _ Hinv); reflexivity.
  - destruct (power_monitor_tick_window e w) as [H1 H2].
    apply (window_ok_ext (mgr w)); assumption.
Qed.

(** X15. The rolling activity window stays in bounds. In every world
    reached from the initial session by any sequence of operations, the
    window holds at most 60 samples, each 0 or 1, and the activity
    percentage lies between 0 and 100. *)
Theorem activity_window_in_bounds (parser : string -> option parsed)
    (ops : list Op) :
  let s := mgr (run_ops parser ops init_world) in
  (List.length (_activity_samples s) <= 60)%nat /\
  Forall (fun x => x = 0 \/ x = 1) (_activity_samples s) /\
  Qle (0 # 1) (last_min_activity_percent s) /\
  Qle (last_min_activity_percent s) (100 # 1).
Proof.
  assert (Hgen : forall ops w, window_ok (mgr w) ->
            window_ok (mgr (run_ops parser ops w))).
  { clear ops. induction ops as [|op ops IH]; intros w Hw; [exact Hw|].
    cbn [run_ops fold_left]. apply IH, perform_window_ok, Hw. }
  apply Hgen. unfold window_ok, Qle. cbn.
  split; [apply Nat.le_0_l|split; [constructor|split; lia]].
Qed.

(** X16. Samples classified at the idle time-out never feed the idle
    bucket. When the caller reports a sample as idle exactly when the idle
    time has reached the time-out of 300 s (as the activity timer of the
    main window does), [update_activity] leaves [idle_seconds] as it was in
    every state: the elapsed time goes to [active_seconds] or to
    [break_seconds]. *)
Theorem threshold_samples_skip_idle_bucket (is_active : bool)
    (idle : seconds) (now : datetime) (w : World) :
  is_active = negb (idle >=? of_int Config.IDLE_TIMEOUT_SECONDS) ->
  idle_seconds (mgr (exec (update_activity is_active idle now) w))
  = idle_seconds (mgr w).
Proof.
  intros Hact.
  destruct (update_activity_mgr is_active idle now w) as (sam & pct & ->).
  rewrite flushed_eq. fields.
  destruct (last_update (mgr w)) as [last|]; [|reflexivity].
  cbn zeta. destruct (_ <=? _); [reflexivity|].
  destruct (state (mgr w)) eqn:Hst; fields; try reflexivity.
  rewrite Hact, negb_involutive.
  destruct (idle >=? of_int Config.IDLE_TIMEOUT_SECONDS); reflexivity.
Qed.

Lemma threshold_samples_skip_idle_bucket_at_400s :
  false = negb (of_int 400 >=? of_int Config.IDLE_TIMEOUT_SECONDS) /\
  let s' :=
    mgr (exec (update_activity false (of_int 400) (t0 + of_int 400))
           clocked_in_world) in
  idle_seconds s' = 0 /\ break_seconds s' = of_int 400.
Proof.
  split; [reflexivity|]. cbn zeta. split; [|vm_compute; reflexivity].
  exact (threshold_samples_skip_idle_bucket false (of_int 400)
           (t0 + of_int 400) clocked_in_world eq_refl).
Defined.

Lemma break_is_credited_after_clock_in :
  state (mgr clocked_in_world) = CLOCKED_IN /\
  break_start (mgr clocked_in_world) = None /\
  last_update (mgr clocked_in_world) = Some t0 /\
  t0 <= t0 + of_int 5 /\ t0 + of_int 5 <= t0 + of_int 65 /\
  let s2 :=
    mgr (exec (end_break false (t0 + of_int 65) (t0 + of_int 65)
                 (Answer true))
           (exec (start_break (t0 + of_int 5) (t0 + of_int 5) (Answer true))
              clocked_in_world)) in
  state s2 = CLOCKED_IN /\ break_seconds s2 = of_int 60 /\
  active_seconds s2 = of_int 5.
Proof.
  split; [reflexivity|]. split; [reflexivity|]. split; [reflexivity|].
  split; [discriminate|]. split; [discriminate|].
  destruct (break_is_credited (t0 + of_int 5) (t0 + of_int 65) (Answer true)
              (Answer true) false clocked_in_world t0 eq_refl eq_refl eq_refl)
    as (Hst & _ & _ & Hbrk & Hact & _); [discriminate|discriminate|].
  split; [exact Hst|]. split; [exact Hbrk|exact Hact].
Defined.

(** ** Reading the server's times *)

Lemma rstrip_app_kept (t : string) :
  t <> "" -> Python.rstrip t = t ->
  forall x, Python.rstrip (x ++ t) = x ++ t.
Proof.
  intros Hne Ht. induction x as [|c x IH]; [exact Ht|].
  cbn [append Python.rstrip]. rewrite IH.
  destruct (x ++ t) eqn:Happ; [|reflexivity].
  destruct x; cbn in Happ; [congruence|discriminate Happ].
Qed.

Lemma lstrip_app_kept (t : string) (c : ascii) (r : string) :
  t = String c r -> Python.is_space c = false ->
  forall x, Python.lstrip (x ++ t) = Python.lstrip x ++ t.
Proof.
  intros -> Hc. induction x as [|d x IH].
  - cbn. rewrite Hc. reflexivity.
  - cbn [append Python.lstrip]. destruct (Python.is_space d);
      [exact IH|reflexivity].
Qed.

Lemma string_app_assoc (a b c : string) : (a ++ b) ++ c = a ++ (b ++ c).
Proof.
  induction a as [|x a IH]; [reflexivity|]. cbn [append]. rewrite IH.
  reflexivity.
Qed.

Lemma replace_char_app old new x y :
  Python.replace_char old new (x ++ y)
  = Python.replace_char old new x ++ Python.replace_char old new y.
Proof.
  induction x as [|c x IH]; [reflexivity|].
  cbn [append Python.replace_char]. rewrite IH.
  destruct (Ascii.eqb c old); [|reflexivity].
  symmetry. apply string_app_assoc.
Qed.

Lemma parse_iso_nonblank parser v c r :
  Python.strip v = String c r ->
  _parse_iso_datetime parser (Some v)
  = match parser (Python.replace_char "Z" "+00:00" (String c r)) with
    | Some dt => Some (to_utc dt)
    | None => None
    end.
Proof.
  intros Hv. unfold _parse_iso_datetime.
  destruct v; [discriminate Hv|]. rewrite Hv. reflexivity.
Qed.

(** X17. How [_parse_iso_datetime] reads its argument, for any
    [datetime.fromisoformat]: an absent, empty or blank text gives [None]
    without the parser being consulted, and a text that ends in ["Z"] is
    read exactly as the same text ending in ["+00:00"]. *)
Theorem parse_iso_datetime_edges (parser : string -> option parsed) :
  _parse_iso_datetime parser None = None /\
  (forall blank, Python.strip blank = "" ->
     _parse_iso_datetime parser (Some blank) = None) /\
  (forall text,
     _parse_iso_datetime parser (Some (text ++ "Z"))
     = _parse_iso_datetime parser (Some (text ++ "+00:00"))).
Proof.
  split; [reflexivity|]. split.
  - intros blank Hblank. unfold _parse_iso_datetime. rewrite Hblank.
    destruct blank; reflexivity.
  - intros text.
    assert (Hstrip : forall t c r, t = String c r ->
              Python.is_space c = false -> Python.rstrip t = t ->
              Python.strip (text ++ t) = Python.lstrip text ++ t).
    { intros t c r Ht Hc Hr. unfold Python.strip.
      rewrite (lstrip_app_kept t c r Ht Hc).
      apply rstrip_app_kept; [subst t; discriminate|exact Hr]. }
    pose proof (Hstrip "Z" "Z"%char "" eq_refl eq_refl eq_refl) as HZ.
    pose proof (Hstrip "+00:00" "+"%char "00:00" eq_refl eq_refl eq_refl)
      as HP.
    destruct (Python.lstrip text) as [|c r].
    + rewrite (parse_iso_nonblank parser _ _ _ HZ),
        (parse_iso_nonblank parser _ _ _ HP). reflexivity.
    + cbn [append] in HZ, HP.
      rewrite (parse_iso_nonblank parser _ _ _ HZ),
        (parse_iso_nonblank parser _ _ _ HP).
      change (String c (r ++ "Z")) with (String c r ++ "Z").
      change (String c (r ++ "+00:00")) with (String c r ++ "+00:00").
      rewrite !replace_char_app. reflexivity.
Qed.

(** ** More on the daily summary *)

(** X18. While clocked in with no server-side active seconds and no
    [out_time], the active total of the summary is the whole seconds from
    the start of the shift (the server's [in_time] if known, else
    [session_start]) to [now], minus the break total, and not less than
    zero; the local [active_seconds] and [idle_seconds] play no part in it.
    The break total is the server's break seconds when known, else the
    whole seconds of the local bucket after the flush. *)
Theorem summary_active_is_span_minus_breaks (now_flush now : datetime)
    (w : World) (start : datetime) :
  _erp_active_seconds (mgr w) = None -> _erp_out_time (mgr w) = None ->
  state (mgr w) <> LOGGED_OUT ->
  or_else (_erp_in_time (mgr w)) (session_start (mgr w)) = Some start ->
  start <= now ->
  let s1 := flushed now_flush (mgr w) in
  let break_total :=
    match _erp_break_seconds (mgr w) with
    | Some b => Z.max 0 b
    | None => Z.max 0 (int (break_seconds s1))
    end in
  result (get_daily_summary now_flush now) w
  = Returned
      (mkSummary
         (Session._format_hms
            (Z.max 0 (Z.max 0 (int (total_seconds now start)) - break_total)))
         (Session._format_hms break_total)
         (Session._format_hms (Z.max 0 (int (idle_seconds s1))))).
Proof.
  destruct w as [s r sto]. cbn [mgr]. intros Hact Hout Hst Hstart Hle.
  unfold result, get_daily_summary, bind. rewrite accumulate_run.
  unfold self, ret. cbn [fst snd mgr remote storage].
  destruct (flushed_frame now_flush s)
    as (Hs & Hss & _ & _ & _ & _ & _ & _ & _ & Hin & Ho & Hb & Ha & _).
  cbn zeta in *. rewrite Ha, Hact, Hin, Hss, Hstart, Ho, Hout, Hb, Hs.
  assert (Hend : match state s, last_update (flushed now_flush s) with
                 | LOGGED_OUT, Some last => last
                 | _, _ => now
                 end = now).
  { destruct (state s); [congruence| | |]; reflexivity. }
  rewrite Hend.
  destruct (Z.ltb_spec now start); [lia|]. reflexivity.
Qed.

Lemma summary_active_is_span_minus_breaks_after_a_break :
  let w :=
    run_ops fromisoformat_basic
      [StartBreak (t0 + of_int 600) (t0 + of_int 600) (Answer true);
       EndBreak false (t0 + of_int 900) (t0 + of_int 900) (Answer true);
       UpdateActivity false (of_int 100) (t0 + of_int 3600)]
      clocked_in_world in
  _erp_active_seconds (mgr w) = None /\ _erp_out_time (mgr w) = None /\
  state (mgr w) <> LOGGED_OUT /\
  or_else (_erp_in_time (mgr w)) (session_start (mgr w)) = Some t0 /\
  t0 <= t0 + of_int 3600 /\
  active_seconds (mgr w) = of_int 600 /\ idle_seconds (mgr w) = of_int 2700 /\
  result (get_daily_summary (t0 + of_int 3600) (t0 + of_int 3600)) w
  = Returned (mkSummary "00:55:00" "00:05:00" "00:45:00").
Proof.
  cbn zeta.
  split; [vm_compute; reflexivity|]. split; [vm_compute; reflexivity|].
  split; [vm_compute; discriminate|]. split; [vm_compute; reflexivity|].
  split; [discriminate|]. split; [vm_compute; reflexivity|].
  split; [vm_compute; reflexivity|].
  rewrite (summary_active_is_span_minus_breaks (t0 + of_int 3600)
             (t0 + of_int 3600) _ t0);
    [vm_compute; reflexivity|vm_compute; reflexivity|vm_compute; reflexivity
    |vm_compute; discriminate|vm_compute; reflexivity|discriminate].
Defined.

(** ** More on the duration codec *)

Lemma split_colon_free a : forall m rest,
  colon_free a ->
  Python.split ":" (S m) (a ++ String ":" rest) = a :: Python.split ":" m rest.
Proof.
  induction a as [|c a IH]; intros m rest Hfree; [reflexivity|].
  destruct Hfree as [Hc Ha]. cbn [append Python.split].
  rewrite Hc, IH by exact Ha. reflexivity.
Qed.

Lemma split_colon_free_last a : forall m,
  colon_free a -> Python.split ":" m a = [a].
Proof.
  induction a as [|c a IH]; intros m Hfree; [destruct m; reflexivity|].
  destruct Hfree as [Hc Ha]. cbn [Python.split]. destruct m; [reflexivity|].
  rewrite Hc, IH by exact Ha. reflexivity.
Qed.

Lemma digits_colon_free ds :
  Forall decimal ds -> colon_free (Python.string_of_digits ds).
Proof.
  induction 1 as [|d ds Hd Hds IH]; [exact I|].
  cbn [Python.string_of_digits colon_free]. split; [|exact IH].
  apply digit_char_not_colon, Hd.
Qed.

Lemma int_negative ds :
  Forall decimal ds -> ds <> [] ->
  Python.int (String "-" (Python.string_of_digits ds)) = Some (- value ds 0).
Proof.
  intros Hall Hne. unfold Python.int, Python.strip.
  cbn [Python.lstrip]. change (Python.is_space "-") with false. cbn iota.
  cbn [Python.rstrip]. rewrite rstrip_digits by exact Hall.
  destruct ds as [|d ds]; [congruence|].
  cbn [Python.string_of_digits].
  change (String (Python.digit_char d) (Python.string_of_digits ds))
    with (Python.string_of_digits (d :: ds)).
  rewrite int_digits_string by auto. reflexivity.
Qed.

(** What [f"{n:02d}"] prints: a colon-free text that [int] reads back as
    [n], whatever the sign of [n]. *)
Lemma format_02d_reads_back n :
  colon_free (Python.format_02d n) /\
  Python.int (Python.format_02d n) = Some n.
Proof.
  destruct (Z.ltb_spec n 0) as [Hneg|Hpos].
  - unfold Python.format_02d, Python.str.
    destruct (Z.ltb_spec n 0); [|lia].
    destruct (digits_spec (- n)) as (Hne & Hall & Hval); [lia|].
    split.
    + cbn [colon_free]. split; [reflexivity|apply digits_colon_free, Hall].
    + rewrite int_negative by assumption. rewrite Hval. f_equal. lia.
  - destruct (format_02d_digits n Hpos) as (ds & -> & Hne & Hall & Hval).
    split; [apply digits_colon_free, Hall|].
    rewrite int_string_of_digits by assumption. rewrite Hval. reflexivity.
Qed.

(** [_parse_hms] reads back what [_format_hms] prints, whatever the sign. *)
Lemma parse_format_any (s : Z) :
  AttendanceAPI._parse_hms (Some (AttendanceAPI._format_hms s)) = s.
Proof.
  destruct (format_02d_reads_back (s / 3600)) as [Hfh Hih].
  destruct (format_02d_reads_back (s mod 3600 / 60)) as [Hfm Him].
  destruct (format_02d_reads_back (s mod 60)) as [Hfc Hic].
  unfold AttendanceAPI._parse_hms, AttendanceAPI._format_hms.
  set (H := Python.format_02d (s / 3600)) in *.
  set (M := Python.format_02d (s mod 3600 / 60)) in *.
  set (C := Python.format_02d (s mod 60)) in *.
  assert (Hne : exists c r, H ++ ":" ++ M ++ ":" ++ C = String c r).
  { destruct H; cbn; eauto. }
  destruct Hne as (c & r & Hne). rewrite Hne, <- Hne.
  change (H ++ ":" ++ M ++ ":" ++ C)
    with (H ++ String ":" (M ++ String ":" C)).
  rewrite !split_colon_free, split_colon_free_last by assumption.
  cbn [Python.map_raise]. rewrite Hih, Him, Hic. cbn.
  apply hms_recompose.
Qed.

(** X19. The codec round trip holds for every integer, negative ones
    included: [_parse_hms] reads back what [_format_hms] prints (the sign
    is carried by the hours field, as in "-1:59:59" for -1). Hence two
    different durations never print the same text. *)
Theorem codec_round_trip_every_integer :
  (forall s : Z,
     AttendanceAPI._parse_hms (Some (AttendanceAPI._format_hms s)) = s) /\
  (forall a b : Z,
     AttendanceAPI._format_hms a = AttendanceAPI._format_hms b -> a = b) /\
  AttendanceAPI._format_hms (-1) = "-1:59:59".
Proof.
  split; [exact parse_format_any|]. split; [|reflexivity].
  intros a b Hab.
  rewrite <- (parse_format_any a), <- (parse_format_any b), Hab.
  reflexivity.
Qed.

(** X20. [_parse_hms] pads missing leading fields with zero: a text of two
    fields is read as minutes and seconds, and a text of one field as
    seconds. *)
Theorem parse_hms_pads_leading_fields (m s : Z) :
  AttendanceAPI._parse_hms (Some (Python.str m ++ ":" ++ Python.str s))
  = m * 60 + s /\
  AttendanceAPI._parse_hms (Some (Python.str s)) = s.
Proof.
  assert (Hstr : forall n, colon_free (Python.str n) /\
                           Python.int (Python.str n) = Some n /\
                           exists c r, Python.str n = String c r).
  { intros n. unfold Python.str. destruct (Z.ltb_spec n 0) as [Hneg|Hpos].
    - destruct (digits_spec (- n)) as (Hne & Hall & Hval); [lia|].
      split; [|split; [|eauto]].
      + cbn [colon_free]. split; [reflexivity|apply digits_colon_free, Hall].
      + rewrite int_negative by assumption. rewrite Hval. f_equal. lia.
    - destruct (digits_spec n Hpos) as (Hne & Hall & Hval).
      split; [apply digits_colon_free, Hall|split].
      + rewrite int_string_of_digits by assumption. rewrite Hval. reflexivity.
      + destruct (Python.digits n); [congruence|]. cbn. eauto. }
  destruct (Hstr m) as (Hfm & Him & cm & rm & Hm).
  destruct (Hstr s) as (Hfs & His & cs & rs & Hs).
  unfold AttendanceAPI._parse_hms. split.
  - set (M := Python.str m) in *. set (C := Python.str s) in *.
    assert (Hne : M ++ ":" ++ C = String cm (rm ++ ":" ++ C))
      by (rewrite Hm; reflexivity).
    rewrite Hne, <- Hne.
    change (M ++ ":" ++ C) with (M ++ String ":" C).
    rewrite split_colon_free, split_colon_free_last by assumption.
    cbn [Python.map_raise]. rewrite Him, His. cbn. lia.
  - set (C := Python.str s) in *. rewrite Hs, <- Hs.
    rewrite split_colon_free_last by assumption.
    cbn [Python.map_raise]. rewrite His. cbn. lia.
Qed.

Lemma lstrip_colons s : colons (Python.lstrip s) = colons s.
Proof.
  induction s as [|c r IH]; [reflexivity|]. cbn [Python.lstrip].
  destruct (Python.is_space c) eqn:Hsp; [|reflexivity].
  rewrite IH. cbn [colons].
  destruct (Ascii.eqb_spec c ":") as [->|_]; [discriminate Hsp|reflexivity].
Qed.

Lemma rstrip_colons s : colons (Python.rstrip s) = colons s.
Proof.
  induction s as [|c r IH]; [reflexivity|]. cbn [Python.rstrip].
  destruct (Python.rstrip r) as [|c' r'] eqn:Hr.
  - cbn [colons] in IH. cbn [colons]. rewrite <- IH.
    destruct (Python.is_space c) eqn:Hsp; [|reflexivity].
    destruct (Ascii.eqb_spec c ":") as [->|_]; [discriminate Hsp|reflexivity].
  - cbn [colons] in *. rewrite IH. reflexivity.
Qed.

Lemma int_digits_colon s : forall acc prev,
  (0 < colons s)%nat -> Python.int_digits acc prev s = None.
Proof.
  induction s as [|c r IH]; intros acc prev Hc; [cbn in Hc; lia|].
  cbn [Python.int_digits]. cbn [colons] in Hc.
  destruct (Ascii.eqb_spec c ":") as [->|_]; [reflexivity|].
  cbn [Nat.add] in Hc.
  destruct (Python.is_digit c); [apply IH, Hc|].
  destruct (Ascii.eqb c "_"); [|reflexivity].
  destruct prev; [apply IH, Hc|reflexivity].
Qed.

(** [int] raises on a text that holds a colon. *)
Lemma int_colon s : (0 < colons s)%nat -> Python.int s = None.
Proof.
  intros Hc. unfold Python.int, Python.strip.
  assert (Hs : (0 < colons (Python.rstrip (Python.lstrip s)))%nat)
    by (rewrite rstrip_colons, lstrip_colons; exact Hc).
  destruct (Python.rstrip (Python.lstrip s)) as [|c r]; [cbn in Hs; lia|].
  destruct (Ascii.eqb_spec c "+") as [->|Hplus];
    [cbn in Hs |- *; apply int_digits_colon, Hs|].
  destruct (Ascii.eqb_spec c "-") as [->|Hminus];
    [cbn in Hs |- *; rewrite int_digits_colon by exact Hs; reflexivity|].
  transitivity (Python.int_digits 0 false (String c r));
    [|apply int_digits_colon, Hs].
  destruct c as [[] [] [] [] [] [] [] []]; try reflexivity; congruence.
Qed.

Lemma split_keeps_colons s : forall m,
  (m < colons s)%nat ->
  exists pre l, Python.split ":" m s = (pre ++ [l])%list /\
                (0 < colons l)%nat.
Proof.
  induction s as [|c r IH]; intros m Hc; [cbn in Hc; lia|].
  destruct m as [|m].
  - exists [], (String c r). split; [reflexivity|exact Hc].
  - cbn [Python.split]. cbn [colons] in Hc.
    destruct (Ascii.eqb c ":").
    + destruct (IH m) as (pre & l & Hsplit & Hl); [lia|].
      exists (EmptyString :: pre), l. rewrite Hsplit. split; [reflexivity|exact Hl].
    + destruct (IH (S m)) as (pre & l & Hsplit & Hl); [exact Hc|].
      rewrite Hsplit. destruct pre as [|p pre].
      * exists [], (String c l). split; [reflexivity|].
        cbn [colons]. lia.
      * exists (String c p :: pre), l. split; [reflexivity|exact Hl].
Qed.

Lemma map_raise_last {A B} (f : A -> option B) pre l :
  f l = None -> Python.map_raise f (pre ++ [l])%list = None.
Proof.
  intros Hl. induction pre as [|a pre IH].
  - cbn. rewrite Hl. reflexivity.
  - cbn [app Python.map_raise]. destruct (f a); [|reflexivity].
    rewrite IH. reflexivity.
Qed.

(** X21. A text with a fourth field is not a duration: when the text holds
    three colons or more, the third piece of [split(":", 2)] keeps a colon,
    [int] raises on it and [_parse_hms] answers 0 instead of failing. *)
Theorem parse_hms_rejects_fourth_field (text : string) :
  (3 <= colons text)%nat -> AttendanceAPI._parse_hms (Some text) = 0.
Proof.
  intros Hc. unfold AttendanceAPI._parse_hms.
  destruct text as [|c r]; [cbn in Hc; lia|].
  destruct (split_keeps_colons (String c r) 2) as (pre & l & -> & Hl); [lia|].
  rewrite map_raise_last by (apply int_colon, Hl). reflexivity.
Qed.

Lemma parse_hms_rejects_fourth_field_at_four_fields :
  (3 <= colons "01:02:03:04")%nat /\
  AttendanceAPI._parse_hms (Some "01:02:03:04") = 0.
Proof.
  split; [cbn; lia|].
  apply (parse_hms_rejects_fourth_field "01:02:03:04"). cbn. lia.
Defined.

(** ** The summaries over the stored history *)

Lemma sum_from {A} (f : A -> Z) l : forall acc,
  fold_left (fun acc r => acc + f r) l acc = acc + total f l.
Proof.
  induction l as [|x l IH]; intros acc; cbn [fold_left total fold_right].
  - lia.
  - rewrite IH. fold (total f l). lia.
Qed.

Lemma sum_total {A} (f : A -> Z) l : LocalHistory.sum f l = total f l.
Proof. unfold LocalHistory.sum. rewrite sum_from. lia. Qed.

Lemma total_app {A} (f : A -> Z) l l' :
  total f (l ++ l')%list = total f l + total f l'.
Proof.
  induction l as [|x l IH]; [reflexivity|].
  cbn [app]. unfold total in *. cbn [fold_right]. rewrite IH. lia.
Qed.

Lemma total_rows (g : HistoryRecord -> string) (h : Z * (Z * Z * Z) -> Z) days :
  (forall day, g (history_row day) = AttendanceAPI._format_hms (h day)) ->
  total (fun r => AttendanceAPI._parse_hms (Some (g r))) (map history_row days)
  = total h days.
Proof.
  intros Hg. induction days as [|day days IH]; [reflexivity|].
  cbn [map]. unfold total in *. cbn [fold_right].
  rewrite IH, Hg, parse_format_any. reflexivity.
Qed.

Lemma aggregate_rows days :
  LocalHistory._aggregate (map history_row days)
  = mkSummary (AttendanceAPI._format_hms (total day_active days))
      (AttendanceAPI._format_hms (total day_break days))
      (AttendanceAPI._format_hms (total day_idle days)).
Proof.
  unfold LocalHistory._aggregate. rewrite !sum_total.
  rewrite (total_rows h_active day_active), (total_rows h_break day_break),
    (total_rows h_idle day_idle);
    [reflexivity|..]; intros [d [[a b] i]]; reflexivity.
Qed.

Lemma all_time_summary_run io w :
  LocalHistory.get_all_time_summary io w
  = (Returned
       (LocalHistory._aggregate
          match io with IoDone => history (storage w) | IoError => [] end),
     w).
Proof.
  unfold LocalHistory.get_all_time_summary, LocalHistory._load_history,
    try_except, bind, read_local_storage, ret.
  destruct io; reflexivity.
Qed.

(** X22. The all-time summary adds the days up: over a history whose rows
    hold the durations of [days], each printed by [_format_hms], it answers
    the three sums, printed the same way; when the storage cannot be read
    it answers three zero durations. It changes nothing. *)
Theorem all_time_summary_adds_rows (days : list (Z * (Z * Z * Z)))
    (io : IoAnswer) (w : World) :
  history (storage w) = map history_row days ->
  LocalHistory.get_all_time_summary io w
  = (Returned
       match io with
       | IoDone =>
           mkSummary (AttendanceAPI._format_hms (total day_active days))
             (AttendanceAPI._format_hms (total day_break days))
             (AttendanceAPI._format_hms (total day_idle days))
       | IoError => mkSummary "00:00:00" "00:00:00" "00:00:00"
       end,
     w).
Proof.
  intros Hrows. rewrite all_time_summary_run.
  destruct io; [|reflexivity].
  rewrite Hrows, aggregate_rows. reflexivity.
Qed.

Lemma all_time_summary_adds_rows_of_two_days :
  let w :=
    mkWorld init []
      (mkStorage
         [mkHistoryRecord 19675 "07:30:00" "00:45:00" "00:10:00";
          mkHistoryRecord 19676 "08:15:30" "00:30:00" "00:00:05"] []) in
  LocalHistory.get_all_time_summary IoDone w
  = (Returned (mkSummary "15:45:30" "01:15:00" "00:10:05"), w).
Proof.
  intros w.
  apply (all_time_summary_adds_rows
           [(19675, (27000, 2700, 600)); (19676, (29730, 1800, 5))] IoDone w).
  reflexivity.
Defined.

Lemma get_daily_summary_shape now_flush now w :
  exists a b i,
    get_daily_summary now_flush now w
    = (Returned
         (mkSummary (Session._format_hms a) (Session._format_hms b)
            (Session._format_hms i)),
       mkWorld (flushed now_flush (mgr w)) (remote w) (storage w)).
Proof.
  unfold get_daily_summary, bind. rewrite accumulate_run.
  unfold self, ret. cbn [fst snd mgr remote storage].
  eexists; eexists; eexists. reflexivity.
Qed.

Lemma clock_out_history e w :
  co_read e = IoDone -> co_write e = IoDone ->
  exists a b i,
    result (get_daily_summary (co_summary_flush e) (co_summary_now e))
      (exec (_accumulate_until_now (co_now_flush e)) w)
    = Returned
        (mkSummary (Session._format_hms a) (Session._format_hms b)
           (Session._format_hms i)) /\
    history (storage (exec (clock_out e) w))
    = (history (storage w)
         ++ [history_row (date (co_local_now e), (a, b, i))])%list.
Proof.
  intros Hread Hwrite.
  destruct w as [s r sto]. rewrite exec_accumulate.
  unfold exec, result. cbn [mgr remote storage].
  remember (clock_out e _) as res eqn:Hres.
  unfold clock_out, bind in Hres. rewrite accumulate_run in Hres.
  unfold try_except, _stop_background_tasks, read_local_storage,
    write_local_storage, call, assign, pass, ret in Hres.
  destruct (get_daily_summary_shape (co_summary_flush e) (co_summary_now e)
              (mkWorld (flushed (co_now_flush e) (mgr (mkWorld s r sto)))
                 (remote (mkWorld s r sto)) (storage (mkWorld s r sto))))
    as (a & b & i & Hsm).
  cbn [mgr remote storage] in Hsm. plumb_in Hres.
  rewrite Hsm in Hres. plumb_in Hres.
  rewrite Hread, Hwrite in Hres.
  exists a, b, i. rewrite Hsm. split; [reflexivity|].
  destruct (co_punch e) as [ok|]; plumb_in Hres; subst res; reflexivity.
Qed.

(** X23. A clock-out feeds the all-time summary: over a history whose rows
    hold the durations of [days], and with the storage answering, the
    all-time summary read after the clock-out is the one of [days] plus
    the durations [a], [b] and [i] that the daily summary of the clock-out
    printed. *)
Theorem clock_out_feeds_all_time_summary (e : ClockOutEnv) (w : World)
    (days : list (Z * (Z * Z * Z))) :
  history (storage w) = map history_row days ->
  co_read e = IoDone -> co_write e = IoDone ->
  exists a b i,
    result (get_daily_summary (co_summary_flush e) (co_summary_now e))
      (exec (_accumulate_until_now (co_now_flush e)) w)
    = Returned
        (mkSummary (Session._format_hms a) (Session._format_hms b)
           (Session._format_hms i)) /\
    result (LocalHistory.get_all_time_summary IoDone) (exec (clock_out e) w)
    = Returned
        (mkSummary
           (AttendanceAPI._format_hms (total day_active days + a))
           (AttendanceAPI._format_hms (total day_break days + b))
           (AttendanceAPI._format_hms (total day_idle days + i))).
Proof.
  intros Hrows Hread Hwrite.
  destruct (clock_out_history e w Hread Hwrite) as (a & b & i & Hsm & Hhist).
  exists a, b, i. split; [exact Hsm|].
  unfold result. rewrite all_time_summary_run. cbn [fst].
  rewrite Hhist, Hrows.
  change [history_row (date (co_local_now e), (a, b, i))]
    with (map history_row [(date (co_local_now e), (a, b, i))]).
  rewrite <- map_app, aggregate_rows, !total_app.
  unfold total. cbn [fold_right day_active day_break day_idle fst snd].
  rewrite !Z.add_0_r. reflexivity.
Qed.

Lemma clock_out_feeds_all_time_summary_after_five_seconds :
  exists a b i,
    result
      (get_daily_summary (t0 + of_int 5) (t0 + of_int 5))
      (exec (_accumulate_until_now (t0 + of_int 5)) clocked_in_world)
    = Returned
        (mkSummary (Session._format_hms a) (Session._format_hms b)
           (Session._format_hms i)) /\
    result (LocalHistory.get_all_time_summary IoDone)
      (exec (clock_out (sample_clock_out (t0 + of_int 5))) clocked_in_world)
    = Returned
        (mkSummary (AttendanceAPI._format_hms (0 + a))
           (AttendanceAPI._format_hms (0 + b))
           (AttendanceAPI._format_hms (0 + i))).
Proof.
  apply (clock_out_feeds_all_time_summary (sample_clock_out (t0 + of_int 5))
           clocked_in_world []);
    vm_compute; reflexivity.
Defined.

(** ** The history view *)

Lemma dict_get_set d : forall k v k' default,
  LocalHistory.dict_get (LocalHistory.dict_set d k v) k' default
  = if k =? k' then v else LocalHistory.dict_get d k' default.
Proof.
  induction d as [|[k0 v0] rest IH]; intros k v k' default.
  - reflexivity.
  - cbn [LocalHistory.dict_set].
    destruct (Z.eqb_spec k0 k) as [->|Hne]; cbn [LocalHistory.dict_get].
    + destruct (k =? k'); reflexivity.
    + rewrite IH. destruct (Z.eqb_spec k0 k') as [->|Hne'].
      * destruct (Z.eqb_spec k k'); [congruence|reflexivity].
      * reflexivity.
Qed.

Lemma sleep_by_date_total events : forall d key,
  LocalHistory.dict_get
    (fold_left
       (fun d event =>
          LocalHistory.dict_set d (ev_date event)
            (LocalHistory.dict_get d (ev_date event) 0
             + ev_duration_seconds event))
       events d) key 0
  = LocalHistory.dict_get d key 0 + slept_on key events.
Proof.
  induction events as [|ev events IH]; intros d key.
  - unfold slept_on, total. cbn. lia.
  - cbn [fold_left]. rewrite IH, dict_get_set.
    unfold slept_on. cbn [filter].
    destruct (Z.eqb_spec (ev_date ev) key) as [->|Hne].
    + unfold total. cbn [fold_right]. lia.
    + reflexivity.
Qed.

Lemma insert_row_perm x l :
  Permutation (LocalHistory.insert_row x l) (x :: l).
Proof.
  induction l as [|y l IH]; [reflexivity|].
  cbn [LocalHistory.insert_row].
  destruct (LocalHistory.r_date x <? LocalHistory.r_date y); [|reflexivity].
  rewrite IH. apply perm_swap.
Qed.

Lemma sort_latest_first_perm l :
  Permutation (LocalHistory.sort_latest_first l) l.
Proof.
  induction l as [|x l IH]; [reflexivity|].
  cbn [LocalHistory.sort_latest_first fold_right].
  fold (LocalHistory.sort_latest_first l).
  rewrite insert_row_perm, IH. reflexivity.
Qed.

Lemma insert_row_sorted x l :
  Sorted (fun a b => LocalHistory.r_date b <= LocalHistory.r_date a) l ->
  Sorted (fun a b => LocalHistory.r_date b <= LocalHistory.r_date a)
    (LocalHistory.insert_row x l).
Proof.
  induction 1 as [|y l Hl IH Hhd]; [repeat constructor|].
  cbn [LocalHistory.insert_row].
  destruct (Z.ltb_spec (LocalHistory.r_date x) (LocalHistory.r_date y))
    as [Hlt|Hge].
  - constructor; [exact IH|].
    destruct l as [|z l]; cbn [LocalHistory.insert_row].
    + constructor. lia.
    + inversion Hhd; subst.
      destruct (LocalHistory.r_date x <? LocalHistory.r_date z);
        constructor; lia.
  - constructor; [constructor; assumption|]. constructor. lia.
Qed.

Lemma sort_latest_first_sorted l :
  StronglySorted
    (fun a b => LocalHistory.r_date b <= LocalHistory.r_date a)
    (LocalHistory.sort_latest_first l).
Proof.
  apply Sorted_StronglySorted; [intros a b c Hab Hbc; lia|].
  induction l as [|x l IH]; [constructor|].
  cbn [LocalHistory.sort_latest_first fold_right].
  apply insert_row_sorted, IH.
Qed.

Lemma format_hms_zero : AttendanceAPI._format_hms 0 = "00:00:00".
Proof. reflexivity. Qed.

(** X24. The history view: when the storage answers, [get_history] returns
    the stored rows, all of them and nothing else, latest date first, each
    with the seconds slept on its date (the sum of the stored sleep events
    of that date) printed by [_format_hms]; when the storage cannot be
    read it returns the empty list. It changes nothing. *)
Theorem get_history_latest_first (w : World) :
  (exists rows,
     LocalHistory.get_history IoDone w = (Returned rows, w) /\
     Permutation (map stored rows) (history (storage w)) /\
     StronglySorted
       (fun a b => LocalHistory.r_date b <= LocalHistory.r_date a) rows /\
     Forall
       (fun r =>
          LocalHistory.laptop_sleep r
          = AttendanceAPI._format_hms
              (slept_on (LocalHistory.r_date r) (sleep_events (storage w))))
       rows) /\
  LocalHistory.get_history IoError w = (Returned [], w).
Proof.
  split; [|reflexivity].
  unfold LocalHistory.get_history, try_except, bind, read_local_storage, ret.
  eexists. split; [reflexivity|].
  split; [|split].
  - rewrite sort_latest_first_perm, map_map.
    erewrite map_ext; [rewrite map_id; reflexivity|].
    intros [d a b i]. reflexivity.
  - apply sort_latest_first_sorted.
  - eapply Permutation_Forall;
      [symmetry; apply sort_latest_first_perm|].
    apply Forall_forall. intros r Hr.
    apply in_map_iff in Hr. destruct Hr as (item & <- & _).
    cbn [LocalHistory.laptop_sleep LocalHistory.r_date].
    rewrite sleep_by_date_total. cbn [LocalHistory.dict_get].
    rewrite Z.add_0_l.
    destruct (Z.eqb_spec (slept_on (h_date item) (sleep_events (storage w))) 0)
      as [->|_]; reflexivity.
Qed.

(** ** The idle detector *)

Lemma monitor_turn_cases d t :
  IdleDetector._monitor_turn d t = (d, []) \/
  IdleDetector._monitor_turn d t
  = (IdleDetector.mkIdleDetector (IdleDetector.on_idle d)
       (IdleDetector.on_active d) (IdleDetector.idle_timeout d)
       (negb (IdleDetector.is_idle d)),
     if IdleDetector.is_idle d then
       if IdleDetector.on_active d then [IdleDetector.call_on_active] else []
     else if IdleDetector.on_idle d then [IdleDetector.call_on_idle] else []).
Proof.
  unfold IdleDetector._monitor_turn.
  destruct (IdleDetector.is_idle d); cbn [negb andb].
  - destruct (2 * t <? of_int (IdleDetector.idle_timeout d)); auto.
  - destruct (t >? of_int (IdleDetector.idle_timeout d)); auto.
Qed.

(** The flag and the attributes after a run, whatever callbacks are set. *)
Lemma monitor_flips d idle_times :
  let d' := fst (IdleDetector._monitor d idle_times) in
  IdleDetector.is_idle d'
  = xorb (IdleDetector.is_idle d)
      (Nat.odd
         (flips (IdleDetector.idle_timeout d) (IdleDetector.is_idle d)
            idle_times)) /\
  IdleDetector.on_idle d' = IdleDetector.on_idle d /\
  IdleDetector.on_active d' = IdleDetector.on_active d /\
  IdleDetector.idle_timeout d' = IdleDetector.idle_timeout d.
Proof.
  revert d. induction idle_times as [|t rest IH]; intros d.
  - cbn. destruct (IdleDetector.is_idle d); auto.
  - cbn [IdleDetector._monitor flips]. unfold IdleDetector._monitor_turn.
    destruct (negb (IdleDetector.is_idle d)
              && (t >? of_int (IdleDetector.idle_timeout d))) eqn:Hup;
      [|destruct (IdleDetector.is_idle d
                  && (2 * t <? of_int (IdleDetector.idle_timeout d)))
          eqn:Hdown].
    + match goal with
      | |- context [IdleDetector._monitor ?d1 rest] =>
          specialize (IH d1); destruct (IdleDetector._monitor d1 rest)
            as [d2 calls']
      end.
      cbn [fst IdleDetector.is_idle IdleDetector.idle_timeout
           IdleDetector.on_idle IdleDetector.on_active] in *.
      destruct IH as (Hidle & Hoi & Hoa & Htimeout).
      split; [|auto]. rewrite Hidle, Nat.odd_succ, <- Nat.negb_odd.
      destruct (IdleDetector.is_idle d); [discriminate Hup|].
      destruct (Nat.odd _); reflexivity.
    + match goal with
      | |- context [IdleDetector._monitor ?d1 rest] =>
          specialize (IH d1); destruct (IdleDetector._monitor d1 rest)
            as [d2 calls']
      end.
      cbn [fst IdleDetector.is_idle IdleDetector.idle_timeout
           IdleDetector.on_idle IdleDetector.on_active] in *.
      destruct IH as (Hidle & Hoi & Hoa & Htimeout).
      split; [|auto]. rewrite Hidle, Nat.odd_succ, <- Nat.negb_odd.
      destruct (IdleDetector.is_idle d); [|discriminate Hdown].
      destruct (Nat.odd _); reflexivity.
    + specialize (IH d).
      destruct (IdleDetector._monitor d rest) as [d2 calls'].
      cbn [fst] in *. exact IH.
Qed.

(** The calls of a run go to callbacks that were given, one a flip at
    most. *)
Lemma monitor_calls d idle_times :
  let calls := snd (IdleDetector._monitor d idle_times) in
  forallb (given d) calls = true /\
  (List.length calls
   <= flips (IdleDetector.idle_timeout d) (IdleDetector.is_idle d) idle_times
   <= List.length idle_times)%nat /\
  (IdleDetector.on_idle d = true -> IdleDetector.on_active d = true ->
   alternating (IdleDetector.is_idle d) calls /\
   List.length calls
   = flips (IdleDetector.idle_timeout d) (IdleDetector.is_idle d) idle_times).
Proof.
  revert d. induction idle_times as [|t rest IH]; intros d.
  - cbn. repeat split; auto.
  - cbn [IdleDetector._monitor flips]. unfold IdleDetector._monitor_turn.
    destruct (negb (IdleDetector.is_idle d)
              && (t >? of_int (IdleDetector.idle_timeout d))) eqn:Hup;
      [|destruct (IdleDetector.is_idle d
                  && (2 * t <? of_int (IdleDetector.idle_timeout d)))
          eqn:Hdown].
    + match goal with
      | |- context [IdleDetector._monitor ?d1 rest] =>
          specialize (IH d1); destruct (IdleDetector._monitor d1 rest)
            as [d2 calls']
      end.
      cbn [snd IdleDetector.is_idle IdleDetector.idle_timeout
           IdleDetector.on_idle IdleDetector.on_active] in *.
      destruct IH as (Hgiven & Hlen & Halt).
      assert (Hgiven' : forallb (given d) calls' = true) by exact Hgiven.
      destruct (IdleDetector.is_idle d); [discriminate Hup|].
      destruct (IdleDetector.on_idle d) eqn:Hoi;
        cbn [app List.length forallb given alternating negb];
        rewrite ?Hoi; cbn [andb].
      * split; [exact Hgiven'|]. split; [lia|]. intros _ Hoa.
        destruct (Halt eq_refl Hoa) as (Ha & Hl). auto.
      * split; [exact Hgiven'|]. split; [lia|]. intros Hno. discriminate Hno.
    + match goal with
      | |- context [IdleDetector._monitor ?d1 rest] =>
          specialize (IH d1); destruct (IdleDetector._monitor d1 rest)
            as [d2 calls']
      end.
      cbn [snd IdleDetector.is_idle IdleDetector.idle_timeout
           IdleDetector.on_idle IdleDetector.on_active] in *.
      destruct IH as (Hgiven & Hlen & Halt).
      assert (Hgiven' : forallb (given d) calls' = true) by exact Hgiven.
      destruct (IdleDetector.is_idle d); [|discriminate Hdown].
      destruct (IdleDetector.on_active d) eqn:Hoa;
        cbn [app List.length forallb given alternating negb];
        rewrite ?Hoa; cbn [andb].
      * split; [exact Hgiven'|]. split; [lia|]. intros Hoi _.
        destruct (Halt Hoi eq_refl) as (Ha & Hl). auto.
      * split; [exact Hgiven'|]. split; [lia|]. intros _ Hno.
        discriminate Hno.
    + specialize (IH d).
      destruct (IdleDetector._monitor d rest) as [d2 calls'].
      cbn [snd app] in *. destruct IH as (Hgiven & Hlen & Halt).
      split; [exact Hgiven|]. split; [cbn [List.length]; lia|exact Halt].
Qed.

(** X25. The idle detector over any answers of [get_idle_time]: the idle
    flag flips whether or not a callback was given, and ends flipped once
    per flip; every call goes to a callback that was given (with the
    default [None] callbacks nothing is called), at most one call is made
    per flip and per turn; and when both callbacks were given, [on_idle]
    and [on_active] are called in turn, one call per flip, the first being
    [on_idle] when the detector starts not idle. The callbacks and the
    timeout are never changed. *)
Theorem idle_detector_alternates (d : IdleDetector.IdleDetector)
    (idle_times : list seconds) :
  let d' := fst (IdleDetector._monitor d idle_times) in
  let calls := snd (IdleDetector._monitor d idle_times) in
  let n :=
    flips (IdleDetector.idle_timeout d) (IdleDetector.is_idle d) idle_times in
  IdleDetector.is_idle d' = xorb (IdleDetector.is_idle d) (Nat.odd n) /\
  forallb (given d) calls = true /\
  (List.length calls <= n <= List.length idle_times)%nat /\
  (IdleDetector.on_idle d = true -> IdleDetector.on_active d = true ->
   alternating (IdleDetector.is_idle d) calls /\ List.length calls = n) /\
  IdleDetector.on_idle d' = IdleDetector.on_idle d /\
  IdleDetector.on_active d' = IdleDetector.on_active d /\
  IdleDetector.idle_timeout d' = IdleDetector.idle_timeout d.
Proof.
  intros d' calls n.
  destruct (monitor_flips d idle_times) as (Hidle & Hoi & Hoa & Htimeout).
  destruct (monitor_calls d idle_times) as (Hgiven & Hlen & Halt).
  split; [exact Hidle|]. split; [exact Hgiven|]. split; [exact Hlen|].
  split; [exact Halt|]. auto.
Qed.

Lemma idle_detector_alternates_over_two_flips :
  let idle_times := [of_int 100; of_int 301; of_int 200; of_int 149] in
  snd (IdleDetector._monitor (IdleDetector.init true true 300) idle_times)
  = [IdleDetector.call_on_idle; IdleDetector.call_on_active] /\
  snd (IdleDetector._monitor (IdleDetector.init false false 300) idle_times)
  = [] /\
  IdleDetector.is_idle
    (fst (IdleDetector._monitor (IdleDetector.init false false 300)
            idle_times))
  = false /\
  alternating false
    (snd (IdleDetector._monitor (IdleDetector.init true true 300)
            idle_times)).
Proof.
  intros idle_times.
  split; [vm_compute; reflexivity|]. split; [vm_compute; reflexivity|].
  split; [vm_compute; reflexivity|].
  apply (idle_detector_alternates (IdleDetector.init true true 300)
           idle_times); reflexivity.
Defined.

(** X26. The dead band of the idle detector: while every answer of
    [get_idle_time] lies between half the timeout and the timeout, both
    included, no callback is called and the detector stays as it is,
    idle or not. *)
Theorem idle_detector_dead_band (d : IdleDetector.IdleDetector)
    (idle_times : list seconds) :
  Forall
    (fun t =>
       of_int (IdleDetector.idle_timeout d) <= 2 * t /\
       t <= of_int (IdleDetector.idle_timeout d))
    idle_times ->
  IdleDetector._monitor d idle_times = (d, []).
Proof.
  induction 1 as [|t rest [Hlow Hhigh] Hrest IH]; [reflexivity|].
  cbn [IdleDetector._monitor]. unfold IdleDetector._monitor_turn.
  replace (t >? of_int (IdleDetector.idle_timeout d)) with false
    by (symmetry; rewrite Z.gtb_ltb; apply Z.ltb_ge; lia).
  replace (2 * t <? of_int (IdleDetector.idle_timeout d)) with false
    by (symmetry; apply Z.ltb_ge; lia).
  rewrite !andb_false_r, IH. reflexivity.
Qed.

Lemma idle_detector_dead_band_at_five_minutes :
  IdleDetector._monitor (IdleDetector.mkIdleDetector false false 300 true)
    [of_int 150; of_int 300; of_int 200]
  = (IdleDetector.mkIdleDetector false false 300 true, []).
Proof.
  apply (idle_detector_dead_band
           (IdleDetector.mkIdleDetector false false 300 true)).
  repeat constructor; vm_compute; discriminate.
Defined.

(** ** The activity tracker *)

Lemma on_activity_cases t1 t2 write t :
  let t' := fst (ActivityTracker._on_activity t1 t2 write t) in
  ActivityTracker._excel_log_interval t' = ActivityTracker._excel_log_interval t /\
  ActivityTracker.mouse_clicks_today t' = ActivityTracker.mouse_clicks_today t /\
  ActivityTracker.keys_pressed_today t' = ActivityTracker.keys_pressed_today t /\
  ActivityTracker._last_reset_date t' = ActivityTracker._last_reset_date t /\
  ActivityTracker.last_activity_time t' = t1 /\
  match snd (ActivityTracker._on_activity t1 t2 write t) with
  | Some row =>
      ActivityTracker._last_excel_log_time t' = t2 /\
      ActivityTracker._excel_log_interval t
      <= t2 - ActivityTracker._last_excel_log_time t /\
      row = ActivityTracker.mkExcelRow (ActivityTracker.mouse_clicks_today t)
              (ActivityTracker.keys_pressed_today t)
  | None =>
      ActivityTracker._last_excel_log_time t'
      = ActivityTracker._last_excel_log_time t
  end.
Proof.
  unfold ActivityTracker._on_activity.
  cbn [ActivityTracker._last_excel_log_time ActivityTracker._excel_log_interval
       ActivityTracker.mouse_clicks_today ActivityTracker.keys_pressed_today
       ActivityTracker._last_reset_date ActivityTracker.last_activity_time].
  destruct (Z.geb_spec (t2 - ActivityTracker._last_excel_log_time t)
              (ActivityTracker._excel_log_interval t)) as [Hge|Hlt];
    [destruct write|]; cbn; repeat split; auto; lia.
Qed.

Lemma reset_cases today t :
  let t' := ActivityTracker._reset_daily_counts_if_needed today t in
  ActivityTracker._excel_log_interval t' = ActivityTracker._excel_log_interval t /\
  ActivityTracker._last_excel_log_time t'
  = ActivityTracker._last_excel_log_time t /\
  ActivityTracker._last_reset_date t' = today /\
  (ActivityTracker._last_reset_date t = today -> t' = t) /\
  (ActivityTracker._last_reset_date t <> today ->
   ActivityTracker.mouse_clicks_today t' = 0 /\
   ActivityTracker.keys_pressed_today t' = 0).
Proof.
  unfold ActivityTracker._reset_daily_counts_if_needed.
  destruct (Z.eqb_spec today (ActivityTracker._last_reset_date t)) as [He|Hne];
    cbn; repeat split; auto; congruence.
Qed.

(** What a handler does to the throttle. *)
Lemma handle_throttle ev t :
  let t' := fst (ActivityTracker.handle ev t) in
  ActivityTracker._excel_log_interval t' = ActivityTracker._excel_log_interval t /\
  match snd (ActivityTracker.handle ev t) with
  | Some _ =>
      ActivityTracker._last_excel_log_time t' = current_time ev /\
      ActivityTracker._excel_log_interval t
      <= current_time ev - ActivityTracker._last_excel_log_time t
  | None =>
      ActivityTracker._last_excel_log_time t'
      = ActivityTracker._last_excel_log_time t
  end.
Proof.
  destruct ev as [t1 t2 write|pressed today t1 t2 write|today t1 t2 write
                 |t1 t2 write];
    cbn [ActivityTracker.handle current_time].
  - pose proof (on_activity_cases t1 t2 write t) as H. cbv zeta in H.
    destruct H as (Hi & _ & _ & _ & _ & H). split; [exact Hi|].
    destruct (snd (ActivityTracker._on_activity t1 t2 write t));
      [destruct H as (? & ? & _); auto|exact H].
  - unfold ActivityTracker._on_mouse_click.
    match goal with
    | |- context [ActivityTracker._on_activity t1 t2 write ?u] =>
        pose proof (on_activity_cases t1 t2 write u) as H; cbv zeta in H;
        destruct H as (Hi & _ & _ & _ & _ & H);
        assert (Hu : ActivityTracker._excel_log_interval u
                     = ActivityTracker._excel_log_interval t /\
                     ActivityTracker._last_excel_log_time u
                     = ActivityTracker._last_excel_log_time t)
    end.
    { destruct pressed; [|auto].
      destruct (reset_cases today t) as (Hr1 & Hr2 & _). cbv zeta in Hr1, Hr2.
      cbn. auto. }
    destruct Hu as (Hu1 & Hu2). rewrite Hu1, Hu2 in *.
    split; [exact Hi|].
    match goal with
    | |- match snd ?x with _ => _ end => destruct (snd x)
    end; [destruct H as (? & ? & _); auto|exact H].
  - unfold ActivityTracker._on_key_press.
    match goal with
    | |- context [ActivityTracker._on_activity t1 t2 write ?u] =>
        pose proof (on_activity_cases t1 t2 write u) as H; cbv zeta in H;
        destruct H as (Hi & _ & _ & _ & _ & H)
    end.
    destruct (reset_cases today t) as (Hr1 & Hr2 & _). cbv zeta in Hr1, Hr2.
    cbn [ActivityTracker._excel_log_interval
         ActivityTracker._last_excel_log_time] in *.
    rewrite Hr1, Hr2 in *. split; [exact Hi|].
    match goal with
    | |- match snd ?x with _ => _ end => destruct (snd x)
    end; [destruct H as (? & ? & _); auto|exact H].
  - pose proof (on_activity_cases t1 t2 write t) as H. cbv zeta in H.
    destruct H as (Hi & _ & _ & _ & _ & H). split; [exact Hi|].
    destruct (snd (ActivityTracker._on_activity t1 t2 write t));
      [destruct H as (? & ? & _); auto|exact H].
Qed.

(** X27. The throttle of the workbook: over any run of input events, two
    consecutive rows are written at least [_excel_log_interval] apart
    (sixty seconds, as [__init__] sets it), measured on the clock readings
    of the calls that wrote them, and the first at least that long after
    the last write before the run; the interval itself is never changed. *)
Theorem excel_rows_are_spaced (events : list ActivityTracker.Event)
    (t : ActivityTracker.ActivityTracker) :
  spaced (ActivityTracker._excel_log_interval t)
    (ActivityTracker._last_excel_log_time t) (snd (tracked events t)) /\
  ActivityTracker._excel_log_interval (fst (tracked events t))
  = ActivityTracker._excel_log_interval t /\
  ActivityTracker._excel_log_interval (ActivityTracker.init 0 0) = of_int 60.
Proof.
  split; [|split; [|reflexivity]].
  - revert t. induction events as [|ev rest IH]; intros t; [exact I|].
    cbn [tracked].
    pose proof (handle_throttle ev t) as H. cbv zeta in H.
    destruct (ActivityTracker.handle ev t) as [t1 row].
    cbn [fst snd] in H. destruct H as (Hi & H).
    specialize (IH t1).
    destruct (tracked rest t1) as [t2 rows]. cbn [fst snd] in *.
    rewrite Hi in IH.
    destruct row as [row|].
    + destruct H as (Hlast & Hgap). cbn [spaced].
      split; [exact Hgap|]. rewrite <- Hlast. exact IH.
    + rewrite <- H. exact IH.
  - revert t. induction events as [|ev rest IH]; intros t; [reflexivity|].
    cbn [tracked].
    pose proof (handle_throttle ev t) as H. cbv zeta in H.
    destruct (ActivityTracker.handle ev t) as [t1 row].
    cbn [fst snd] in H. destruct H as (Hi & _).
    specialize (IH t1).
    destruct (tracked rest t1) as [t2 rows]. cbn [fst snd] in *.
    congruence.
Qed.

(** What a handler does to the counters on the day they were last reset. *)
Lemma handle_counts ev t today :
  ActivityTracker._last_reset_date t = today ->
  reads_date today ev ->
  let t' := fst (ActivityTracker.handle ev t) in
  ActivityTracker._last_reset_date t' = today /\
  ActivityTracker.mouse_clicks_today t'
  = ActivityTracker.mouse_clicks_today t + (if is_click ev then 1 else 0) /\
  ActivityTracker.keys_pressed_today t'
  = ActivityTracker.keys_pressed_today t
    + (if is_key_press ev then 1 else 0).
Proof.
  intros Hday Hev.
  destruct ev as [t1 t2 write|pressed d t1 t2 write|d t1 t2 write
                 |t1 t2 write];
    cbn [ActivityTracker.handle is_click is_key_press reads_date] in *.
  - pose proof (on_activity_cases t1 t2 write t) as H. cbv zeta in H.
    destruct H as (_ & Hc & Hk & Hd & _). cbv zeta.
    rewrite Hc, Hk, Hd. repeat split; auto; lia.
  - unfold ActivityTracker._on_mouse_click.
    match goal with
    | |- context [ActivityTracker._on_activity t1 t2 write ?u] =>
        pose proof (on_activity_cases t1 t2 write u) as H; cbv zeta in H;
        destruct H as (_ & Hc & Hk & Hd & _)
    end.
    cbv zeta. rewrite Hc, Hk, Hd. destruct pressed.
    + subst d. destruct (reset_cases today t) as (_ & _ & _ & Hsame & _).
      cbv zeta in Hsame. rewrite (Hsame Hday). cbn. repeat split; auto; lia.
    + repeat split; auto; lia.
  - subst d. unfold ActivityTracker._on_key_press.
    match goal with
    | |- context [ActivityTracker._on_activity t1 t2 write ?u] =>
        pose proof (on_activity_cases t1 t2 write u) as H; cbv zeta in H;
        destruct H as (_ & Hc & Hk & Hd & _)
    end.
    cbv zeta. rewrite Hc, Hk, Hd.
    destruct (reset_cases today t) as (_ & _ & _ & Hsame & _).
    cbv zeta in Hsame. rewrite (Hsame Hday). cbn. repeat split; auto; lia.
  - pose proof (on_activity_cases t1 t2 write t) as H. cbv zeta in H.
    destruct H as (_ & Hc & Hk & Hd & _). cbv zeta.
    rewrite Hc, Hk, Hd. repeat split; auto; lia.
Qed.

Lemma tracked_counts events : forall t today,
  ActivityTracker._last_reset_date t = today ->
  Forall (reads_date today) events ->
  let t' := fst (tracked events t) in
  ActivityTracker._last_reset_date t' = today /\
  ActivityTracker.mouse_clicks_today t'
  = ActivityTracker.mouse_clicks_today t
    + Z.of_nat (List.length (filter is_click events)) /\
  ActivityTracker.keys_pressed_today t'
  = ActivityTracker.keys_pressed_today t
    + Z.of_nat (List.length (filter is_key_press events)).
Proof.
  induction events as [|ev rest IH]; intros t today Hday Hall.
  - cbn. repeat split; auto; lia.
  - inversion Hall as [|? ? Hev Hrest]; subst.
    pose proof (handle_counts ev t _ eq_refl Hev) as H. cbv zeta in H.
    cbn [tracked]. destruct (ActivityTracker.handle ev t) as [t1 row].
    cbn [fst] in H. destruct H as (Hd & Hc & Hk).
    specialize (IH t1 _ Hd Hrest). cbv zeta in IH.
    destruct (tracked rest t1) as [t2 rows]. cbn [fst] in *.
    destruct IH as (Hd' & Hc' & Hk').
    cbn [filter]. split; [exact Hd'|].
    rewrite Hc', Hk', Hc, Hk.
    destruct (is_click ev), (is_key_press ev); cbn [List.length];
      split; lia.
Qed.

(** X28. The counters of the day: over a run of input events that all
    read the date of the last reset, the click counter grows by the number
    of button presses and the key counter by the number of key presses;
    moves, button releases and key releases count nothing. *)
Theorem counters_count_the_day (events : list ActivityTracker.Event)
    (t : ActivityTracker.ActivityTracker) (today : Z) :
  ActivityTracker._last_reset_date t = today ->
  Forall (reads_date today) events ->
  let t' := fst (tracked events t) in
  ActivityTracker._last_reset_date t' = today /\
  ActivityTracker.mouse_clicks_today t'
  = ActivityTracker.mouse_clicks_today t
    + Z.of_nat (List.length (filter is_click events)) /\
  ActivityTracker.keys_pressed_today t'
  = ActivityTracker.keys_pressed_today t
    + Z.of_nat (List.length (filter is_key_press events)).
Proof. intros Hday Hall. exact (tracked_counts events t today Hday Hall). Qed.

Lemma counters_count_the_day_over_five_events :
  let events :=
    [ActivityTracker.KeyPress 19675 (of_int 100) (of_int 100) IoDone;
     ActivityTracker.KeyRelease (of_int 101) (of_int 101) IoDone;
     ActivityTracker.Click true 19675 (of_int 102) (of_int 102) IoDone;
     ActivityTracker.Click false 19675 (of_int 103) (of_int 103) IoDone;
     ActivityTracker.Move (of_int 104) (of_int 104) IoError] in
  let t' := fst (tracked events (ActivityTracker.init (of_int 90) 19675)) in
  ActivityTracker._last_reset_date t' = 19675 /\
  ActivityTracker.mouse_clicks_today t' = 0 + 1 /\
  ActivityTracker.keys_pressed_today t' = 0 + 1.
Proof.
  intros events.
  apply (counters_count_the_day events
           (ActivityTracker.init (of_int 90) 19675) 19675);
    [reflexivity|repeat constructor].
Defined.

(** X29. A new day restarts the counters: when a key press or a button
    press reads a date other than the one of the last reset, and the
    events after it read that same date, the counters end at the numbers of
    button presses and of key presses of the run, that event included:
    what was counted on the day before is dropped. *)
Theorem new_day_restarts_counters (ev : ActivityTracker.Event)
    (rest : list ActivityTracker.Event)
    (t : ActivityTracker.ActivityTracker) (today : Z) :
  ActivityTracker._last_reset_date t <> today ->
  is_click ev || is_key_press ev = true ->
  Forall (reads_date today) (ev :: rest) ->
  let t' := fst (tracked (ev :: rest) t) in
  ActivityTracker._last_reset_date t' = today /\
  ActivityTracker.mouse_clicks_today t'
  = Z.of_nat (List.length (filter is_click (ev :: rest))) /\
  ActivityTracker.keys_pressed_today t'
  = Z.of_nat (List.length (filter is_key_press (ev :: rest))).
Proof.
  intros Hday Hpress Hall.
  inversion Hall as [|? ? Hev Hrest]; subst.
  assert (Hfirst :
    let t1 := fst (ActivityTracker.handle ev t) in
    ActivityTracker._last_reset_date t1 = today /\
    ActivityTracker.mouse_clicks_today t1 = (if is_click ev then 1 else 0) /\
    ActivityTracker.keys_pressed_today t1
    = (if is_key_press ev then 1 else 0)).
  { destruct ev as [t1 t2 write|pressed d t1 t2 write|d t1 t2 write
                   |t1 t2 write];
      cbn [is_click is_key_press orb] in Hpress; try discriminate Hpress;
      cbn [ActivityTracker.handle is_click is_key_press reads_date] in *.
    - rewrite orb_false_r in Hpress. subst pressed. cbn in Hev. subst d.
      unfold ActivityTracker._on_mouse_click.
      match goal with
      | |- context [ActivityTracker._on_activity t1 t2 write ?u] =>
          pose proof (on_activity_cases t1 t2 write u) as H; cbv zeta in H;
          destruct H as (_ & Hc & Hk & Hd & _)
      end.
      cbv zeta. rewrite Hc, Hk, Hd.
      destruct (reset_cases today t) as (_ & _ & Hd' & _ & Hzero).
      cbv zeta in Hd', Hzero. destruct (Hzero Hday) as (Hc0 & Hk0).
      cbn [ActivityTracker._last_reset_date ActivityTracker.mouse_clicks_today
           ActivityTracker.keys_pressed_today].
      rewrite Hc0, Hk0. auto.
    - subst d. unfold ActivityTracker._on_key_press.
      match goal with
      | |- context [ActivityTracker._on_activity t1 t2 write ?u] =>
          pose proof (on_activity_cases t1 t2 write u) as H; cbv zeta in H;
          destruct H as (_ & Hc & Hk & Hd & _)
      end.
      cbv zeta. rewrite Hc, Hk, Hd.
      destruct (reset_cases today t) as (_ & _ & Hd' & _ & Hzero).
      cbv zeta in Hd', Hzero. destruct (Hzero Hday) as (Hc0 & Hk0).
      cbn [ActivityTracker._last_reset_date ActivityTracker.mouse_clicks_today
           ActivityTracker.keys_pressed_today].
      rewrite Hc0, Hk0. auto. }
  cbv zeta in Hfirst. cbn [tracked].
  destruct (ActivityTracker.handle ev t) as [t1 row]. cbn [fst] in Hfirst.
  destruct Hfirst as (Hd & Hc & Hk).
  pose proof (tracked_counts rest t1 today Hd Hrest) as H. cbv zeta in H.
  destruct (tracked rest t1) as [t2 rows]. cbn [fst] in *.
  destruct H as (Hd' & Hc' & Hk').
  cbn [filter]. split; [exact Hd'|].
  rewrite Hc', Hk', Hc, Hk.
  destruct (is_click ev), (is_key_press ev); cbn [List.length]; split; lia.
Qed.

Lemma new_day_restarts_counters_after_midnight :
  let t := ActivityTracker.mkActivityTracker 0 0 (of_int 60) 40 900 19675 in
  let t' :=
    fst (tracked
           [ActivityTracker.KeyPress 19676 (of_int 5) (of_int 5) IoDone;
            ActivityTracker.Click true 19676 (of_int 6) (of_int 6) IoDone]
           t) in
  ActivityTracker._last_reset_date t' = 19676 /\
  ActivityTracker.mouse_clicks_today t' = 1 /\
  ActivityTracker.keys_pressed_today t' = 1.
Proof.
  intros t.
  apply (new_day_restarts_counters
           (ActivityTracker.KeyPress 19676 (of_int 5) (of_int 5) IoDone)
           [ActivityTracker.Click true 19676 (of_int 6) (of_int 6) IoDone]
           t 19676);
    [cbn; lia|reflexivity|repeat constructor].
Defined.
